(** * School infrastructure dashboard: cleaning, metrics and reports

    A shallow embedding of [residential_schools_dash.py].  The script reads a
    sheet into a pandas frame, renames and cleans its columns, derives a
    department tag and six per-student ratios, and reports totals,
    fulfillment figures and worst-five rankings.

    Conventions of the embedding.
    - Text is [string]; [lower], [upper] and [strip] act on the ASCII
      repertoire (Python follows the Unicode tables beyond it).
    - An int64 column holds [Z]; a float64 value is an exact rational, an
      infinity or NaN ([float]).  Parsing, division and the cast to an
      integer are exact: rounding to binary64 and the int64 range of casts
      and sums are not modelled.
    - A frame is the list of its rows, a row a finite map from column label
      to cell.  A computation that pandas stops with an exception is [None].
    - Plotly figures and Streamlit widgets are not modelled; a chart function
      returns the numbers the figure is built from. *)

From Stdlib Require Import ZArith QArith String Ascii List Sorted Lia.
From stdpp Require Import base option gmap strings list pretty.

Open Scope string_scope.
Open Scope Z_scope.

(** ** Text primitives (Python [str] methods used by the script) *)

Module Text.

Definition code (c : ascii) : nat := nat_of_ascii c.

Definition between (lo hi : nat) (c : ascii) : bool :=
  (lo <=? code c)%nat && (code c <=? hi)%nat.

Definition is_digit : ascii -> bool := between 48 57.
Definition is_upper : ascii -> bool := between 65 90.
Definition is_lower : ascii -> bool := between 97 122.

(** [str.isspace] on ASCII: tab, LF, VT, FF, CR, the four separators
    FS..US and the space. *)
Definition is_space (c : ascii) : bool := between 9 13 c || between 28 32 c.

Definition to_lower (c : ascii) : ascii :=
  if is_upper c then ascii_of_nat (code c + 32) else c.

Definition to_upper (c : ascii) : ascii :=
  if is_lower c then ascii_of_nat (code c - 32) else c.

Fixpoint smap (f : ascii -> ascii) (s : string) : string :=
  match s with
  | EmptyString => EmptyString
  | String c s' => String (f c) (smap f s')
  end.

(** [s.lower()] and [s.upper()] *)
Definition lower : string -> string := smap to_lower.
Definition upper : string -> string := smap to_upper.

Fixpoint lstrip (s : string) : string :=
  match s with
  | EmptyString => EmptyString
  | String c s' => if is_space c then lstrip s' else s
  end.

Fixpoint rstrip (s : string) : string :=
  match s with
  | EmptyString => EmptyString
  | String c s' =>
      match rstrip s' with
      | EmptyString => if is_space c then EmptyString else String c EmptyString
      | r => String c r
      end
  end.

(** [s.strip()] *)
Definition strip (s : string) : string := rstrip (lstrip s).

(** [s.startswith(p)] *)
Fixpoint startswith (p s : string) : bool :=
  match p, s with
  | EmptyString, _ => true
  | String a p', String b s' => Ascii.eqb a b && startswith p' s'
  | String _ _, EmptyString => false
  end.

(** [p in s] *)
Fixpoint contains (p s : string) : bool :=
  startswith p s ||
  match s with
  | EmptyString => false
  | String _ s' => contains p s'
  end.

(** [s.split(sep)] for a separator of one character, as both calls of the
    script have it.  The result is never empty. *)
Fixpoint split (sep : ascii) (s : string) : list string :=
  match s with
  | EmptyString => [EmptyString]
  | String c s' =>
      if Ascii.eqb c sep then EmptyString :: split sep s'
      else match split sep s' with
           | x :: xs => String c x :: xs
           | [] => [String c EmptyString]
           end
  end.

(** [l[0]]: [None] stands for IndexError. *)
Definition item0 (l : list string) : option string := head l.

Fixpoint sfilter (keep : ascii -> bool) (s : string) : string :=
  match s with
  | EmptyString => EmptyString
  | String c s' => if keep c then String c (sfilter keep s') else sfilter keep s'
  end.

(** The character class of the pattern [[^0-9\.\-]] is the complement of
    this one. *)
Definition numeric_char (c : ascii) : bool :=
  is_digit c || Ascii.eqb c "." || Ascii.eqb c "-".

(** [s.replace(r'[^0-9\.\-]', '', regex=True)] *)
Definition remove_non_numeric : string -> string := sfilter numeric_char.

Fixpoint all_chars (p : ascii -> bool) (s : string) : bool :=
  match s with
  | EmptyString => true
  | String c s' => p c && all_chars p s'
  end.

End Text.

(** ** Numbers *)

Module Num.

(** A float64 value: a finite number, an infinity or NaN. *)
Inductive float : Type :=
| Fin (q : Q)
| Inf (negative : bool)
| NaN.

Definition digit_val (c : ascii) : Z := Z.of_nat (Text.code c) - 48.

(** Value of a run of decimal digits, most significant first. *)
Fixpoint digits_val (acc : Z) (s : string) : Z :=
  match s with
  | EmptyString => acc
  | String c s' => digits_val (10 * acc + digit_val c) s'
  end.

(** [(before, Some after)] at the first period, [(s, None)] without one. *)
Fixpoint cut_period (s : string) : string * option string :=
  match s with
  | EmptyString => (EmptyString, None)
  | String c s' =>
      if Ascii.eqb c "." then (EmptyString, Some s')
      else let '(a, b) := cut_period s' in (String c a, b)
  end.

Fixpoint pow10 (n : nat) : positive :=
  match n with
  | O => 1%positive
  | S n' => (10 * pow10 n')%positive
  end.

(** [pd.to_numeric(s, errors='coerce')] on a scalar string made of digits
    and periods, the only strings the script passes to it: an integer
    literal, or digits with one period and at least one digit, gives its
    value; the empty string and everything else is coerced to NaN.
    Signs, exponents and the words pandas also reads cannot reach this
    call: the pattern and the split on the hyphen remove them. *)
Definition to_numeric (s : string) : float :=
  match cut_period s with
  | (ip, None) =>
      if Text.all_chars Text.is_digit ip && negb (String.eqb ip "")
      then Fin (inject_Z (digits_val 0 ip))
      else NaN
  | (ip, Some fp) =>
      if Text.all_chars Text.is_digit ip && Text.all_chars Text.is_digit fp
         && negb (String.eqb ip "" && String.eqb fp "")
      then Fin (Qmake (digits_val (digits_val 0 ip) fp)
                      (pow10 (String.length fp)))
      else NaN
  end.

(** [x.fillna(0)] on one value *)
Definition fillna0 (x : float) : float :=
  match x with
  | NaN => Fin 0
  | _ => x
  end.

(** [x.astype(int)] on one value: truncation toward zero.  pandas refuses
    to cast NaN or an infinity. *)
Definition astype_int (x : float) : option Z :=
  match x with
  | Fin q => Some (Z.quot (Qnum q) (Zpos (Qden q)))
  | _ => None
  end.

(** Float division and multiplication with the IEEE special cases. *)
Definition is_zero (q : Q) : bool := Qnum q =? 0.
Definition is_neg (q : Q) : bool := Qnum q <? 0.

Definition fdiv (x y : float) : float :=
  match x, y with
  | NaN, _ | _, NaN => NaN
  | Inf _, Inf _ => NaN
  | Inf s, Fin q => Inf (xorb s (is_neg q))
  | Fin _, Inf _ => Fin 0
  | Fin p, Fin q =>
      if is_zero q then (if is_zero p then NaN else Inf (is_neg p))
      else Fin (p / q)
  end.

Definition fmul (x y : float) : float :=
  match x, y with
  | NaN, _ | _, NaN => NaN
  | Inf s, Inf t => Inf (xorb s t)
  | Inf s, Fin q | Fin q, Inf s =>
      if is_zero q then NaN else Inf (xorb s (is_neg q))
  | Fin p, Fin q => Fin (p * q)
  end.

Definition of_int (z : Z) : float := Fin (inject_Z z).

End Num.

(** ** Cell cleaning policies (the two lambdas of [load_and_clean_data]) *)

Module Clean.
Import Text Num.

(** Lines 53-55: [.str.lower().str.strip().apply(lambda x: 'yes' if 'yes'
    in x else ('no' if 'no' in x else x))] on one cell text. *)
Definition yesno_lambda (x : string) : string :=
  if contains "yes" x then "yes" else if contains "no" x then "no" else x.

Definition clean_yesno (s : string) : string :=
  yesno_lambda (strip (lower s)).

(** Line 61: [lambda x: pd.to_numeric(x.split('-')[0].split('$')[0]
    .strip(), errors='coerce')]. *)
Definition numeric_lambda (x : string) : option float :=
  a ← item0 (split "-" x);
  b ← item0 (split "$" a);
  Some (to_numeric (strip b)).


(** Lines 31-36. *)
Definition get_department (school_name : string) : string :=
  let name := upper school_name in
  if startswith "KGBV" name then "KGBV (Girls)"
  else if startswith "TGMS" name then "TGMS (Co-ed)"
  else if startswith "PMSHRI" name then "PMSHRI (Co-ed)"
  else "Other".

End Clean.

(** ** Frames *)

Module Frame.
Import Text Num.

(** One value of a pandas column: text, an int64, or a float64 (NaN, the
    missing value, is a float). *)
Inductive cell : Type :=
| Str (s : string)
| Int (z : Z)
| Flt (x : float).

Abbreviation row := (gmap string cell).
Abbreviation frame := (list (gmap string cell)).

(** [str(v)], the element-wise action of [.astype(str)].  The shortest
    decimal form Python prints for a finite float is outside the
    embedding ([None]); missing cells print as ["nan"]. *)
Definition astype_str (v : cell) : option string :=
  match v with
  | Str s => Some s
  | Int z => Some (pretty z)
  | Flt NaN => Some "nan"
  | Flt (Inf false) => Some "inf"
  | Flt (Inf true) => Some "-inf"
  | Flt (Fin _) => None
  end.

(** [pd.isna] on one value *)
Definition isna (v : cell) : bool :=
  match v with
  | Flt NaN => true
  | _ => false
  end.

(** Numeric view of a cell in column arithmetic; text has none. *)
Definition to_float (v : cell) : option float :=
  match v with
  | Int z => Some (of_int z)
  | Flt x => Some x
  | Str _ => None
  end.

(** Element of [a / b] (true division: the result is a float). *)
Definition cell_div (a b : cell) : option cell :=
  x ← to_float a; y ← to_float b; Some (Flt (fdiv x y)).

(** Element of [a * k] for a float column [a] and an integer constant. *)
Definition cell_scale (a : cell) (k : Z) : option cell :=
  match a with
  | Flt x => Some (Flt (fmul x (of_int k)))
  | Int z => Some (Int (z * k))
  | Str _ => None
  end.

(** Element of [s.replace(0, np.nan)] *)
Definition replace_zero_nan (v : cell) : cell :=
  match v with
  | Int 0 => Flt NaN
  | Flt (Fin q) => if is_zero q then Flt NaN else v
  | _ => v
  end.

(** [df[c]]: the column as a list, [None] (KeyError) when a row lacks the
    label. *)
Definition column (c : string) (df : frame) : option (list cell) :=
  mapM (λ r : row, r !! c) df.

(** [df[dst] = e], where [e] gives each element of the assigned series
    from the row it belongs to. *)
Definition set_col (dst : string) (e : row → option cell) (df : frame)
  : option frame :=
  mapM (λ r : row, v ← e r; Some (<[dst := v]> r)) df.

(** [for c in cols: df = body c df] *)
Fixpoint for_each {A} (cols : list A) (body : A → frame → option frame)
    (df : frame) : option frame :=
  match cols with
  | [] => Some df
  | c :: cols' => df' ← body c df; for_each cols' body df'
  end.

(** [df[mask]] with the mask computed row by row. *)
Fixpoint select (p : row → option bool) (df : frame) : option frame :=
  match df with
  | [] => Some []
  | r :: df' =>
      b ← p r; rest ← select p df';
      Some (if b : bool then r :: rest else rest)
  end.

(** [s.sum()] of an int64 column *)
Fixpoint sum_int (l : list cell) : option Z :=
  match l with
  | [] => Some 0
  | Int z :: l' => t ← sum_int l'; Some (z + t)
  | _ :: _ => None
  end.

(** [df.columns], read off the first row (every row of a frame carries the
    same labels). *)
Definition columns (df : frame) : list string :=
  match df with
  | [] => []
  | r :: _ => (map_to_list r).*1
  end.

(** [df[cols]]: the frame restricted to the listed columns. *)
Definition project (cols : list string) (df : frame) : option frame :=
  mapM (λ r : row,
          kvs ← mapM (λ c, v ← r !! c; Some (c, v)) cols;
          Some (list_to_map kvs : row)) df.

(** [df.dropna(subset=cols)] *)
Definition dropna (cols : list string) (df : frame) : option frame :=
  select (λ r : row, vs ← mapM (λ c, r !! c) cols;
                     Some (forallb (λ v, negb (isna v)) vs)) df.

(** Order of [sort_values(ascending=True)] on float keys: numeric order,
    NaN last. *)
Definition fle (x y : float) : bool :=
  match x, y with
  | _, NaN => true
  | NaN, _ => false
  | Inf true, _ => true
  | _, Inf false => true
  | Fin p, Fin q => Qle_bool p q
  | _, _ => false
  end.

Fixpoint insert_key {A} (a : float * A) (l : list (float * A))
  : list (float * A) :=
  match l with
  | [] => [a]
  | b :: l' => if fle a.1 b.1 then a :: l else b :: insert_key a l'
  end.

(** Insertion sort on the keys; rows with equal keys keep their order. *)
Definition sort_keys {A} (l : list (float * A)) : list (float * A) :=
  foldr insert_key [] l.

(** [df.sort_values(by=c, ascending=True)].  pandas leaves the order of
    rows with equal keys to numpy; the embedding keeps them in input
    order. *)
Definition sort_values (c : string) (df : frame) : option frame :=
  keys ← mapM (λ r : row, v ← r !! c; to_float v) df;
  Some ((sort_keys (zip keys df)).*2).

(** [df.head(n)] *)
Definition head_rows (n : nat) (df : frame) : frame := take n df.

End Frame.

(** ** Loading and cleaning (lines 7-76) *)

Module Pipeline.
Import Text Num Clean Frame.

Definition COLUMN_MAPPING : list (string * string) :=
  [ ("Sl_no", "sl_no"); ("School_Name", "school_name");
    ("Totel_enrolled_students", "enrolled_students");
    ("Vacant_seats", "vacant_seats");
    ("Driniking water Facility (Yes/No)", "drinking_water");
    ("RO Plant available or not", "ro_plant");
    ("No of class rooms available", "class_rooms_available");
    ("No of class rooms required", "class_rooms_required");
    ("No of Darmitories Available", "dormitories_available");
    ("No of Darmitories Required", "dormitories_required");
    ("No of Functional Toilets Availabale", "toilets_functional_available");
    ("No of Toilets Required", "toilets_required");
    ("No of Bathrooms Available", "bathrooms_available");
    ("No of Bathrooms Required", "bathrooms_required");
    ("No of Dual Desk Tables Available", "dual_desk_available");
    ("No of Dual Desk Tables Required", "dual_desk_required");
    ("No of Computers Available", "computers_available");
    ("Internet Facility available(yes /No)", "internet_facility");
    ("No of Dining Tables Availabale", "dining_tables_available");
    ("No of Dining Tables Required", "dining_tables_required");
    ("No of cots Available", "cots_available");
    ("No of cots Required", "cots_required");
    ("No of Matresses available", "matresses_available");
    ("No of Matresses required", "matresses_required");
    ("No of Blankets Available", "blankets_available");
    ("No of Blankets Required", "blankets_required");
    ("Solar Water Heater/ Geyser Available", "swh_available");
    ("Solar Water Heater/ Geyser Requirement", "swh_required");
    ("No of IFP panels availble", "ifp_panels_available");
    ("Vacancy", "vacancy_count"); ("Remarks", "remarks") ].

(** The new label of a column: its entry in the table, else itself. *)
Definition rename_label (k : string) : string :=
  default k ((list_to_map COLUMN_MAPPING : gmap string string) !! k).

(** [df.rename(columns=COLUMN_MAPPING)].  Labels are taken to stay
    distinct after renaming. *)
Definition rename_columns (df : frame) : frame :=
  (λ r : row, kmap rename_label r : row) <$> df.

Definition yes_no_cols : list string :=
  ["drinking_water"; "ro_plant"; "internet_facility";
   "swh_available"; "swh_required"].

(** [list(set(COLUMN_MAPPING.values()) - set([...]))] *)
Definition numeric_cols : list string :=
  elements ((list_to_set (COLUMN_MAPPING.*2) : gset string)
            ∖ list_to_set ["sl_no"; "school_name"; "drinking_water";
                           "ro_plant"; "internet_facility"; "remarks"]).

(** [df[c].astype(str)] followed by a function of the text *)
Definition text_of (c : string) (f : string → option cell) (r : row)
  : option cell :=
  v ← r !! c; s ← astype_str v; f s.

(** [df[c].apply(f)] where [f] calls [str] methods on its argument *)
Definition apply_str (c : string) (f : string → option cell) (r : row)
  : option cell :=
  v ← r !! c;
  match v with
  | Str x => f x
  | _ => None
  end.

(** [df[c].fillna(0).astype(int)] *)
Definition fillna0_astype_int (c : string) (r : row) : option cell :=
  v ← r !! c;
  match v with
  | Flt x => z ← astype_int (fillna0 x); Some (Int z)
  | Int z => Some (Int z)
  | Str _ => None
  end.

(** [df[num] / df['enrolled_students_safe']] *)
Definition per_student (num : string) (r : row) : option cell :=
  a ← r !! num; e ← r !! "enrolled_students_safe"; cell_div a e.

(** [df[num] / df['enrolled_students_safe'] * 100] *)
Definition per_100_students (num : string) (r : row) : option cell :=
  x ← per_student num r; cell_scale x 100.

(** Lines 47-76, from the frame [pd.read_csv] returned. *)
Definition load_and_clean_data (sheet : frame) : option frame :=
  let df := rename_columns sheet in
  df ← set_col "school_name"
         (text_of "school_name" (λ s, Some (Str (strip s)))) df;
  df ← for_each yes_no_cols (λ col,
         set_col col
           (text_of col (λ s, Some (Str (yesno_lambda (strip (lower s))))))) df;
  df ← for_each numeric_cols (λ col df,
         df ← set_col col
                (text_of col (λ s, Some (Str (remove_non_numeric s)))) df;
         df ← set_col col
                (apply_str col (λ x, v ← numeric_lambda x; Some (Flt v))) df;
         set_col col (fillna0_astype_int col) df) df;
  df ← set_col "Department"
         (text_of "school_name" (λ s, Some (Str (get_department s)))) df;
  df ← set_col "enrolled_students_safe"
         (λ r, v ← r !! "enrolled_students"; Some (replace_zero_nan v)) df;
  df ← set_col "ratio_classrooms" (per_100_students "class_rooms_available") df;
  df ← set_col "ratio_toilets" (per_100_students "toilets_functional_available") df;
  df ← set_col "ratio_bathrooms" (per_100_students "bathrooms_available") df;
  df ← set_col "ratio_desks" (per_student "dual_desk_available") df;
  df ← set_col "ratio_cots" (per_student "cots_available") df;
  df ← set_col "ratio_computers" (per_student "computers_available") df;
  Some df.

End Pipeline.

(** ** The dashboard (lines 93-290) *)

Module Dashboard.
Import Text Num Clean Frame Pipeline.

(** Lines 102-105.  [df['Department'] == selected] compares each cell
    with the selected text.  (The script stops before this point when the
    loaded frame is empty.) *)
Definition cell_is (s : string) (v : cell) : bool :=
  match v with
  | Str t => String.eqb t s
  | _ => false
  end.

Definition df_filtered (selected_department : string) (df_original : frame)
  : option frame :=
  if negb (String.eqb selected_department "All")
  then select (λ r : row, v ← r !! "Department";
                          Some (cell_is selected_department v)) df_original
  else Some df_original.

(** *** Fulfillment (lines 109-162) *)

Record fulfillment : Type := {
  available : Z;
  required_deficiency : Z;
  total_need : Z;
  fulfillment_ratio : float;
  data : list (string * Z)  (* the rows (Status, Count) of the bar chart *)
}.

Definition create_fulfillment_chart (df : frame)
    (col_available col_required : string) : option fulfillment :=
  available ← column col_available df ≫= sum_int;
  required_deficiency ← column col_required df ≫= sum_int;
  let total_need := available + required_deficiency in
  let fulfillment_ratio :=
    if 0 <? total_need then fdiv (of_int available) (of_int total_need)
    else Fin 1 in
  let data := [("Deficient", required_deficiency); ("Available", available)] in
  let data := filter (λ sc : string * Z, 0 < sc.2) data in
  Some {| available := available;
          required_deficiency := required_deficiency;
          total_need := total_need;
          fulfillment_ratio := fulfillment_ratio;
          data := data |}.

(** *** Key figures (lines 198-202) *)

Definition total_schools (df : frame) : nat := length df.

Definition total_enrolled (df : frame) : option Z :=
  column "enrolled_students" df ≫= sum_int.

Definition total_vacant (df : frame) : option Z :=
  column "vacant_seats" df ≫= sum_int.

Definition total_capacity (df : frame) : option Z :=
  e ← total_enrolled df; v ← total_vacant df; Some (e + v).

Definition overall_vacancy_percent (df : frame) : option float :=
  total_vacant ← total_vacant df;
  total_capacity ← total_capacity df;
  Some (if 0 <? total_capacity
        then fmul (fdiv (of_int total_vacant) (of_int total_capacity))
                  (of_int 100)
        else of_int 0).

(** *** Per-student rankings (lines 242-278) *)

Definition ratio_cols (df : frame) : list string :=
  filter (λ c, startswith "ratio_" c = true) (columns df).

Definition ratios_df (df : frame) : option frame :=
  let cols := ratio_cols df in
  sub ← project (["school_name"; "enrolled_students"] ++ cols) df;
  dropna ("enrolled_students" :: cols) sub.

Definition ratio_mapping : list (string * string) :=
  [ ("ratio_classrooms", "Classrooms / 100 Students");
    ("ratio_toilets", "Toilets / 100 Students");
    ("ratio_bathrooms", "Bathrooms / 100 Students");
    ("ratio_desks", "Dual Desks / Student");
    ("ratio_cots", "Cots / Student");
    ("ratio_computers", "Computers / Student") ].

(** Line 263 *)
Definition df_ranked (ratio_col : string) (ratios : frame) : option frame :=
  head_rows 5 <$> sort_values ratio_col ratios.

(** Lines 266-267: the two columns of one table, before the values are
    formatted for display. *)
Definition df_table (ratio_col : string) (ratios : frame)
  : option (list (cell * cell)) :=
  ranked ← df_ranked ratio_col ratios;
  mapM (λ r : row, n ← r !! "school_name"; x ← r !! ratio_col; Some (n, x))
       ranked.

(** Lines 254-278: [None] inside is the warning shown for an empty
    [ratios_df]; otherwise one table per entry of [ratio_mapping] whose
    column is present, under its display name. *)
Definition ranking_tables (df : frame)
  : option (option (list (string * list (cell * cell)))) :=
  ratios ← ratios_df df;
  match ratios with
  | [] => Some None
  | _ =>
      tables ← mapM (λ m : string * string,
                       t ← df_table m.1 ratios; Some (m.2, t))
                    (filter (λ m : string * string, m.1 ∈ columns ratios)
                            ratio_mapping);
      Some (Some tables)
  end.

End Dashboard.

(** ** Notions used to state the properties *)

Module Spec.
Import Text Num.

(** [p] occurs in [s] as a substring. *)
Definition occurs (p s : string) : Prop :=
  ∃ a b : string, s = (a ++ p ++ b)%string.

(** [s] begins with [p]. *)
Definition has_prefix (p s : string) : Prop :=
  ∃ t : string, s = (p ++ t)%string.


Definition blank (s : string) : Prop := all_chars is_space s = true.

Definition no_space_at_start (s : string) : Prop :=
  match s with
  | EmptyString => True
  | String c _ => is_space c = false
  end.

Definition no_space_at_end (s : string) : Prop :=
  ∀ (u : string) (c : ascii), s = (u ++ String c "")%string → is_space c = false.

(** [t] is [s] without its leading and trailing white space. *)
Definition trimmed (s t : string) : Prop :=
  (∃ a b : string, s = (a ++ t ++ b)%string ∧ blank a ∧ blank b)
  ∧ no_space_at_start t ∧ no_space_at_end t.

(** The part of [s] before the first [sep] (all of [s] without one). *)
Fixpoint first_segment (sep : ascii) (s : string) : string :=
  match s with
  | EmptyString => EmptyString
  | String c s' =>
      if Ascii.eqb c sep then EmptyString else String c (first_segment sep s')
  end.

(** The numeric policy in the words of its description: drop what is not
    a digit, a period or a hyphen; keep what precedes the first hyphen,
    then what precedes the first dollar sign; read it as a number, 0 when
    it is not one; truncate. *)
Definition numeric_policy (s : string) : Z :=
  let kept := sfilter (λ c, is_digit c || Ascii.eqb c "." || Ascii.eqb c "-") s in
  let seg := first_segment "$" (first_segment "-" kept) in
  match to_numeric seg with
  | Fin q => Z.quot (Qnum q) (Zpos (Qden q))
  | _ => 0
  end.


(** The Yes/No cleaning leaves one of three texts. *)
Definition yes_no_value (original cleaned : string) : Prop :=
  cleaned = "yes" ∨ cleaned = "no" ∨ cleaned = strip (lower original).


(** The ratio of a resource count [a] to an enrollment [e]: undefined
    (NaN) for no enrollment. *)
Definition per_student_value (a e : Z) : float :=
  if e =? 0 then NaN else Fin (inject_Z a / inject_Z e).

Definition per_100_value (a e : Z) : float :=
  if e =? 0 then NaN else Fin (inject_Z a / inject_Z e * inject_Z 100).

(** Ratio column, the count it is derived from, and whether it is
    scaled to 100 students. *)
Definition ratio_sources : list (string * string * bool) :=
  [ ("ratio_classrooms", "class_rooms_available", true);
    ("ratio_toilets", "toilets_functional_available", true);
    ("ratio_bathrooms", "bathrooms_available", true);
    ("ratio_desks", "dual_desk_available", false);
    ("ratio_cots", "cots_available", false);
    ("ratio_computers", "computers_available", false) ].

End Spec.

(** ** The cleaning seen row by row

    Every statement of [load_and_clean_data] assigns a column whose elements
    depend on the row they stand in only, so the function acts on each row
    independently.  [clean_row] is that action, statement by statement. *)

Module Rows.
Import Text Num Clean Frame Pipeline.

Definition row_set (dst : string) (e : row → option cell) (r : row)
  : option row :=
  v ← e r; Some (<[dst := v]> r).

Fixpoint row_for_each {A} (cols : list A) (body : A → row → option row)
    (r : row) : option row :=
  match cols with
  | [] => Some r
  | c :: cols' => r' ← body c r; row_for_each cols' body r'
  end.

Definition yesno_row (col : string) : row → option row :=
  row_set col (text_of col (λ s, Some (Str (yesno_lambda (strip (lower s)))))).

Definition numeric_row (col : string) (r : row) : option row :=
  r ← row_set col (text_of col (λ s, Some (Str (remove_non_numeric s)))) r;
  r ← row_set col (apply_str col (λ x, v ← numeric_lambda x; Some (Flt v))) r;
  row_set col (fillna0_astype_int col) r.

Definition metrics_row (r : row) : option row :=
  r ← row_set "Department"
        (text_of "school_name" (λ s, Some (Str (get_department s)))) r;
  r ← row_set "enrolled_students_safe"
        (λ r, v ← r !! "enrolled_students"; Some (replace_zero_nan v)) r;
  r ← row_set "ratio_classrooms" (per_100_students "class_rooms_available") r;
  r ← row_set "ratio_toilets" (per_100_students "toilets_functional_available") r;
  r ← row_set "ratio_bathrooms" (per_100_students "bathrooms_available") r;
  r ← row_set "ratio_desks" (per_student "dual_desk_available") r;
  r ← row_set "ratio_cots" (per_student "cots_available") r;
  r ← row_set "ratio_computers" (per_student "computers_available") r;
  Some r.

Definition clean_row (r : row) : option row :=
  r ← row_set "school_name"
        (text_of "school_name" (λ s, Some (Str (strip s)))) r;
  r ← row_for_each yes_no_cols yesno_row r;
  r ← row_for_each numeric_cols numeric_row r;
  metrics_row r.

Definition cleaning_row (r : row) : option row :=
  r ← row_set "school_name"
        (text_of "school_name" (λ s, Some (Str (strip s)))) r;
  r ← row_for_each yes_no_cols yesno_row r;
  row_for_each numeric_cols numeric_row r.

(** The row [metrics_row] returns for a cleaned row with the given name,
    enrollment and counts. *)
Definition with_metrics (r : row) (name : string) (e a1 a2 a3 a4 a5 a6 : Z)
  : row :=
  <["ratio_computers" := Flt (Spec.per_student_value a6 e)]>
  (<["ratio_cots" := Flt (Spec.per_student_value a5 e)]>
  (<["ratio_desks" := Flt (Spec.per_student_value a4 e)]>
  (<["ratio_bathrooms" := Flt (Spec.per_100_value a3 e)]>
  (<["ratio_toilets" := Flt (Spec.per_100_value a2 e)]>
  (<["ratio_classrooms" := Flt (Spec.per_100_value a1 e)]>
  (<["enrolled_students_safe" := replace_zero_nan (Int e)]>
  (<["Department" := Str (get_department name)]> r))))))).

(** The columns [metrics_row] assigns. *)
Definition derived_cols : list string :=
  ["Department"; "enrolled_students_safe"; "ratio_classrooms";
   "ratio_toilets"; "ratio_bathrooms"; "ratio_desks"; "ratio_cots";
   "ratio_computers"].

(** A cell rewritten from its text: [f] of the printed value. *)
Definition text_map (f : string → cell) (o : option cell) : option cell :=
  v ← o; s ← astype_str v; Some (f s).

Definition text_update (f : string → cell) (col : string) (r : row)
  : option row :=
  w ← text_map f (r !! col); Some (<[col := w]> r).

(** The cell under label [k] once the three cleaning passes are done. *)
Definition cleaned_cell (r : row) (k : string) : option cell :=
  let o1 := if decide (k = "school_name")
            then text_map (λ s, Str (strip s)) (r !! k) else r !! k in
  let o2 := if decide (k ∈ yes_no_cols)
            then text_map (λ s, Str (clean_yesno s)) o1 else o1 in
  if decide (k ∈ numeric_cols)
  then text_map (λ s, Int (Spec.numeric_policy s)) o2 else o2.

(** The columns the cleaning passes read. *)
Definition cleaned_cols : list string :=
  "school_name" :: yes_no_cols ++ numeric_cols.

Definition printable (o : option cell) : bool :=
  match o with
  | Some v => bool_decide (is_Some (astype_str v))
  | None => false
  end.

(** Every column the cleaning reads is present and holds a value that
    [astype(str)] prints. *)
Definition readable_row (r : row) : bool :=
  forallb (λ c, printable (r !! c)) cleaned_cols.

Definition readable (sheet : frame) : bool :=
  forallb readable_row (rename_columns sheet).

(** A frame operation acts row by row through [g]. *)
Definition rowwise (op : frame → option frame) (g : row → option row) : Prop :=
  ∀ df : frame, op df = mapM g df.

End Rows.

(** ** Sample sheets *)

Module Samples.
Import Text Num Clean Frame Pipeline.

(** A row of the sheet as [pd.read_csv] returns it: the listed cells hold
    their text, every other column of the survey is blank (NaN). *)
Definition survey_row (cells : list (string * string)) : row :=
  list_to_map
    ((λ kv : string * string,
        (kv.1, match (list_to_map cells : gmap string string) !! kv.1 with
               | Some s => Str s
               | None => Flt NaN
               end)) <$> COLUMN_MAPPING).

Definition school (name enrolled vacant classrooms : string) : row :=
  survey_row [ ("School_Name", name);
               ("Totel_enrolled_students", enrolled);
               ("Vacant_seats", vacant);
               ("No of class rooms available", classrooms) ].

(** One school whose solar heater columns say Yes and No. *)
Definition solar_sheet : frame :=
  [ survey_row [ ("School_Name", "KGBV Nalgonda");
                 ("Totel_enrolled_students", "120");
                 ("Driniking water Facility (Yes/No)", "  YES ");
                 ("RO Plant available or not", "No");
                 ("Internet Facility available(yes /No)", "N/A");
                 ("Solar Water Heater/ Geyser Available", "Yes");
                 ("Solar Water Heater/ Geyser Requirement", "No") ] ].

(** Six schools of 100 students, but the fourth of none, with 5, 1, 3, 7,
    2 and 4 classrooms: classroom ratios 5, 1, 3, null, 2, 4. *)
Definition six_schools : frame :=
  [ school "KGBV A" "100" "0" "5"; school "KGBV B" "100" "0" "1";
    school "TGMS C" "100" "0" "3"; school "TGMS D" "0" "0" "7";
    school "PMSHRI E" "100" "0" "2"; school "Govt F" "100" "0" "4" ].

(** Three schools, the last with no enrolled student and 10 vacant
    seats. *)
Definition three_schools : frame :=
  [ school "KGBV A" "60" "20" "3"; school "TGMS B" "90" "30" "6";
    school "TGMS C" "0" "10" "2" ].


(** One school without students or vacant seats. *)
Definition closed_school : frame := [ school "Govt X" "0" "none" "2" ].

(** The cleaned frame, the empty frame if the sheet cannot be cleaned. *)
Definition cleaned (sheet : frame) : frame :=
  default [] (load_and_clean_data sheet).

Definition nth_row (i : nat) (df : frame) : row := default ∅ (df !! i).

(** The rows of the ratio display for a sheet, none if it cannot be
    computed. *)
Definition ratios_of (sheet : frame) : frame :=
  default [] (Dashboard.ratios_df (cleaned sheet)).


End Samples.

(** ** Properties of frames *)

Module Props.
Import Text Num Clean Frame Pipeline Dashboard Spec.

(** The ratio [x] a record with enrollment [e] carries for a count [a]:
    null without enrollment, else the quotient, times 100 when [scaled];
    never an infinity. *)
Definition ratio_of (scaled : bool) (a e : Z) (x : float) : Prop :=
  (e = 0 → x = NaN)
  ∧ (e ≠ 0 → x = Fin (if scaled then inject_Z a / inject_Z e * inject_Z 100
                      else inject_Z a / inject_Z e))
  ∧ (∀ s : bool, x ≠ Inf s).


(** The integer a record holds under [c] (0 when it holds none). *)
Definition int_at (c : string) (r : row) : Z :=
  match r !! c with
  | Some (Int z) => z
  | _ => 0
  end.

(** The sum of column [c] over all the records of [df]. *)
Definition col_total (c : string) (df : frame) : Z :=
  foldr (λ r acc, int_at c r + acc) 0 df.

Definition int_column (c : string) (df : frame) : Prop :=
  Forall (λ r : row, ∃ z : Z, r !! c = Some (Int z) ∧ 0 ≤ z) df.



(** The sheet brings no column of its own whose label begins with
    ["ratio_"]. *)
Definition own_ratio_columns (sheet : frame) : bool :=
  forallb (λ r : row,
             forallb (λ k, negb (startswith "ratio_" k)) (map_to_list r).*1)
          (rename_columns sheet).

(** The record has enrolled students. *)
Definition has_students (r : row) : bool :=
  match r !! "enrolled_students" with
  | Some (Int 0) => false
  | _ => true
  end.

(** The record has a value under [c] that is not null. *)
Definition notnull (c : string) (r : row) : bool :=
  match r !! c with
  | Some v => negb (isna v)
  | None => false
  end.

(** The line of a ranking table a record gives for the metric [c]. *)
Definition entry (c : string) (r : row) : cell * cell :=
  (default (Flt NaN) (r !! "school_name"), default (Flt NaN) (r !! c)).

(** Ascending order of the values of two table lines, both numbers. *)
Definition ratio_le (p q : cell * cell) : Prop :=
  match p.2, q.2 with
  | Flt (Fin a), Flt (Fin b) => (a <= b)%Q
  | _, _ => False
  end.


(** Ascending order of two keyed rows. *)
Definition keys_ascend {A} (a b : float * A) : Prop := fle a.1 b.1 = true.

(** The labels of the six ratio columns. *)
Definition ratio_labels : list string := ratio_mapping.*1.

(** A record as the ranking finds it in a cleaned frame: a name, an integer
    enrollment, under each ratio label a float that is null exactly when the
    enrollment is 0, and no other column whose label begins with
    ["ratio_"]. *)
Definition ratio_record (r : row) : Prop :=
  (∃ name : string, r !! "school_name" = Some (Str name))
  ∧ (∃ e : Z, r !! "enrolled_students" = Some (Int e)
       ∧ ∀ c : string, c ∈ ratio_labels →
           ∃ x : float, r !! c = Some (Flt x)
                        ∧ (e = 0 → x = NaN) ∧ (e ≠ 0 → ∃ q : Q, x = Fin q))
  ∧ (∀ k : string, startswith "ratio_" k = true → is_Some (r !! k) →
       k ∈ ratio_labels).

(** The columns [ratios_df] keeps. *)
Definition kept_cols (cols : list string) : list string :=
  ["school_name"; "enrolled_students"] ++ cols.

(** [q] is [r] restricted to the columns [l]. *)
Definition restricted (l : list string) (r q : row) : Prop :=
  ∀ k : string, q !! k = if decide (k ∈ l) then r !! k else None.


(** A row of [ratios_df] that can stand in the table of the metric [c]: it
    has a name and a number under [c]. *)
Definition table_row (c : string) (q : row) : Prop :=
  (∃ n : cell, q !! "school_name" = Some n)
  ∧ (∃ x : Q, q !! c = Some (Flt (Fin x))).

(** The sort key of a row for the metric [c]. *)
Definition sort_key (c : string) (q : row) : float :=
  default NaN (q !! c ≫= to_float).

End Props.

(** ** The rest of the dashboard: filter options, Yes/No charts and the
    detail table *)

Module Charts.
Import Text Num Clean Frame Pipeline Dashboard.

(** [s.unique()]: the distinct values, in the order of their first
    appearance. *)
Fixpoint unique (l : list string) : list string :=
  match l with
  | [] => []
  | x :: l' => x :: filter (λ y, y ≠ x) (unique l')
  end.

Fixpoint insert_sorted (x : string) (l : list string) : list string :=
  match l with
  | [] => [x]
  | y :: l' => if String.leb x y then x :: l else y :: insert_sorted x l'
  end.

(** [sorted(l)] on a list of strings: ascending, strings compared
    character by character on their codes. *)
Definition sorted (l : list string) : list string := foldr insert_sorted [] l.

(** A value of a column of text; [None] for a number (the order [sorted]
    gives to values that are not all text is outside the embedding). *)
Definition text_cell (v : cell) : option string :=
  match v with
  | Str s => Some s
  | _ => None
  end.

(** Line 95: [['All'] + sorted(df_original['Department'].unique().tolist())] *)
Definition department_options (df_original : frame) : option (list string) :=
  col ← column "Department" df_original;
  tags ← mapM text_cell col;
  Some ("All" :: sorted (unique tags)).

(** *** Yes/No charts (lines 164-188) *)

Record yes_no : Type := {
  yes_count : Z;
  total : Z;
  no_count : Z;
  yes_percent : float;
  pie_data : list (string * Z)  (* the rows (Status, Count) of the pie *)
}.

(** [s.sum()] of a column of booleans *)
Definition sum_bool (l : list bool) : Z :=
  foldr (λ (b : bool) acc, (if b then 1 else 0) + acc) 0 l.

Definition create_yes_no_chart (df : frame) (col : string) : option yes_no :=
  flags ← mapM (λ r : row, v ← r !! col; s ← astype_str v;
                           Some (contains "yes" (lower s))) df;
  let yes_count := sum_bool flags in
  let total := Z.of_nat (length df) in
  let no_count := total - yes_count in
  let yes_percent :=
    if 0 <? total then fdiv (of_int yes_count) (of_int total) else of_int 0 in
  Some {| yes_count := yes_count;
          total := total;
          no_count := no_count;
          yes_percent := yes_percent;
          pie_data := [("Yes", yes_count); ("No", no_count)] |}.

(** *** The detail table (lines 286-290) *)

(** The new label of a column under a table of labels: its entry, else
    itself. *)
Definition label_in (mapping : list (string * string)) (k : string) : string :=
  default k ((list_to_map mapping : gmap string string) !! k).

(** [df.rename(columns=mapping)].  Labels are taken to stay distinct after
    renaming. *)
Definition rename_with (mapping : list (string * string)) (df : frame) : frame :=
  (λ r : row, kmap (label_in mapping) r : row) <$> df.

Definition cols_to_show : list string :=
  ["school_name"; "enrolled_students"] ++ ratio_mapping.*2.

(** [ratios_df.rename(columns=ratio_mapping)[cols_to_show]] *)
Definition ratios_display (ratios : frame) : option frame :=
  project cols_to_show (rename_with ratio_mapping ratios).

End Charts.

(** ** Further notions used to state properties *)

Module Notions.
Import Text Num Clean Frame Pipeline Dashboard Spec.

(** The text [astype(str)] prints for the cell of a record under [c]. *)
Definition text_at (c : string) (r : row) : option string :=
  r !! c ≫= astype_str.

(** The sheet's text under [c] says yes: it contains ["yes"], in any
    letter case. *)
Definition says_yes (c : string) (r : row) : bool :=
  match text_at c r with
  | Some s => contains "yes" (lower s)
  | None => false
  end.

(** The record belongs to the department [tag]. *)
Definition in_department (tag : string) (r : row) : bool :=
  match r !! "Department" with
  | Some v => cell_is tag v
  | None => false
  end.

(** The department tags of the records of a frame, record by record. *)
Definition department_tags (df : frame) : list string :=
  omap (λ r : row, r !! "Department" ≫= Charts.text_cell) df.

(** The four tags, in ascending order. *)
Definition tags_in_order : list string :=
  ["KGBV (Girls)"; "Other"; "PMSHRI (Co-ed)"; "TGMS (Co-ed)"].

(** The number of records that satisfy [p]. *)
Definition count (p : row → bool) (df : frame) : Z :=
  Z.of_nat (length (filter (λ r, p r = true) df)).

(** The cell holds the text ["yes"]. *)
Definition is_yes (c : string) (r : row) : bool :=
  match r !! c with
  | Some v => cell_is "yes" v
  | None => false
  end.


(** A float that is a number between [lo] and [hi]. *)
Definition within (lo hi : Q) (x : float) : Prop :=
  match x with
  | Fin q => (lo <= q)%Q ∧ (q <= hi)%Q
  | _ => False
  end.

(** A record as every cleaned frame has it, whatever other columns the
    sheet brought: a name, an integer enrollment and, under each ratio
    label, a float that is null exactly when the enrollment is 0. *)
Definition metric_record (r : row) : Prop :=
  (∃ name : string, r !! "school_name" = Some (Str name))
  ∧ (∃ e : Z, r !! "enrolled_students" = Some (Int e)
       ∧ ∀ c : string, c ∈ Props.ratio_labels →
           ∃ x : float, r !! c = Some (Flt x)
                        ∧ (e = 0 → x = NaN) ∧ (e ≠ 0 → ∃ q : Q, x = Fin q)).

End Notions.

(** ** More sample sheets *)

Module Cases.
Import Text Num Clean Frame Pipeline Samples.

(** One school, on a sheet without the column of the vacancies. *)
Definition no_vacancy_sheet : frame :=
  [ delete "Vacancy" (school "KGBV A" "60" "20" "3") ].

(** One school, on a sheet in which [pd.read_csv] found whole numbers in
    the columns of the cots and of the vacancies: 40 and -3. *)
Definition counted_sheet : frame :=
  [ <["No of cots Available" := Int 40]>
      (<["Vacancy" := Int (-3)]> (school " kgbv Nalgonda " "60" "20" "3")) ].

(** The records of the six schools that the filter keeps for the
    department TGMS. *)
Definition tgms_schools : frame :=
  default [] (Dashboard.df_filtered "TGMS (Co-ed)" (cleaned six_schools)).

(** Two schools with students, on a sheet with a column of its own
    whose label begins with ["ratio_"], blank for the second school. *)
Definition stray_sheet : frame :=
  [ <["ratio_note" := Str "ok"]> (school "KGBV A" "100" "0" "5");
    <["ratio_note" := Flt NaN]> (school "KGBV B" "100" "0" "1") ].

End Cases.

(** * Properties *)

Import Text Num Clean Frame Pipeline Dashboard Spec.

(** ** Text *)

Lemma sapp_nil (b : string) : ("" ++ b)%string = b.
Proof. reflexivity. Qed.

Lemma sapp_cons (c : ascii) (a b : string) :
  (String c a ++ b)%string = String c (a ++ b)%string.
Proof. reflexivity. Qed.

Ltac sapp := repeat (rewrite sapp_cons in * || rewrite sapp_nil in * ).

Section text_facts.

Lemma startswith_spec (p s : string) :
  startswith p s = true ↔ has_prefix p s.
Proof.
  revert s. induction p as [|a p IH]; intros s; simpl.
  - split; [intros _; by exists s | done].
  - destruct s as [|b s].
    + split; [done | intros [t Ht]; discriminate].
    + rewrite andb_true_iff, Ascii.eqb_eq, IH. split.
      * intros [-> [t ->]]. by exists t.
      * intros [t Ht]. injection Ht as -> ->. split; [done | by exists t].
Qed.

Lemma contains_spec (p s : string) :
  contains p s = true ↔ occurs p s.
Proof.
  induction s as [|c s IH].
  - simpl. rewrite orb_false_r, startswith_spec. split.
    + intros [t Ht]. by exists ""%string, t.
    + intros [a [b H]]. destruct a; [by exists b | discriminate].
  - cbn [contains]. rewrite orb_true_iff, startswith_spec, IH. split.
    + intros [[t Ht] | [a [b H]]].
      * by exists ""%string, t.
      * exists (String c a), b. sapp. by rewrite H.
    + intros [a [b H]]. destruct a as [|c' a].
      * left. by exists b.
      * right. injection H as -> ->. by exists a, b.
Qed.

Lemma contains_false (p s : string) :
  contains p s = false ↔ ¬ occurs p s.
Proof. rewrite <- contains_spec. by destruct (contains p s). Qed.




Lemma lstrip_spec (s : string) :
  ∃ a : string, s = (a ++ lstrip s)%string ∧ blank a ∧ no_space_at_start (lstrip s).
Proof.
  induction s as [|c s (a & Hs & Ha & Hn)]; simpl.
  - by exists ""%string.
  - destruct (is_space c) eqn:Hc.
    + exists (String c a). split_and!; [sapp; by rewrite <- Hs | | done].
      unfold blank. simpl. by rewrite Hc.
    + exists ""%string. by split_and!.
Qed.

Lemma rstrip_spec (s : string) :
  ∃ b : string, s = (rstrip s ++ b)%string ∧ blank b ∧ no_space_at_end (rstrip s).
Proof.
  induction s as [|c s (b & Hs & Hb & Hn)].
  - exists ""%string. split_and!; [done.. |]. intros [|] ? ?; discriminate.
  - cbn [rstrip]. destruct (rstrip s) as [|d r] eqn:Hr.
    + destruct (is_space c) eqn:Hc.
      * exists (String c b). split_and!.
        -- sapp. by rewrite <- Hs.
        -- unfold blank. simpl. by rewrite Hc.
        -- intros [|] ? ?; discriminate.
      * exists b. split_and!; [sapp; by rewrite <- Hs | done |].
        intros [|e u] c' H.
        -- by injection H as <-.
        -- injection H as _ H. destruct u; discriminate.
    + exists b. split_and!; [sapp; by rewrite <- Hs | done |].
      intros [|e u] c' H; [discriminate |].
      injection H as _ H. by apply (Hn u).
Qed.

Lemma rstrip_keeps_start (s : string) :
  no_space_at_start s → no_space_at_start (rstrip s).
Proof.
  destruct s as [|c s]; [done |]. cbn [rstrip no_space_at_start]. intros Hc.
  destruct (rstrip s); [by rewrite Hc | done].
Qed.

Lemma string_app_assoc (a b c : string) :
  ((a ++ b) ++ c = a ++ b ++ c)%string.
Proof. induction a as [|x a IH]; sapp; [done | by rewrite IH]. Qed.

Lemma strip_trimmed (s : string) : trimmed s (strip s).
Proof.
  unfold trimmed, strip.
  destruct (lstrip_spec s) as (a & Hs & Ha & Hn).
  destruct (rstrip_spec (lstrip s)) as (b & Hl & Hb & He).
  split_and!; [| by apply rstrip_keeps_start | done].
  exists a, b. split_and!; [| done..]. by rewrite <- Hl.
Qed.

Lemma lstrip_id (s : string) :
  all_chars (λ c, negb (is_space c)) s = true → lstrip s = s.
Proof. destruct s as [|c s]; simpl; [done |]. by destruct (is_space c). Qed.

Lemma rstrip_id (s : string) :
  all_chars (λ c, negb (is_space c)) s = true → rstrip s = s.
Proof.
  induction s as [|c s IH]; simpl; [done |].
  rewrite andb_true_iff. intros [Hc Hs]. rewrite (IH Hs).
  destruct s; [| done]. by destruct (is_space c).
Qed.

Lemma strip_id (s : string) :
  all_chars (λ c, negb (is_space c)) s = true → strip s = s.
Proof. intros H. unfold strip. by rewrite (lstrip_id _ H), rstrip_id. Qed.

Lemma all_chars_impl (p q : ascii → bool) (s : string) :
  (∀ c, p c = true → q c = true) →
  all_chars p s = true → all_chars q s = true.
Proof.
  intros Hpq. induction s as [|c s IH]; simpl; [done |].
  rewrite !andb_true_iff. intros [? ?]. auto.
Qed.

Lemma all_chars_sfilter (p : ascii → bool) (s : string) :
  all_chars p (sfilter p s) = true.
Proof.
  induction s as [|c s IH]; simpl; [done |].
  destruct (p c) eqn:Hc; simpl; [by rewrite Hc | done].
Qed.

Lemma split_head (sep : ascii) (s : string) :
  item0 (split sep s) = Some (first_segment sep s).
Proof.
  unfold item0. induction s as [|c s IH]; simpl; [done |].
  destruct (Ascii.eqb c sep); [done |].
  destruct (split sep s); simpl in *; [discriminate | by injection IH as ->].
Qed.

Lemma first_segment_all (p : ascii → bool) (sep : ascii) (s : string) :
  all_chars p s = true →
  all_chars (λ c, p c && negb (Ascii.eqb c sep)) (first_segment sep s) = true.
Proof.
  induction s as [|c s IH]; simpl; [done |].
  rewrite andb_true_iff. intros [Hc Hs].
  destruct (Ascii.eqb c sep) eqn:E; simpl; [done |].
  by rewrite Hc, E, IH.
Qed.

Lemma first_segment_id (p : ascii → bool) (sep : ascii) (s : string) :
  p sep = false → all_chars p s = true → first_segment sep s = s.
Proof.
  intros Hsep. induction s as [|c s IH]; simpl; [done |].
  rewrite andb_true_iff. intros [Hc Hs].
  destruct (Ascii.eqb_spec c sep) as [-> | _]; [congruence | by rewrite IH].
Qed.

End text_facts.

(** ** Numbers *)

Section numeric_facts.

Lemma numeric_char_no_space (c : ascii) :
  numeric_char c = true → negb (is_space c) = true.
Proof. destruct c as [[] [] [] [] [] [] [] []]; by vm_compute. Qed.

Lemma digit_val_range (c : ascii) :
  is_digit c = true → 0 ≤ digit_val c ≤ 9.
Proof.
  unfold is_digit, between, digit_val. rewrite andb_true_iff.
  intros [H1%Nat.leb_le H2%Nat.leb_le]. lia.
Qed.

Lemma digits_val_nonneg (s : string) (acc : Z) :
  all_chars is_digit s = true → 0 ≤ acc → 0 ≤ digits_val acc s.
Proof.
  revert acc. induction s as [|c s IH]; intros acc; simpl; [done |].
  rewrite andb_true_iff. intros [Hc Hs] Hacc. apply IH; [done |].
  pose proof (digit_val_range c Hc). lia.
Qed.

(** What [to_numeric] returns is NaN or a number that is not negative. *)
Lemma to_numeric_nonneg (s : string) :
  match to_numeric s with
  | Fin q => 0 ≤ Qnum q
  | Inf _ => False
  | NaN => True
  end.
Proof.
  unfold to_numeric. destruct (cut_period s) as [ip [fp|]].
  - destruct (all_chars is_digit ip) eqn:Hi; [| done].
    destruct (all_chars is_digit fp) eqn:Hf; [| done].
    simpl. destruct (negb _); [| done]. simpl.
    apply digits_val_nonneg; [done |]. by apply digits_val_nonneg.
  - destruct (all_chars is_digit ip) eqn:Hi; [| done].
    simpl. destruct (negb _); [| done]. simpl.
    by apply digits_val_nonneg.
Qed.

Lemma astype_int_fillna0_to_numeric (s : string) :
  ∃ z : Z, astype_int (fillna0 (to_numeric s)) = Some z ∧ 0 ≤ z ∧
    z = match to_numeric s with
        | Fin q => Z.quot (Qnum q) (Zpos (Qden q))
        | _ => 0
        end.
Proof.
  pose proof (to_numeric_nonneg s) as H.
  destruct (to_numeric s) as [q | |]; simpl; [| done |].
  - eexists; split_and!; [done | | done]. apply Z.quot_pos; lia.
  - by exists 0.
Qed.

(** The text handed to [to_numeric] by the lambda of line 61, once the
    pattern of line 60 has been applied. *)
Lemma numeric_lambda_segment (s : string) :
  numeric_lambda (remove_non_numeric s)
  = Some (to_numeric (first_segment "$" (first_segment "-" (remove_non_numeric s)))).
Proof.
  unfold numeric_lambda. rewrite split_head. simpl. rewrite split_head. simpl.
  do 2 f_equal. apply strip_id.
  set (p := λ c, numeric_char c && negb (Ascii.eqb c "-")).
  assert (all_chars p (first_segment "-" (remove_non_numeric s)) = true) as Hseg.
  { apply first_segment_all, all_chars_sfilter. }
  rewrite (first_segment_id p); [| done | done].
  revert Hseg. apply all_chars_impl. intros c. unfold p.
  rewrite andb_true_iff. intros [Hc _]. by apply numeric_char_no_space.
Qed.


Lemma numeric_policy_nonneg (s : string) : 0 ≤ numeric_policy s.
Proof.
  unfold numeric_policy.
  match goal with |- context [to_numeric ?t] =>
    destruct (astype_int_fillna0_to_numeric t) as (z & _ & Hz & Heq) end.
  by rewrite <- Heq.
Qed.


End numeric_facts.


(** ** The cleaning policies *)

(** C1.  A Yes/No cell is lowercased and trimmed; the result is ["yes"] when
    ["yes"] occurs in that text, else ["no"] when ["no"] occurs in it, else
    the lowercased trimmed text itself.  So ["  YES "] gives ["yes"], ["No"]
    gives ["no"] and ["N/A"] gives ["n/a"]. *)
Theorem C1_clean_yesno :
  (∀ s : string,
     let t := strip (lower s) in
     trimmed (lower s) t ∧
     (occurs "yes" t → clean_yesno s = "yes") ∧
     (¬ occurs "yes" t → occurs "no" t → clean_yesno s = "no") ∧
     (¬ occurs "yes" t → ¬ occurs "no" t → clean_yesno s = t))
  ∧ clean_yesno "  YES " = "yes"
  ∧ clean_yesno "No" = "no"
  ∧ clean_yesno "N/A" = "n/a".
Proof.
  split; [| by vm_compute].
  intros s t. split; [apply strip_trimmed |].
  unfold clean_yesno, yesno_lambda. fold t.
  split_and!.
  - intros H%contains_spec. by rewrite H.
  - intros Hy%contains_false Hn%contains_spec. by rewrite Hy, Hn.
  - intros Hy%contains_false Hn%contains_false. by rewrite Hy, Hn.
Qed.



(** ** From columns to rows *)

Import Rows.

Section rowwise.

Lemma mapM_option_bind {A B C} (f : A → option B) (g : B → option C) (l : list A) :
  mapM f l ≫= mapM g = mapM (λ x, f x ≫= g) l.
Proof.
  induction l as [|x l IH]; [done |]. cbn [mapM].
  destruct (f x) as [y|]; simpl; [| done].
  rewrite <- IH. destruct (mapM f l) as [k|]; simpl; [done |].
  by destruct (g y).
Qed.

Lemma mapM_option_id {A} (l : list A) : mapM (M := option) Some l = Some l.
Proof. induction l as [|x l IH]; [done |]. cbn [mapM]. by rewrite IH. Qed.

Lemma rowwise_set_col (dst : string) (e : row → option cell) :
  rowwise (set_col dst e) (row_set dst e).
Proof. by intros df. Qed.

Lemma rowwise_bind (op1 op2 : frame → option frame) (g1 g2 : row → option row) :
  rowwise op1 g1 → rowwise op2 g2 →
  rowwise (λ df, op1 df ≫= op2) (λ r, g1 r ≫= g2).
Proof.
  intros H1 H2 df. rewrite H1, <- mapM_option_bind.
  destruct (mapM g1 df); simpl; [apply H2 | done].
Qed.

Lemma rowwise_ret : rowwise Some Some.
Proof. intros df. by rewrite mapM_option_id. Qed.

Lemma rowwise_for_each {A} (cols : list A) (body : A → frame → option frame)
    (rbody : A → row → option row) :
  (∀ c, rowwise (body c) (rbody c)) →
  rowwise (for_each cols body) (row_for_each cols rbody).
Proof.
  intros Hb. induction cols as [|c cols IH]; simpl.
  - apply rowwise_ret.
  - by apply rowwise_bind.
Qed.

Lemma statements_rowwise (ycols ncols : list string) :
  rowwise
    (λ df, df ← set_col "school_name"
              (text_of "school_name" (λ s, Some (Str (strip s)))) df;
       df ← for_each ycols (λ col,
              set_col col
                (text_of col (λ s, Some (Str (yesno_lambda (strip (lower s))))))) df;
       df ← for_each ncols (λ col df,
              df ← set_col col
                     (text_of col (λ s, Some (Str (remove_non_numeric s)))) df;
              df ← set_col col
                     (apply_str col (λ x, v ← numeric_lambda x; Some (Flt v))) df;
              set_col col (fillna0_astype_int col) df) df;
       df ← set_col "Department"
              (text_of "school_name" (λ s, Some (Str (get_department s)))) df;
       df ← set_col "enrolled_students_safe"
              (λ r, v ← r !! "enrolled_students"; Some (replace_zero_nan v)) df;
       df ← set_col "ratio_classrooms" (per_100_students "class_rooms_available") df;
       df ← set_col "ratio_toilets" (per_100_students "toilets_functional_available") df;
       df ← set_col "ratio_bathrooms" (per_100_students "bathrooms_available") df;
       df ← set_col "ratio_desks" (per_student "dual_desk_available") df;
       df ← set_col "ratio_cots" (per_student "cots_available") df;
       df ← set_col "ratio_computers" (per_student "computers_available") df;
       Some df)
    (λ r, r ← row_set "school_name"
                (text_of "school_name" (λ s, Some (Str (strip s)))) r;
          r ← row_for_each ycols yesno_row r;
          r ← row_for_each ncols numeric_row r;
          metrics_row r).
Proof.
  unfold metrics_row.
  apply rowwise_bind; [apply rowwise_set_col |].
  apply rowwise_bind; [apply rowwise_for_each; intros col; apply rowwise_set_col |].
  apply rowwise_bind.
  { apply rowwise_for_each. intros col. unfold numeric_row.
    repeat (apply rowwise_bind; [apply rowwise_set_col |]).
    apply rowwise_set_col. }
  repeat (apply rowwise_bind; [apply rowwise_set_col |]).
  apply rowwise_ret.
Qed.

Lemma load_and_clean_data_rows (sheet : frame) :
  load_and_clean_data sheet = mapM clean_row (rename_columns sheet).
Proof. exact (statements_rowwise yes_no_cols numeric_cols (rename_columns sheet)). Qed.

End rowwise.

(** ** One row through the cleaning passes *)

Section row_facts.
Implicit Types (r : gmap string cell) (k col : string).

Lemma row_for_each_ext {A} (cols : list A)
    (body body' : A → gmap string cell → option (gmap string cell)) r :
  (∀ c r, body c r = body' c r) →
  row_for_each cols body r = row_for_each cols body' r.
Proof.
  intros H. revert r. induction cols as [|c cols IH]; intros r; simpl; [done |].
  rewrite H. destruct (body' c r); simpl; [apply IH | done].
Qed.

Lemma yesno_row_eq col r :
  yesno_row col r = text_update (λ s, Str (clean_yesno s)) col r.
Proof.
  unfold yesno_row, row_set, text_of, text_update, text_map.
  destruct (r !! col) as [v|]; simpl; [| done].
  by destruct (astype_str v).
Qed.

Lemma numeric_row_eq col r :
  numeric_row col r = text_update (λ s, Int (numeric_policy s)) col r.
Proof.
  unfold numeric_row, row_set, text_of, apply_str, fillna0_astype_int,
    text_update, text_map.
  destruct (r !! col) as [v|]; simpl; [| done].
  destruct (astype_str v) as [s|]; simpl; [| done].
  rewrite lookup_insert_eq. simpl. rewrite numeric_lambda_segment. simpl.
  rewrite lookup_insert_eq. simpl.
  destruct (astype_int_fillna0_to_numeric
              (first_segment "$" (first_segment "-" (remove_non_numeric s))))
    as (z & Hz & _ & Heq).
  rewrite Hz. simpl. rewrite !insert_insert_eq.
  rewrite Heq. reflexivity.
Qed.

Lemma text_update_lookup f col r r' k :
  text_update f col r = Some r' →
  r' !! k = if decide (k = col) then text_map f (r !! k) else r !! k.
Proof.
  unfold text_update. destruct (text_map f (r !! col)) as [w|] eqn:E; [| done].
  simpl. intros [= <-]. case_decide as Hk.
  - subst k. by rewrite lookup_insert_eq.
  - by rewrite lookup_insert_ne.
Qed.

Lemma text_update_loop_lookup f cols r r' k :
  NoDup cols →
  row_for_each cols (text_update f) r = Some r' →
  r' !! k = if decide (k ∈ cols) then text_map f (r !! k) else r !! k.
Proof.
  intros Hnd. revert r. induction Hnd as [|c cols Hc Hnd IH]; intros r; simpl.
  - by intros [= <-].
  - destruct (text_update f c r) as [r1|] eqn:E1; [| done]. simpl.
    intros H. rewrite (IH _ H), (text_update_lookup _ _ _ _ k E1).
    destruct (decide (k = c)) as [-> | Hk].
    + rewrite decide_False by done. by rewrite decide_True by (by left).
    + destruct (decide (k ∈ cols)).
      * by rewrite decide_True by (by right).
      * rewrite decide_False; [done |]. by intros [?|?]%elem_of_cons.
Qed.

Lemma text_update_some f col r v s :
  r !! col = Some v → astype_str v = Some s →
  text_update f col r = Some (<[col := f s]> r).
Proof. intros Hv Hs. unfold text_update, text_map. rewrite Hv. simpl. by rewrite Hs. Qed.

Lemma text_update_inv f col r r' :
  text_update f col r = Some r' →
  ∃ v s, r !! col = Some v ∧ astype_str v = Some s ∧ r' = <[col := f s]> r.
Proof.
  unfold text_update, text_map. destruct (r !! col) as [v|]; simpl; [| done].
  destruct (astype_str v) as [s|] eqn:Es; simpl; [| done].
  intros [= <-]. by exists v, s.
Qed.

Lemma text_update_loop_total f cols r :
  NoDup cols →
  (∀ c, c ∈ cols → printable (r !! c) = true) →
  is_Some (row_for_each cols (text_update f) r).
Proof.
  intros Hnd. revert r. induction Hnd as [|c cols Hc Hnd IH]; intros r Hr; simpl.
  - done.
  - assert (printable (r !! c) = true) as Hp by (apply Hr; set_solver).
    destruct (r !! c) as [v|] eqn:Ev; [| done].
    apply bool_decide_eq_true in Hp as [s Hs].
    rewrite (text_update_some f c r v s Ev Hs). simpl.
    apply IH. intros c' Hc'. rewrite lookup_insert_ne by set_solver.
    apply Hr. set_solver.
Qed.

Lemma text_update_loop_readable f cols r r' c :
  row_for_each cols (text_update f) r = Some r' →
  c ∈ cols → (∀ s, printable (Some (f s)) = true) → printable (r !! c) = true.
Proof.
  intros H Hc Hf. revert r H.
  induction cols as [|c' cols IH]; intros r; simpl; [set_solver |].
  destruct (text_update f c' r) as [r1|] eqn:E1; simpl; [| done].
  apply text_update_inv in E1 as (v & s & Ev & Es & ->).
  intros H. destruct (decide (c = c')) as [-> | Hne].
  - rewrite Ev. simpl. apply bool_decide_eq_true. by exists s.
  - assert (c ∈ cols) as Hin by (by apply elem_of_cons in Hc as [?|?]).
    specialize (IH Hin _ H). by rewrite lookup_insert_ne in IH.
Qed.

Lemma NoDup_yes_no_cols : NoDup yes_no_cols.
Proof. apply (bool_decide_unpack _). by vm_compute. Qed.

Lemma NoDup_numeric_cols : NoDup numeric_cols.
Proof. apply NoDup_elements. Qed.

Lemma clean_row_stages r : clean_row r = cleaning_row r ≫= metrics_row.
Proof.
  unfold clean_row, cleaning_row. rewrite option_bind_assoc.
  apply option_bind_ext_fun. intros r1. unfold compose.
  by rewrite option_bind_assoc.
Qed.

Lemma cleaning_row_eq r :
  cleaning_row r
  = (r ← text_update (λ s, Str (strip s)) "school_name" r;
     r ← row_for_each yes_no_cols (text_update (λ s, Str (clean_yesno s))) r;
     row_for_each numeric_cols (text_update (λ s, Int (numeric_policy s))) r).
Proof.
  unfold cleaning_row.
  assert (row_set "school_name" (text_of "school_name" (λ s, Some (Str (strip s)))) r
          = text_update (λ s, Str (strip s)) "school_name" r) as ->.
  { unfold row_set, text_of, text_update, text_map.
    destruct (r !! "school_name") as [v|]; simpl; [| done]. by destruct (astype_str v). }
  destruct (text_update _ _ r) as [r1|]; cbn [mbind option_bind]; [| done].
  rewrite (row_for_each_ext _ _ _ r1 yesno_row_eq).
  destruct (row_for_each yes_no_cols _ r1) as [r2|]; cbn [mbind option_bind]; [| done].
  apply row_for_each_ext, numeric_row_eq.
Qed.

(** Every cell of a row after the cleaning passes. *)
Lemma cleaning_row_lookup r r3 k :
  cleaning_row r = Some r3 → r3 !! k = cleaned_cell r k.
Proof.
  rewrite cleaning_row_eq.
  intros (r1 & E1 & (r2 & E2 & E3)%bind_Some)%bind_Some.
  unfold cleaned_cell.
  rewrite (text_update_loop_lookup _ _ _ _ k NoDup_numeric_cols E3).
  rewrite (text_update_loop_lookup _ _ _ _ k NoDup_yes_no_cols E2).
  rewrite (text_update_lookup _ _ _ _ k E1). reflexivity.
Qed.

End row_facts.

(** ** One row through the derived metrics *)

Section metrics_facts.
Implicit Types (r : gmap string cell) (k col : string).

Lemma per_student_cell (a e : Z) :
  cell_div (Int a) (replace_zero_nan (Int e)) = Some (Flt (per_student_value a e)).
Proof. unfold per_student_value. by destruct e. Qed.

Lemma per_100_cell (a e : Z) :
  cell_div (Int a) (replace_zero_nan (Int e)) ≫= (λ x, cell_scale x 100)
  = Some (Flt (per_100_value a e)).
Proof. unfold per_100_value. by destruct e. Qed.

Lemma fmul_per_100 (a e : Z) :
  fmul (per_student_value a e) (of_int 100) = per_100_value a e.
Proof. unfold per_student_value, per_100_value. by destruct e. Qed.

Lemma metrics_row_cleaned r name e a1 a2 a3 a4 a5 a6 :
  r !! "school_name" = Some (Str name) →
  r !! "enrolled_students" = Some (Int e) →
  r !! "class_rooms_available" = Some (Int a1) →
  r !! "toilets_functional_available" = Some (Int a2) →
  r !! "bathrooms_available" = Some (Int a3) →
  r !! "dual_desk_available" = Some (Int a4) →
  r !! "cots_available" = Some (Int a5) →
  r !! "computers_available" = Some (Int a6) →
  metrics_row r = Some (with_metrics r name e a1 a2 a3 a4 a5 a6).
Proof.
  intros Hn He H1 H2 H3 H4 H5 H6.
  unfold metrics_row, row_set, text_of, per_100_students, per_student.
  rewrite Hn. cbn [mbind option_bind astype_str].
  rewrite lookup_insert_ne by done. rewrite He. cbn [mbind option_bind].
  repeat (rewrite ?lookup_insert_eq, ?H1, ?H2, ?H3, ?H4, ?H5, ?H6;
          cbn [mbind option_bind];
          first [ rewrite lookup_insert_ne by done
                | rewrite per_student_cell
                | rewrite (per_100_cell _ e)
                | change (cell_scale (Flt ?x) 100) with (Some (Flt (fmul x (of_int 100)))) ]).
  unfold with_metrics. by rewrite !fmul_per_100.
Qed.

Lemma not_numeric_school_name : "school_name" ∉ numeric_cols.
Proof. apply (bool_decide_unpack _). by vm_compute. Qed.

Lemma not_yes_no_school_name : "school_name" ∉ yes_no_cols.
Proof. apply (bool_decide_unpack _). by vm_compute. Qed.

Lemma text_map_printable f (o : option cell) :
  printable o = true → ∃ s, text_map f o = Some (f s).
Proof.
  destruct o as [v|]; [| done]. simpl.
  intros [s Hs]%bool_decide_eq_true. exists s. by rewrite Hs.
Qed.

Lemma printable_text_map f (o : option cell) :
  is_Some (text_map f o) → printable o = true.
Proof.
  destruct o as [v|]; simpl; [| by intros [? ?]].
  destruct (astype_str v) as [s|]; simpl; [| by intros [? ?]].
  done.
Qed.

(** The three passes of the cleaning, one after the other. *)
Lemma cleaning_row_inv r r3 :
  cleaning_row r = Some r3 →
  ∃ r1 r2,
    text_update (λ s, Str (strip s)) "school_name" r = Some r1 ∧
    row_for_each yes_no_cols (text_update (λ s, Str (clean_yesno s))) r1 = Some r2 ∧
    row_for_each numeric_cols (text_update (λ s, Int (numeric_policy s))) r2 = Some r3.
Proof.
  rewrite cleaning_row_eq.
  intros (r1 & E1 & (r2 & E2 & E3)%bind_Some)%bind_Some.
  exists r1, r2. split; [exact E1 | split; [exact E2 | exact E3]].
Qed.

(** After the cleaning, a numeric column holds the integer the numeric
    policy gives for some text. *)
Lemma cleaning_row_numeric r r3 col :
  cleaning_row r = Some r3 → col ∈ numeric_cols →
  ∃ s, r3 !! col = Some (Int (numeric_policy s)).
Proof.
  intros (r1 & r2 & _ & _ & E3)%cleaning_row_inv Hc.
  rewrite (text_update_loop_lookup _ _ _ _ col NoDup_numeric_cols E3).
  rewrite decide_True by done. apply text_map_printable.
  by apply (text_update_loop_readable _ _ _ _ _ E3 Hc).
Qed.

Lemma cleaning_row_school_name r r3 :
  cleaning_row r = Some r3 →
  ∃ v s, r !! "school_name" = Some v ∧ astype_str v = Some s ∧
         r3 !! "school_name" = Some (Str (strip s)).
Proof.
  intros H. rewrite (cleaning_row_lookup _ _ "school_name" H).
  apply cleaning_row_inv in H as (r1 & r2 & E1 & _ & _).
  apply text_update_inv in E1 as (v & s & Hv & Hs & _).
  exists v, s. split_and!; [done.. |]. unfold cleaned_cell.
  rewrite (decide_True (P := _ = _)) by reflexivity.
  rewrite (decide_False (P := _ ∈ yes_no_cols)) by apply not_yes_no_school_name.
  rewrite (decide_False (P := _ ∈ numeric_cols)) by apply not_numeric_school_name.
  unfold text_map. rewrite Hv. simpl. by rewrite Hs.
Qed.

End metrics_facts.

(** ** One row through the whole of [load_and_clean_data] *)

Ltac by_computation := apply (bool_decide_unpack _); vm_compute; reflexivity.

Section clean_row_facts.
Implicit Types (r : gmap string cell) (k col : string).

Lemma numeric_not_derived : Forall (λ c, c ∉ derived_cols) numeric_cols.
Proof. by_computation. Qed.

Lemma with_metrics_lookup_other r name e a1 a2 a3 a4 a5 a6 k :
  k ∉ derived_cols →
  with_metrics r name e a1 a2 a3 a4 a5 a6 !! k = r !! k.
Proof.
  unfold derived_cols. rewrite !not_elem_of_cons.
  intros (? & ? & ? & ? & ? & ? & ? & ? & _).
  unfold with_metrics. by rewrite !lookup_insert_ne by done.
Qed.

(** On a cleaned row the metric statements cannot fail: the name, the
    enrollment and the six counts they read are there, the numbers as
    integers. *)
Lemma cleaned_row_metrics r r3 :
  cleaning_row r = Some r3 →
  ∃ name e a1 a2 a3 a4 a5 a6,
    r3 !! "school_name" = Some (Str name) ∧
    r3 !! "enrolled_students" = Some (Int e) ∧
    r3 !! "class_rooms_available" = Some (Int a1) ∧
    r3 !! "toilets_functional_available" = Some (Int a2) ∧
    r3 !! "bathrooms_available" = Some (Int a3) ∧
    r3 !! "dual_desk_available" = Some (Int a4) ∧
    r3 !! "cots_available" = Some (Int a5) ∧
    r3 !! "computers_available" = Some (Int a6) ∧
    metrics_row r3 = Some (with_metrics r3 name e a1 a2 a3 a4 a5 a6).
Proof.
  intros E.
  destruct (cleaning_row_school_name _ _ E) as (v & s & _ & _ & Hn).
  destruct (cleaning_row_numeric _ _ "enrolled_students" E) as [se He];
    [by_computation |].
  destruct (cleaning_row_numeric _ _ "class_rooms_available" E) as [s1 H1];
    [by_computation |].
  destruct (cleaning_row_numeric _ _ "toilets_functional_available" E) as [s2 H2];
    [by_computation |].
  destruct (cleaning_row_numeric _ _ "bathrooms_available" E) as [s3 H3];
    [by_computation |].
  destruct (cleaning_row_numeric _ _ "dual_desk_available" E) as [s4 H4];
    [by_computation |].
  destruct (cleaning_row_numeric _ _ "cots_available" E) as [s5 H5];
    [by_computation |].
  destruct (cleaning_row_numeric _ _ "computers_available" E) as [s6 H6];
    [by_computation |].
  eexists _, _, _, _, _, _, _, _.
  repeat (split; [eassumption |]).
  by apply metrics_row_cleaned.
Qed.

(** What [clean_row] returns: the cleaned row with its eight derived
    columns. *)
Lemma clean_row_spec r r' :
  clean_row r = Some r' →
  ∃ r3 name e a1 a2 a3 a4 a5 a6,
    cleaning_row r = Some r3 ∧
    r3 !! "school_name" = Some (Str name) ∧
    r3 !! "enrolled_students" = Some (Int e) ∧
    r3 !! "class_rooms_available" = Some (Int a1) ∧
    r3 !! "toilets_functional_available" = Some (Int a2) ∧
    r3 !! "bathrooms_available" = Some (Int a3) ∧
    r3 !! "dual_desk_available" = Some (Int a4) ∧
    r3 !! "cots_available" = Some (Int a5) ∧
    r3 !! "computers_available" = Some (Int a6) ∧
    r' = with_metrics r3 name e a1 a2 a3 a4 a5 a6.
Proof.
  rewrite clean_row_stages. intros (r3 & E & Hm)%bind_Some.
  destruct (cleaned_row_metrics _ _ E)
    as (name & e & a1 & a2 & a3 & a4 & a5 & a6 & Hn & He & H1 & H2 & H3 & H4
        & H5 & H6 & Hw).
  rewrite Hw in Hm. injection Hm as <-.
  exists r3, name, e, a1, a2, a3, a4, a5, a6.
  split; [exact E |]. repeat (split; [assumption |]). reflexivity.
Qed.

(** A row of the cleaned frame comes from a row of the renamed sheet. *)
Lemma load_row sheet df r' :
  load_and_clean_data sheet = Some df → r' ∈ df →
  ∃ r, r ∈ rename_columns sheet ∧ clean_row r = Some r'.
Proof.
  rewrite load_and_clean_data_rows. intros H%mapM_Some Hr.
  apply list_elem_of_lookup in Hr as [i Hi].
  destruct (Forall2_lookup_r _ _ _ _ _ H Hi) as (r & Hr & Hc).
  exists r. split; [by eapply list_elem_of_lookup_2 | done].
Qed.

(** Rows correspond one to one, in order. *)
Lemma load_rows sheet df :
  load_and_clean_data sheet = Some df →
  Forall2 (λ r r', clean_row r = Some r') (rename_columns sheet) df.
Proof. rewrite load_and_clean_data_rows. apply mapM_Some. Qed.

(** After the whole function, a numeric column holds an integer that is
    not negative. *)
Lemma clean_row_numeric r r' col :
  clean_row r = Some r' → col ∈ numeric_cols →
  ∃ z, r' !! col = Some (Int z) ∧ 0 ≤ z.
Proof.
  intros (r3 & name & e & a1 & a2 & a3 & a4 & a5 & a6 & E & _ & _ & _ & _ & _
          & _ & _ & _ & ->)%clean_row_spec Hc.
  rewrite with_metrics_lookup_other
    by (by eapply (proj1 (Forall_forall _ _) numeric_not_derived)).
  destruct (cleaning_row_numeric _ _ _ E Hc) as [s Hs].
  exists (numeric_policy s). split; [exact Hs | apply numeric_policy_nonneg].
Qed.

Lemma yes_no_not_derived : Forall (λ c, c ∉ derived_cols) yes_no_cols.
Proof. by_computation. Qed.

(** After the whole function, a column of [yes_no_cols] holds the Yes/No
    cleaning of its text, unless the column is in [numeric_cols] too: then
    it holds the number the numeric policy makes of that. *)
Lemma clean_row_yes_no r r' col :
  clean_row r = Some r' → col ∈ yes_no_cols →
  ∃ v s, r !! col = Some v ∧ astype_str v = Some s ∧
    r' !! col = Some (if bool_decide (col ∈ numeric_cols)
                      then Int (numeric_policy (clean_yesno s))
                      else Str (clean_yesno s)).
Proof.
  intros (r3 & name & e & a1 & a2 & a3 & a4 & a5 & a6 & E & _ & _ & _ & _ & _
          & _ & _ & _ & ->)%clean_row_spec Hc.
  rewrite with_metrics_lookup_other
    by (by eapply (proj1 (Forall_forall _ _) yes_no_not_derived)).
  rewrite (cleaning_row_lookup _ _ col E).
  apply cleaning_row_inv in E as (r1 & r2 & E1 & E2 & _).
  assert (col ≠ "school_name") as Hne.
  { intros ->. by apply not_yes_no_school_name. }
  assert (printable (r !! col) = true) as Hp.
  { pose proof (text_update_loop_readable _ _ _ _ _ E2 Hc (λ _, eq_refl)) as Hp.
    rewrite (text_update_lookup _ _ _ _ col E1) in Hp.
    by rewrite decide_False in Hp by done. }
  destruct (r !! col) as [v|] eqn:Hv; [| done].
  apply bool_decide_eq_true in Hp as [s Hs].
  exists v, s. split; [done |]. split; [done |].
  unfold cleaned_cell. rewrite Hv.
  rewrite (decide_False (P := col = _)) by done.
  rewrite (decide_True (P := col ∈ yes_no_cols)) by done.
  assert (text_map (λ s, Str (clean_yesno s)) (Some v)
          = Some (Str (clean_yesno s))) as ->.
  { unfold text_map. cbn [mbind option_bind]. by rewrite Hs. }
  case_bool_decide as Hn.
  - rewrite (decide_True (P := col ∈ numeric_cols)) by exact Hn. reflexivity.
  - rewrite (decide_False (P := col ∈ numeric_cols)) by exact Hn. reflexivity.
Qed.

(** The function succeeds on a readable row. *)
Lemma clean_row_total r : readable_row r = true → is_Some (clean_row r).
Proof.
  unfold readable_row, cleaned_cols. rewrite forallb_forall. intros Hr.
  assert (∀ c, c ∈ "school_name" :: yes_no_cols ++ numeric_cols →
               printable (r !! c) = true) as Hr'.
  { intros c Hc. apply Hr. by apply list_elem_of_In. }
  clear Hr.
  destruct (text_map_printable (λ s, Str (strip s)) (r !! "school_name"))
    as [s0 Hs0]; [apply Hr'; by left |].
  assert (text_update (λ s, Str (strip s)) "school_name" r
          = Some (<["school_name" := Str (strip s0)]> r)) as E1.
  { unfold text_update. by rewrite Hs0. }
  destruct (text_update_loop_total (λ s, Str (clean_yesno s)) yes_no_cols
              (<["school_name" := Str (strip s0)]> r)) as [r2 E2];
    [apply NoDup_yes_no_cols | |].
  { intros c Hc. rewrite lookup_insert_ne.
    - apply Hr'. right. apply elem_of_app. by left.
    - intros <-. by apply not_yes_no_school_name. }
  destruct (text_update_loop_total (λ s, Int (numeric_policy s)) numeric_cols r2)
    as [r3 E3]; [apply NoDup_numeric_cols | |].
  { intros c Hc.
    rewrite (text_update_loop_lookup _ _ _ _ c NoDup_yes_no_cols E2).
    assert (c ≠ "school_name") as Hne.
    { intros ->. by apply not_numeric_school_name. }
    assert (printable (<["school_name" := Str (strip s0)]> r !! c) = true) as Hp.
    { rewrite lookup_insert_ne by done. apply Hr'. right. apply elem_of_app. by right. }
    case_decide; [| done].
    destruct (text_map_printable (λ s, Str (clean_yesno s)) _ Hp) as [s ->].
    reflexivity. }
  assert (cleaning_row r = Some r3) as E.
  { rewrite cleaning_row_eq, E1. cbn [mbind option_bind].
    rewrite E2. cbn [mbind option_bind]. exact E3. }
  rewrite clean_row_stages, E. cbn [mbind option_bind].
  destruct (cleaned_row_metrics _ _ E)
    as (name & e & a1 & a2 & a3 & a4 & a5 & a6 & _ & _ & _ & _ & _ & _ & _ & _ & ->).
  by eexists.
Qed.

Lemma load_total sheet :
  readable sheet = true → is_Some (load_and_clean_data sheet).
Proof.
  unfold readable. rewrite forallb_forall. intros H.
  rewrite load_and_clean_data_rows. apply mapM_is_Some, Forall_forall.
  intros r Hr. apply clean_row_total, H. by apply list_elem_of_In.
Qed.

End clean_row_facts.

(** ** Invariants of the cleaned frame *)

Import Samples.

Lemma cleaned_some (sheet : frame) :
  readable sheet = true → load_and_clean_data sheet = Some (cleaned sheet).
Proof.
  intros H. unfold cleaned. by destruct (load_total sheet H) as [df ->].
Qed.

Lemma nth_row_elem (i : nat) (df : frame) :
  (i <? length df)%nat = true → nth_row i df ∈ df.
Proof.
  intros H%Nat.ltb_lt. unfold nth_row.
  destruct (lookup_lt_is_Some_2 df i H) as [r Hr]. rewrite Hr.
  by eapply list_elem_of_lookup_2.
Qed.

Lemma clean_yesno_value (s : string) : yes_no_value s (clean_yesno s).
Proof.
  unfold yes_no_value, clean_yesno, yesno_lambda.
  destruct (contains "yes" _); [by left |].
  destruct (contains "no" _); [right; by left | right; by right].
Qed.




Lemma yes_no_numeric_overlap :
  Forall (λ col, bool_decide (col ∈ numeric_cols)
                 = bool_decide (col ∈ ["swh_available"; "swh_required"]))
         yes_no_cols.
Proof. by_computation. Qed.

Lemma text_fields :
  Forall (λ col, col ∈ yes_no_cols
                 ∧ bool_decide (col ∈ ["swh_available"; "swh_required"]) = false)
         ["drinking_water"; "ro_plant"; "internet_facility"].
Proof. by_computation. Qed.

Lemma solar_fields :
  Forall (λ col, col ∈ yes_no_cols
                 ∧ bool_decide (col ∈ ["swh_available"; "swh_required"]) = true)
         ["swh_available"; "swh_required"].
Proof. by_computation. Qed.

(** What the function leaves in the five columns of [yes_no_cols]: text in
    the three that the numeric pass skips, a number in the two solar heater
    columns, which the numeric pass also cleans. *)
Lemma yes_no_cols_after_cleaning (sheet df : frame) (r : row) (col : string) :
  load_and_clean_data sheet = Some df → r ∈ df → col ∈ yes_no_cols →
  ∃ s : string,
    r !! col = Some (if bool_decide (col ∈ ["swh_available"; "swh_required"])
                     then Int (numeric_policy (clean_yesno s))
                     else Str (clean_yesno s)).
Proof.
  intros Hload Hr Hc.
  destruct (load_row _ _ _ Hload Hr) as (r0 & _ & Hclean).
  destruct (clean_row_yes_no _ _ _ Hclean Hc) as (v & s & _ & _ & Hs).
  exists s.
  rewrite <- (proj1 (Forall_forall _ _) yes_no_numeric_overlap col Hc).
  exact Hs.
Qed.

(** C4.  The drinking water, RO plant and internet fields end as ["yes"],
    ["no"] or the lowercased trimmed text.  The two solar heater fields,
    although listed among the Yes/No columns, do not: the numeric pass
    cleans them as well, and a sheet that says Yes and No there ends with
    the number 0 in both. *)
Theorem C4_solar_heater_fields_become_numbers :
  (∀ (sheet df : frame) (r : row) (col : string),
     load_and_clean_data sheet = Some df → r ∈ df →
     col ∈ ["drinking_water"; "ro_plant"; "internet_facility"] →
     ∃ original cleaned : string,
       r !! col = Some (Str cleaned) ∧ yes_no_value original cleaned)
  ∧ (∀ (sheet df : frame) (r : row) (col : string),
       load_and_clean_data sheet = Some df → r ∈ df →
       col ∈ ["swh_available"; "swh_required"] →
       ∃ z : Z, r !! col = Some (Int z))
  ∧ load_and_clean_data solar_sheet = Some (cleaned solar_sheet)
  ∧ nth_row 0 (cleaned solar_sheet) !! "drinking_water" = Some (Str "yes")
  ∧ nth_row 0 (cleaned solar_sheet) !! "ro_plant" = Some (Str "no")
  ∧ nth_row 0 (cleaned solar_sheet) !! "internet_facility" = Some (Str "n/a")
  ∧ nth_row 0 (cleaned solar_sheet) !! "swh_available" = Some (Int 0)
  ∧ nth_row 0 (cleaned solar_sheet) !! "swh_required" = Some (Int 0).
Proof.
  split_and!.
  - intros sheet df r col Hload Hr Hc.
    destruct (proj1 (Forall_forall _ _) text_fields col Hc) as [Hy Hb].
    destruct (yes_no_cols_after_cleaning sheet df r col Hload Hr Hy) as [s Hs].
    rewrite Hb in Hs.
    exists s, (clean_yesno s). split; [exact Hs | apply clean_yesno_value].
  - intros sheet df r col Hload Hr Hc.
    destruct (proj1 (Forall_forall _ _) solar_fields col Hc) as [Hy Hb].
    destruct (yes_no_cols_after_cleaning sheet df r col Hload Hr Hy) as [s Hs].
    rewrite Hb in Hs.
    exists (numeric_policy (clean_yesno s)). exact Hs.
  - apply cleaned_some. vm_compute. reflexivity.
  - vm_compute. reflexivity.
  - vm_compute. reflexivity.
  - vm_compute. reflexivity.
  - vm_compute. reflexivity.
  - vm_compute. reflexivity.
Qed.

(** ** Derived ratios *)

Import Props.

Section ratio_facts.
Implicit Types (r : gmap string cell) (k col : string).

Lemma clean_row_readable r r' : clean_row r = Some r' → readable_row r = true.
Proof.
  intros H. unfold readable_row, cleaned_cols. apply forallb_forall.
  intros c Hc%list_elem_of_In.
  apply elem_of_cons in Hc as [-> | [Hc | Hc]%elem_of_app].
  - apply clean_row_spec in H as (r3 & ? & ? & ? & ? & ? & ? & ? & ? & E & _).
    destruct (cleaning_row_school_name _ _ E) as (v & s & -> & Hs & _).
    simpl. apply bool_decide_eq_true. by rewrite Hs.
  - destruct (clean_row_yes_no _ _ _ H Hc) as (v & s & -> & Hs & _).
    simpl. apply bool_decide_eq_true. by rewrite Hs.
  - destruct (decide (c ∈ yes_no_cols)) as [Hy | Hy].
    + destruct (clean_row_yes_no _ _ _ H Hy) as (v & s & -> & Hs & _).
      simpl. apply bool_decide_eq_true. by rewrite Hs.
    + apply clean_row_spec in H as (r3 & ? & ? & ? & ? & ? & ? & ? & ? & E & _).
      apply cleaning_row_inv in E as (r1 & r2 & E1 & E2 & E3).
      pose proof (text_update_loop_readable _ _ _ _ _ E3 Hc (λ _, eq_refl)) as Hp.
      rewrite (text_update_loop_lookup _ _ _ _ c NoDup_yes_no_cols E2) in Hp.
      rewrite (decide_False (P := c ∈ yes_no_cols)) in Hp by exact Hy.
      rewrite (text_update_lookup _ _ _ _ c E1) in Hp.
      rewrite (decide_False (P := c = _)) in Hp; [exact Hp |].
      intros ->. by apply not_numeric_school_name.
Qed.

(** The function returns a frame exactly on the readable sheets. *)
Lemma load_readable sheet :
  is_Some (load_and_clean_data sheet) ↔ readable sheet = true.
Proof.
  split; [| apply load_total].
  intros [df Hdf]. unfold readable. apply forallb_forall.
  intros r Hr%list_elem_of_In.
  apply load_rows in Hdf. apply list_elem_of_lookup in Hr as [i Hi].
  destruct (Forall2_lookup_l _ _ _ _ _ Hdf Hi) as (r' & _ & Hc).
  by eapply clean_row_readable.
Qed.

Lemma per_student_value_ratio (a e : Z) :
  ratio_of false a e (per_student_value a e).
Proof.
  unfold ratio_of, per_student_value.
  destruct (Z.eqb_spec e 0); split_and!; done.
Qed.

Lemma per_100_value_ratio (a e : Z) :
  ratio_of true a e (per_100_value a e).
Proof.
  unfold ratio_of, per_100_value.
  destruct (Z.eqb_spec e 0); split_and!; done.
Qed.

Lemma clean_row_ratios r r' :
  clean_row r = Some r' →
  ∃ e : Z, r' !! "enrolled_students" = Some (Int e) ∧
    ∀ rc src scaled, (rc, src, scaled) ∈ ratio_sources →
      ∃ (a : Z) (x : float),
        r' !! src = Some (Int a) ∧ r' !! rc = Some (Flt x) ∧ ratio_of scaled a e x.
Proof.
  intros (r3 & name & e & a1 & a2 & a3 & a4 & a5 & a6 & E & _ & He & H1 & H2
          & H3 & H4 & H5 & H6 & ->)%clean_row_spec.
  exists e. split.
  { rewrite with_metrics_lookup_other; [done | by_computation]. }
  intros rc src scaled Hin. unfold ratio_sources in Hin.
  repeat (apply elem_of_cons in Hin as [[= -> -> ->] | Hin];
          [eexists _, _; split_and!;
           [rewrite with_metrics_lookup_other; [eassumption | by_computation]
           | unfold with_metrics; rewrite ?lookup_insert_ne by done;
             apply lookup_insert_eq
           | first [apply per_100_value_ratio | apply per_student_value_ratio]] |]).
  by apply elem_of_nil in Hin.
Qed.

End ratio_facts.



(** ** Totals, fulfillment and the vacancy rate *)

Section report_facts.
Implicit Types (r : gmap string cell) (df : list (gmap string cell)) (c : string).


Lemma column_sum_total c df :
  int_column c df → column c df ≫= sum_int = Some (col_total c df).
Proof.
  unfold column, int_column. induction 1 as [|r df (z & Hz & _) _ IH].
  - done.
  - change (col_total c (r :: df)) with (int_at c r + col_total c df).
    cbn [mapM]. rewrite Hz. cbn [mbind option_bind].
    destruct (mapM (λ r0 : gmap string cell, r0 !! c) df) as [l|];
      cbn [mbind option_bind mret option_ret] in *; [| done].
    cbn [sum_int]. rewrite IH. cbn [mbind option_bind].
    unfold int_at. by rewrite Hz.
Qed.


Lemma is_zero_of_int (z : Z) : is_zero (inject_Z z) = (z =? 0).
Proof. reflexivity. Qed.

Lemma fdiv_of_int (a b : Z) :
  b ≠ 0 → fdiv (of_int a) (of_int b) = Fin (inject_Z a / inject_Z b).
Proof.
  intros Hb. unfold fdiv, of_int. rewrite is_zero_of_int.
  by destruct (Z.eqb_spec b 0).
Qed.

Lemma select_spec (p : gmap string cell → option bool) df out :
  select p df = Some out →
  out = filter (λ r, p r = Some true) df ∧ Forall (λ r, is_Some (p r)) df.
Proof.
  revert out. induction df as [|r df IH]; intros out; simpl.
  - intros [= <-]. by split.
  - destruct (p r) as [b|] eqn:Hp; cbn [mbind option_bind]; [| done].
    destruct (select p df) as [rest|]; cbn [mbind option_bind]; [| done].
    destruct (IH rest eq_refl) as [-> Hall]. intros [= <-]. split.
    + rewrite filter_cons. destruct b.
      * by rewrite decide_True by done.
      * by rewrite decide_False by congruence.
    + constructor; [by rewrite Hp | done].
Qed.

Lemma select_total (p : gmap string cell → option bool) df :
  Forall (λ r, is_Some (p r)) df → is_Some (select p df).
Proof.
  induction 1 as [|r df [b Hb] _ [rest IH]]; simpl; [done |].
  rewrite Hb, IH. by eexists.
Qed.

Lemma df_filtered_sub selected df dff :
  df_filtered selected df = Some dff → ∀ r, r ∈ dff → r ∈ df.
Proof.
  unfold df_filtered. destruct (negb _).
  - intros [-> _]%select_spec r Hr. by apply list_elem_of_filter in Hr as [_ ?].
  - by intros [= <-].
Qed.

End report_facts.

Section cleaned_frame_facts.
Implicit Types (r : gmap string cell) (df dff : list (gmap string cell)) (c : string).

Lemma cleaned_int_column sheet df c :
  load_and_clean_data sheet = Some df → c ∈ numeric_cols → int_column c df.
Proof.
  intros Hload Hc. apply Forall_forall. intros r Hr.
  destruct (load_row _ _ _ Hload Hr) as (r0 & _ & Hclean).
  by apply (clean_row_numeric r0).
Qed.

Lemma cleaned_department sheet df r :
  load_and_clean_data sheet = Some df → r ∈ df →
  ∃ name : string, r !! "school_name" = Some (Str name)
                   ∧ r !! "Department" = Some (Str (get_department name)).
Proof.
  intros Hload Hr. destruct (load_row _ _ _ Hload Hr) as (r0 & _ & Hclean).
  apply clean_row_spec in Hclean
    as (r3 & name & e & a1 & a2 & a3 & a4 & a5 & a6 & _ & Hn & _ & _ & _ & _
        & _ & _ & _ & ->).
  exists name. split.
  - rewrite with_metrics_lookup_other; [done | by_computation].
  - unfold with_metrics. rewrite !lookup_insert_ne by done. apply lookup_insert_eq.
Qed.

(** The department filter never fails on a cleaned frame, and keeps
    records of it. *)
Lemma df_filtered_total sheet df selected :
  load_and_clean_data sheet = Some df → is_Some (df_filtered selected df).
Proof.
  intros Hload. unfold df_filtered. destruct (negb _); [| done].
  apply select_total, Forall_forall. intros r Hr.
  destruct (cleaned_department _ _ _ Hload Hr) as (name & _ & ->). done.
Qed.

Lemma int_column_filtered selected df dff c :
  df_filtered selected df = Some dff → int_column c df → int_column c dff.
Proof.
  intros Hf Hall. apply Forall_forall. intros r Hr.
  apply (proj1 (Forall_forall _ _) Hall). by eapply df_filtered_sub.
Qed.


End cleaned_frame_facts.



Section vacancy_facts.
Implicit Types (df dff : list (gmap string cell)).

Lemma total_capacity_spec df e v :
  total_enrolled df = Some e → total_vacant df = Some v →
  total_capacity df = Some (e + v).
Proof. intros He Hv. unfold total_capacity. by rewrite He, Hv. Qed.

(** The vacancy rate from the two totals: it exists whenever they do, is a
    finite number, and is 0 unless the capacity is positive. *)
Lemma overall_vacancy_percent_spec df e v :
  total_enrolled df = Some e → total_vacant df = Some v →
  ∃ q : Q, overall_vacancy_percent df = Some (Fin q)
    ∧ (e + v ≤ 0 → q = 0%Q)
    ∧ (0 < e + v → q = (inject_Z v / inject_Z (e + v) * inject_Z 100)%Q).
Proof.
  intros He Hv. unfold overall_vacancy_percent.
  rewrite Hv, (total_capacity_spec _ _ _ He Hv). cbn [mbind option_bind].
  destruct (Z.ltb_spec 0 (e + v)) as [Hpos | Hle].
  - rewrite fdiv_of_int by lia. eexists. split; [reflexivity |].
    split; [lia | done].
  - exists 0%Q. split; [reflexivity |]. split; [done | lia].
Qed.

Lemma cleaned_totals sheet df selected dff :
  load_and_clean_data sheet = Some df → df_filtered selected df = Some dff →
  total_enrolled dff = Some (col_total "enrolled_students" dff)
  ∧ total_vacant dff = Some (col_total "vacant_seats" dff).
Proof.
  intros Hload Hf. unfold total_enrolled, total_vacant. split.
  - apply column_sum_total, (int_column_filtered _ _ _ _ Hf).
    apply (cleaned_int_column _ _ _ Hload). by_computation.
  - apply column_sum_total, (int_column_filtered _ _ _ _ Hf).
    apply (cleaned_int_column _ _ _ Hload). by_computation.
Qed.

End vacancy_facts.

(** C10.  For every set of records whose total capacity (enrolled plus
    vacant) is 0, the empty set among them, the overall vacancy percent is
    defined and is 0.  More generally it is defined, and finite, for every
    filtered set of cleaned records: the division is guarded. *)
Theorem C10_vacancy_guard :
  (∀ df : frame,
     total_capacity df = Some 0 → overall_vacancy_percent df = Some (Fin 0))
  ∧ total_capacity [] = Some 0
  ∧ overall_vacancy_percent [] = Some (Fin 0)
  ∧ (∀ (sheet df dff : frame) (selected : string),
       load_and_clean_data sheet = Some df →
       df_filtered selected df = Some dff →
       ∃ q : Q, overall_vacancy_percent dff = Some (Fin q)).
Proof.
  split_and!.
  - intros df. unfold total_capacity.
    destruct (total_enrolled df) as [e|] eqn:He; cbn [mbind option_bind]; [| done].
    destruct (total_vacant df) as [v|] eqn:Hv; cbn [mbind option_bind]; [| done].
    intros [= Hcap].
    destruct (overall_vacancy_percent_spec df e v He Hv) as (q & -> & Hz & _).
    rewrite Hz by lia. reflexivity.
  - reflexivity.
  - reflexivity.
  - intros sheet df dff selected Hload Hf.
    destruct (cleaned_totals _ _ _ _ Hload Hf) as [He Hv].
    destruct (overall_vacancy_percent_spec dff _ _ He Hv) as (q & Hq & _).
    by exists q.
Qed.

Lemma C10_vacancy_guard_witness :
  overall_vacancy_percent (cleaned closed_school) = Some (Fin 0).
Proof.
  apply (proj1 C10_vacancy_guard). vm_compute. reflexivity.
Defined.

(** ** Sorting by a ratio *)

Section sort_facts.
Context {A : Type}.
Implicit Types (a b : float * A) (l : list (float * A)).

Lemma fle_total (x y : float) : fle x y = false → fle y x = true.
Proof.
  destruct x as [p | [] |], y as [q | [] |]; simpl; try done.
  intros H. apply Qle_bool_iff. apply Qlt_le_weak, Qnot_le_lt.
  intros Hle%Qle_bool_iff. congruence.
Qed.

Lemma fle_trans (x y z : float) :
  fle x y = true → fle y z = true → fle x z = true.
Proof.
  destruct x as [p | [] |], y as [q | [] |], z as [s | [] |]; simpl; try done.
  rewrite !Qle_bool_iff. apply Qle_trans.
Qed.

Lemma insert_key_perm a l : insert_key a l ≡ₚ a :: l.
Proof.
  induction l as [|b l IH]; simpl; [done |].
  destruct (fle a.1 b.1); [done |]. by rewrite IH, Permutation_swap.
Qed.

Lemma sort_keys_perm l : sort_keys l ≡ₚ l.
Proof.
  induction l as [|a l IH]; simpl; [done |].
  unfold sort_keys in *. simpl. by rewrite insert_key_perm, IH.
Qed.

Lemma insert_key_sorted a l :
  StronglySorted keys_ascend l → StronglySorted keys_ascend (insert_key a l).
Proof.
  induction 1 as [|b l Hl IH Hb]; simpl.
  - repeat constructor.
  - destruct (fle a.1 b.1) eqn:Hab.
    + constructor; [by constructor |]. constructor; [exact Hab |].
      eapply Forall_impl; [exact Hb |]. intros c Hc. by eapply fle_trans.
    + constructor; [exact IH |].
      rewrite insert_key_perm. constructor; [| exact Hb]. by apply fle_total.
Qed.

Lemma sort_keys_sorted l : StronglySorted keys_ascend (sort_keys l).
Proof.
  induction l as [|a l IH]; [constructor |]. by apply insert_key_sorted.
Qed.

End sort_facts.

Section list_facts.

Lemma Forall2_filter_both {A B} (R : A → B → Prop) (P : A → Prop) (Q : B → Prop)
    `{∀ x, Decision (P x)} `{∀ y, Decision (Q y)} (l : list A) (k : list B) :
  Forall2 (λ x y, R x y ∧ (P x ↔ Q y)) l k →
  Forall2 R (filter P l) (filter Q k).
Proof.
  induction 1 as [|x y l k [HR HPQ] _ IH]; [constructor |].
  rewrite !filter_cons. destruct (decide (P x)) as [HP | HP].
  - rewrite decide_True by tauto. by constructor.
  - by rewrite decide_False by tauto.
Qed.

Lemma StronglySorted_fmap {A B} (R : A → A → Prop) (S : B → B → Prop)
    (f : A → B) (l : list A) :
  (∀ x y, x ∈ l → y ∈ l → R x y → S (f x) (f y)) →
  StronglySorted R l → StronglySorted S (f <$> l).
Proof.
  intros Hf Hl. induction Hl as [|x l Hl IH Hx]; [constructor |].
  rewrite fmap_cons. constructor.
  - apply IH. intros a b Ha Hb. apply Hf; by right.
  - apply Forall_fmap, Forall_forall. intros y Hy. simpl.
    apply Hf; [by left | by right |].
    by apply (proj1 (Forall_forall _ _) Hx).
Qed.

End list_facts.

(** ** The records of the ranking *)

Section ratio_record_facts.
Implicit Types (r q : gmap string cell) (df dff : list (gmap string cell)) (c k : string).

Lemma cleaned_cell_None r k : r !! k = None → cleaned_cell r k = None.
Proof.
  intros H. unfold cleaned_cell. rewrite H.
  repeat case_decide; reflexivity.
Qed.

Lemma ratio_sources_labels c :
  c ∈ ratio_labels → ∃ src scaled, (c, src, scaled) ∈ ratio_sources.
Proof.
  unfold ratio_labels, ratio_mapping. cbn [fmap list_fmap fst].
  intros Hc.
  repeat (apply elem_of_cons in Hc as [-> | Hc];
          [eexists _, _; unfold ratio_sources;
           repeat first [by apply list_elem_of_here | apply list_elem_of_further] |]).
  by apply elem_of_nil in Hc.
Qed.

Lemma derived_ratio_labels_all :
  Forall (λ k, startswith "ratio_" k = true → k ∈ ratio_labels) derived_cols.
Proof. by_computation. Qed.

Lemma derived_ratio_labels k :
  k ∈ derived_cols → startswith "ratio_" k = true → k ∈ ratio_labels.
Proof. apply (proj1 (Forall_forall _ _) derived_ratio_labels_all). Qed.

Lemma ratio_labels_derived : Forall (λ c, c ∈ derived_cols) ratio_labels.
Proof. by_computation. Qed.

Lemma own_ratio_columns_row sheet r k :
  own_ratio_columns sheet = true → r ∈ rename_columns sheet →
  startswith "ratio_" k = true → r !! k = None.
Proof.
  unfold own_ratio_columns. rewrite forallb_forall.
  intros Hall Hr%list_elem_of_In Hk. specialize (Hall r Hr).
  rewrite forallb_forall in Hall.
  destruct (r !! k) as [v|] eqn:Hv; [| done].
  assert (k ∈ (map_to_list r).*1) as Hin.
  { apply list_elem_of_fmap. exists (k, v). split; [done |].
    by apply elem_of_map_to_list. }
  apply list_elem_of_In, Hall in Hin. by rewrite Hk in Hin.
Qed.

(** None of the labels the survey headers are renamed to begins with
    ["ratio_"]: a sheet with the survey's own headers brings no ratio
    column. *)
Lemma survey_labels_not_ratio :
  Forall (λ kv : string * string,
            startswith "ratio_" (rename_label kv.1) = false
            ∧ startswith "ratio_" kv.2 = false) COLUMN_MAPPING.
Proof. by_computation. Qed.

Lemma cleaned_ratio_record sheet df r :
  load_and_clean_data sheet = Some df → own_ratio_columns sheet = true →
  r ∈ df → ratio_record r.
Proof.
  intros Hload Hown Hr.
  destruct (load_row _ _ _ Hload Hr) as (r0 & Hr0 & Hclean).
  split_and!.
  - destruct (cleaned_department _ _ _ Hload Hr) as (name & Hn & _). by exists name.
  - destruct (clean_row_ratios _ _ Hclean) as (e & He & Hratios).
    exists e. split; [exact He |]. intros c Hc.
    destruct (ratio_sources_labels c Hc) as (src & scaled & Hin).
    destruct (Hratios _ _ _ Hin) as (a & x & _ & Hx & H0 & Hne & _).
    exists x. split_and!; [done | done |]. intros He0. eexists. by apply Hne.
  - intros k Hk [v Hv].
    destruct (decide (k ∈ derived_cols)) as [Hd | Hd];
      [by apply derived_ratio_labels |].
    apply clean_row_spec in Hclean
      as (r3 & name & e & a1 & a2 & a3 & a4 & a5 & a6 & E & _ & _ & _ & _ & _
          & _ & _ & _ & ->).
    rewrite with_metrics_lookup_other in Hv by done.
    rewrite (cleaning_row_lookup _ _ k E) in Hv.
    rewrite cleaned_cell_None in Hv; [done |].
    by eapply own_ratio_columns_row.
Qed.

End ratio_record_facts.

Section ratios_df_facts.
Implicit Types (r q : gmap string cell) (df dff sub : list (gmap string cell)) (c k : string).

Lemma project_row (l : list string) r :
  (∀ c, c ∈ l → is_Some (r !! c)) →
  ∃ kvs, mapM (λ c, v ← r !! c; Some (c, v)) l = Some kvs
         ∧ restricted l r (list_to_map kvs).
Proof.
  induction l as [|c l IH]; intros Hl.
  - exists []. split; [done |]. intros k. by rewrite decide_False by apply not_elem_of_nil.
  - destruct (Hl c) as [v Hv]; [by left |].
    destruct IH as (kvs & Hk & Hr); [intros c' Hc'; apply Hl; by right |].
    exists ((c, v) :: kvs). split.
    + cbn [mapM]. rewrite Hv. cbn [mbind option_bind]. by rewrite Hk.
    + intros k. cbn [list_to_map foldr]. destruct (decide (k = c)) as [-> | Hne].
      * rewrite lookup_insert_eq. by rewrite decide_True by (by left).
      * rewrite lookup_insert_ne by done. rewrite (Hr k).
        destruct (decide (k ∈ l)) as [Hin | Hin].
        -- by rewrite decide_True by (by right).
        -- rewrite decide_False; [done |]. by intros [?|?]%elem_of_cons.
Qed.

Lemma project_spec (l : list string) df :
  Forall (λ r, ∀ c, c ∈ l → is_Some (r !! c)) df →
  ∃ sub, project l df = Some sub ∧ Forall2 (restricted l) df sub.
Proof.
  unfold project. induction 1 as [|r df Hr _ (sub & Hsub & Hall)].
  - by exists [].
  - destruct (project_row l r Hr) as (kvs & Hk & Hres).
    exists (list_to_map kvs :: sub). split; [| by constructor].
    cbn [mapM]. rewrite Hk. cbn [mbind option_bind]. by rewrite Hsub.
Qed.

Lemma ratio_labels_prefixed :
  Forall (λ c, startswith "ratio_" c = true) ratio_labels.
Proof. by_computation. Qed.

(** The ratio columns of a frame of such records are the six labels. *)
Lemma ratio_cols_labels r dff c :
  ratio_record r → c ∈ ratio_cols (r :: dff) ↔ c ∈ ratio_labels.
Proof.
  intros (_ & (e & _ & Hlab) & Hown). unfold ratio_cols, columns.
  rewrite list_elem_of_filter, list_elem_of_fmap. split.
  - intros [Hc ([k v] & -> & Hkv%elem_of_map_to_list)]. apply Hown; [done |].
    by exists v.
  - intros Hc. split; [by apply (proj1 (Forall_forall _ _) ratio_labels_prefixed) |].
    destruct (Hlab c Hc) as (x & Hx & _). exists (c, Flt x). split; [done |].
    by apply elem_of_map_to_list.
Qed.

Lemma dropna_pred (l : list string) q :
  (∀ c, c ∈ l → is_Some (q !! c)) →
  ∃ b : bool,
    (vs ← mapM (λ c, q !! c) l; Some (forallb (λ v, negb (isna v)) vs)) = Some b
    ∧ (b = true ↔ ∀ c, c ∈ l → notnull c q = true).
Proof.
  induction l as [|c l IH]; intros Hl.
  - exists true. split; [done |]. split; [| done]. intros _ c Hc.
    by apply elem_of_nil in Hc.
  - destruct (Hl c) as [v Hv]; [by left |].
    destruct IH as (b & Hb & Hiff); [intros c' Hc'; apply Hl; by right |].
    destruct (mapM (λ c, q !! c) l) as [vs|] eqn:Hvs; [| done].
    cbn [mbind option_bind] in Hb. injection Hb as <-.
    exists (negb (isna v) && forallb (λ v, negb (isna v)) vs). split.
    + cbn [mapM]. rewrite Hv. cbn [mbind option_bind]. rewrite Hvs. reflexivity.
    + rewrite andb_true_iff, Hiff. split.
      * intros [Hc Hrest] c' [-> | Hc']%elem_of_cons; [| by apply Hrest].
        unfold notnull. by rewrite Hv.
      * intros Hall. split.
        -- specialize (Hall c (list_elem_of_here _ _)). unfold notnull in Hall.
           by rewrite Hv in Hall.
        -- intros c' Hc'. apply Hall. by right.
Qed.

Lemma Forall2_with_left {A B} (P : A → Prop) (R : A → B → Prop)
    (xs : list A) (ys : list B) :
  Forall P xs → Forall2 R xs ys → Forall2 (λ x y, P x ∧ R x y) xs ys.
Proof.
  intros HP HR. revert HP. induction HR as [|x y xs ys Hxy _ IH]; [constructor |].
  intros [Hx Hl]%Forall_cons. constructor; [done | by apply IH].
Qed.

Lemma has_students_notnull r c :
  ratio_record r → c ∈ ratio_labels → notnull c r = has_students r.
Proof.
  intros (_ & (e & He & Hlab) & _) Hc.
  destruct (Hlab c Hc) as (x & Hx & H0 & Hne).
  unfold notnull, has_students. rewrite Hx, He.
  destruct (decide (e = 0)) as [-> | Hnz].
  - by rewrite H0.
  - destruct (Hne Hnz) as [q' ->]. by destruct e.
Qed.

End ratios_df_facts.

Section ratios_df_spec.
Implicit Types (r q : gmap string cell) (df dff sub : list (gmap string cell)) (c k : string).

Lemma Forall2_right {A B} (R : A → B → Prop) (Q : B → Prop)
    (xs : list A) (ys : list B) :
  Forall2 R xs ys → (∀ x y, R x y → Q y) → Forall Q ys.
Proof. induction 1; intros HQ; constructor; eauto. Qed.

Lemma restricted_lookup (l : list string) r q c :
  restricted l r q → c ∈ l → q !! c = r !! c.
Proof. intros H Hc. rewrite (H c). by rewrite decide_True by done. Qed.

Lemma restricted_notnull (l : list string) r q c :
  restricted l r q → c ∈ l → notnull c q = notnull c r.
Proof. intros H Hc. unfold notnull. by rewrite (restricted_lookup l r q c H Hc). Qed.

Lemma classrooms_label : "ratio_classrooms" ∈ ratio_labels.
Proof. by_computation. Qed.

(** What [dropna] decides for a restricted record: it stays exactly when
    its school has students. *)
Lemma dropna_keeps_schools_with_students (cols : list string) r q :
  (∀ c, c ∈ cols ↔ c ∈ ratio_labels) →
  ratio_record r → restricted (kept_cols cols) r q →
  ∃ b : bool,
    (vs ← mapM (λ c, q !! c) ("enrolled_students" :: cols);
     Some (forallb (λ v, negb (isna v)) vs)) = Some b
    ∧ (has_students r = true ↔ Some b = Some true).
Proof.
  intros Hcols Hrec Hres.
  assert (∀ c, c ∈ "enrolled_students" :: cols → c ∈ kept_cols cols) as Hkept.
  { intros c [-> | Hc]%elem_of_cons; unfold kept_cols.
    - right. by left.
    - by do 2 right. }
  pose proof Hrec as (_ & (e & He & Hlab) & _).
  destruct (dropna_pred ("enrolled_students" :: cols) q) as (b & Hb & Hiff).
  { intros c Hc. rewrite (restricted_lookup _ _ _ _ Hres (Hkept c Hc)).
    apply elem_of_cons in Hc as [-> | Hc]; [by rewrite He |].
    destruct (Hlab c (proj1 (Hcols c) Hc)) as (x & -> & _). done. }
  exists b. split; [exact Hb |]. split.
  - intros Hs. f_equal. apply Hiff. intros c Hc.
    rewrite (restricted_notnull _ _ _ _ Hres (Hkept c Hc)).
    apply elem_of_cons in Hc as [-> | Hc].
    + unfold notnull. by rewrite He.
    + by rewrite (has_students_notnull r c Hrec (proj1 (Hcols c) Hc)).
  - intros [= ->].
    assert ("ratio_classrooms" ∈ "enrolled_students" :: cols) as Hc.
    { right. apply Hcols, classrooms_label. }
    pose proof (proj1 Hiff eq_refl _ Hc) as Hn.
    rewrite (restricted_notnull _ _ _ _ Hres (Hkept _ Hc)) in Hn.
    by rewrite (has_students_notnull r _ Hrec classrooms_label) in Hn.
Qed.

(** [ratios_df] on records of a cleaned frame: it succeeds and keeps, in
    order and restricted to the displayed columns, the records whose school
    has students. *)
Lemma ratios_df_spec dff :
  Forall ratio_record dff →
  ∃ rdf, ratios_df dff = Some rdf
    ∧ Forall2 (restricted (kept_cols (ratio_cols dff)))
              (filter (λ r, has_students r = true) dff) rdf.
Proof.
  intros Hall. destruct dff as [|r0 dff0]; [by exists [] |].
  set (df := r0 :: dff0) in *. set (cols := ratio_cols df).
  assert (∀ c, c ∈ cols ↔ c ∈ ratio_labels) as Hcols.
  { intros c. apply ratio_cols_labels. by apply Forall_cons in Hall as [? _]. }
  destruct (project_spec (kept_cols cols) df) as (sub & Hsub & HF2).
  { eapply Forall_impl; [exact Hall |].
    intros r ((name & Hn) & (e & He & Hlab) & _) c Hc. unfold kept_cols in Hc.
    apply elem_of_cons in Hc as [-> | [-> | Hc]%elem_of_cons];
      [by rewrite Hn | by rewrite He |].
    destruct (Hlab c (proj1 (Hcols c) Hc)) as (x & -> & _). done. }
  pose proof (Forall2_with_left _ _ _ _ Hall HF2) as HF2'.
  unfold ratios_df. fold cols. fold (kept_cols cols). rewrite Hsub.
  cbn [mbind option_bind]. unfold dropna.
  destruct (select_total
              (λ q, vs ← mapM (λ c, q !! c) ("enrolled_students" :: cols);
                    Some (forallb (λ v, negb (isna v)) vs)) sub) as [rdf Hrdf].
  { eapply Forall2_right; [exact HF2' |]. intros r q [Hrec Hres].
    destruct (dropna_keeps_schools_with_students cols r q Hcols Hrec Hres)
      as (b & -> & _). done. }
  exists rdf. split; [exact Hrdf |].
  apply select_spec in Hrdf as [-> _].
  apply Forall2_filter_both. eapply Forall2_impl; [exact HF2' |].
  intros r q [Hrec Hres]. split; [exact Hres |].
  destruct (dropna_keeps_schools_with_students cols r q Hcols Hrec Hres)
    as (b & -> & Hiff). exact Hiff.
Qed.

End ratios_df_spec.

Section df_table_facts.
Implicit Types (r q : gmap string cell) (df rdf : list (gmap string cell)) (c k : string).

Lemma mapM_fmap_total {A B} (f : A → option B) (g : A → B) (l : list A) :
  Forall (λ x, f x = Some (g x)) l → mapM f l = Some (g <$> l).
Proof.
  induction 1 as [|x l Hx _ IH]; [done |].
  cbn [mapM]. rewrite Hx. cbn [mbind option_bind]. by rewrite IH.
Qed.

Lemma zip_fmap_diag {A B} (g : A → B) (l : list A) :
  zip (g <$> l) l = (λ x, (g x, x)) <$> l.
Proof. induction l as [|x l IH]; [done |]. cbn. by rewrite IH. Qed.

Lemma table_row_key c q :
  table_row c q → ∃ x : Q, q !! c = Some (Flt (Fin x)) ∧ sort_key c q = Fin x.
Proof.
  intros (_ & x & Hx). exists x. split; [done |]. unfold sort_key. by rewrite Hx.
Qed.

Lemma table_rows_ascend c q1 q2 :
  table_row c q1 → table_row c q2 →
  fle (sort_key c q1) (sort_key c q2) = true →
  ratio_le (entry c q1) (entry c q2).
Proof.
  intros (x1 & Hx1 & Hk1)%table_row_key (x2 & Hx2 & Hk2)%table_row_key.
  rewrite Hk1, Hk2. unfold ratio_le, entry. cbn [snd fle].
  rewrite Hx1, Hx2. cbn [default]. by intros ?%Qle_bool_iff.
Qed.

(** Sorting and cutting the table of one metric. *)
Lemma df_table_spec c rdf :
  Forall (table_row c) rdf →
  ∃ sorted, sort_values c rdf = Some sorted
    ∧ sorted ≡ₚ rdf
    ∧ StronglySorted ratio_le (entry c <$> sorted)
    ∧ df_table c rdf = Some (take 5 (entry c <$> sorted)).
Proof.
  intros Hrows.
  set (tagged := (λ q, (sort_key c q, q)) <$> rdf).
  assert (sort_values c rdf = Some ((sort_keys tagged).*2)) as Hsort.
  { unfold sort_values. rewrite (mapM_fmap_total _ (sort_key c)).
    - cbn [mbind option_bind]. by rewrite zip_fmap_diag.
    - eapply Forall_impl; [exact Hrows |]. intros q (x & Hx & Hk)%table_row_key.
      rewrite Hk, Hx. reflexivity. }
  assert ((sort_keys tagged).*2 ≡ₚ rdf) as Hperm.
  { rewrite sort_keys_perm. unfold tagged. rewrite <- list_fmap_compose.
    by rewrite list_fmap_id. }
  assert (Forall (λ kq : float * gmap string cell,
                    kq.1 = sort_key c kq.2 ∧ table_row c kq.2)
                 (sort_keys tagged)) as Htag.
  { rewrite sort_keys_perm. unfold tagged. apply Forall_fmap.
    eapply Forall_impl; [exact Hrows |]. by intros q Hq. }
  exists ((sort_keys tagged).*2). split_and!; [exact Hsort | exact Hperm | |].
  - rewrite <- list_fmap_compose.
    apply (StronglySorted_fmap keys_ascend); [| apply sort_keys_sorted].
    intros [k1 q1] [k2 q2] H1 H2 Hle.
    apply (proj1 (Forall_forall _ _) Htag) in H1 as [Hk1 Hr1].
    apply (proj1 (Forall_forall _ _) Htag) in H2 as [Hk2 Hr2].
    cbn [fst snd compose] in *. subst k1 k2. by apply table_rows_ascend.
  - unfold df_table, df_ranked, head_rows. rewrite Hsort.
    cbn [fmap option_fmap option_map mbind option_bind].
    rewrite (mapM_fmap_total _ (entry c)); [by rewrite fmap_take |].
    apply Forall_take. rewrite Hperm.
    eapply Forall_impl; [exact Hrows |].
    intros q ((n & Hn) & x & Hx). unfold entry. by rewrite Hn, Hx.
Qed.

End df_table_facts.

Section ranking_facts.
Implicit Types (r q : gmap string cell) (df dff rdf : list (gmap string cell)) (c k : string).

Lemma some_default {A} (d : A) (x : option A) : is_Some x → x = Some (default d x).
Proof. by intros [y ->]. Qed.

Lemma filter_ext_Forall {A} (P Q : A → Prop) `{∀ x, Decision (P x)}
    `{∀ x, Decision (Q x)} (l : list A) :
  Forall (λ x, P x ↔ Q x) l → filter P l = filter Q l.
Proof.
  induction 1 as [|x l Hx _ IH]; [done |]. rewrite !filter_cons, IH.
  destruct (decide (P x)) as [HP | HP].
  - by rewrite decide_True by tauto.
  - by rewrite decide_False by tauto.
Qed.

Lemma Forall2_fmap_eq {A B C} (R : A → B → Prop) (f : A → C) (g : B → C)
    (xs : list A) (ys : list B) :
  Forall2 R xs ys → (∀ x y, R x y → f x = g y) → f <$> xs = g <$> ys.
Proof.
  induction 1 as [|x y xs ys Hxy _ IH]; intros Hfg; [done |].
  cbn. rewrite (Hfg x y Hxy). f_equal. by apply IH.
Qed.

Lemma school_name_kept (cols : list string) : "school_name" ∈ kept_cols cols.
Proof. by left. Qed.

Lemma enrolled_kept (cols : list string) : "enrolled_students" ∈ kept_cols cols.
Proof. right. by left. Qed.

(** The ratio display and the table of one metric, for any records of a
    cleaned frame. *)
Lemma ranking_core dff c :
  Forall ratio_record dff → c ∈ ratio_labels →
  ∃ rdf (ranked : list (cell * cell)),
    ratios_df dff = Some rdf
    ∧ Forall2 (restricted (kept_cols (ratio_cols dff)))
              (filter (λ r, has_students r = true) dff) rdf
    ∧ Forall (table_row c) rdf
    ∧ df_table c rdf = Some (take 5 ranked)
    ∧ ranked ≡ₚ entry c <$> filter (λ r, notnull c r = true) dff
    ∧ StronglySorted ratio_le ranked.
Proof.
  intros Hall Hc.
  destruct (ratios_df_spec dff Hall) as (rdf & Hrdf & HF2).
  assert (Forall ratio_record (filter (λ r, has_students r = true) dff)) as Hrows.
  { apply Forall_forall. intros r [_ Hr]%list_elem_of_filter.
    by apply (proj1 (Forall_forall _ _) Hall). }
  assert (Forall (λ r, has_students r = true)
                 (filter (λ r, has_students r = true) dff)) as Hstud.
  { apply Forall_forall. by intros r [? _]%list_elem_of_filter. }
  assert (c ∈ kept_cols (ratio_cols dff) ∨ dff = []) as Hkept.
  { destruct dff as [|r0 dff0]; [by right | left].
    do 2 right. apply (ratio_cols_labels r0); [| done].
    by apply Forall_cons in Hall as [? _]. }
  destruct Hkept as [Hkept | ->]; cycle 1.
  { apply Forall2_nil_inv_l in HF2 as ->.
    exists [], []. split_and!; [done | constructor | constructor | done | done | constructor]. }
  pose proof (Forall2_with_left _ _ _ _ Hstud
                (Forall2_with_left _ _ _ _ Hrows HF2)) as HF2'.
  assert (Forall (table_row c) rdf) as Htab.
  { eapply Forall2_right; [exact HF2' |].
    intros r q (Hs & Hrec & Hres). pose proof Hrec as ((name & Hn) & _).
    split.
    - exists (Str name). by rewrite (restricted_lookup _ _ _ _ Hres (school_name_kept _)).
    - rewrite (restricted_lookup _ _ _ _ Hres Hkept).
      pose proof (has_students_notnull r c Hrec Hc) as Hnn.
      destruct Hrec as (_ & (e & He & Hlab) & _).
      destruct (Hlab c Hc) as (x & Hx & H0 & Hne).
      destruct (decide (e = 0)) as [-> | Hnz].
      + unfold has_students in Hs. by rewrite He in Hs.
      + destruct (Hne Hnz) as [q' ->]. by exists q'. }
  destruct (df_table_spec c rdf Htab) as (sorted & _ & Hperm & Hsorted & Htable).
  exists rdf, (entry c <$> sorted).
  split_and!; [done | done | done | done | | done].
  rewrite Hperm.
  rewrite <- (Forall2_fmap_eq _ (entry c) (entry c) _ _ HF2').
  - rewrite (filter_ext_Forall (λ r, has_students r = true)
               (λ r, notnull c r = true) dff); [done |].
    eapply Forall_impl; [exact Hall |].
    intros r Hrec. by rewrite (has_students_notnull r c Hrec Hc).
  - intros r q (_ & _ & Hres). unfold entry.
    by rewrite (restricted_lookup _ _ _ _ Hres (school_name_kept _)),
               (restricted_lookup _ _ _ _ Hres Hkept).
Qed.

Lemma filtered_ratio_records sheet df selected dff :
  load_and_clean_data sheet = Some df → own_ratio_columns sheet = true →
  df_filtered selected df = Some dff → Forall ratio_record dff.
Proof.
  intros Hload Hown Hf. apply Forall_forall. intros r Hr.
  apply (cleaned_ratio_record sheet df r Hload Hown). by eapply df_filtered_sub.
Qed.

End ranking_facts.

Section ranking_tables_facts.
Implicit Types (r q : gmap string cell) (df dff rdf : list (gmap string cell)) (c k : string).

Lemma filter_all {A} (P : A → Prop) `{∀ x, Decision (P x)} (l : list A) :
  Forall P l → filter P l = l.
Proof.
  induction 1 as [|x l Hx _ IH]; [done |].
  by rewrite filter_cons, decide_True, IH by done.
Qed.

Lemma mapping_label (m : string * string) :
  m ∈ ratio_mapping → m.1 ∈ ratio_labels.
Proof. intros Hm. unfold ratio_labels. by apply list_elem_of_fmap_2. Qed.

(** The tables of the second tab: none, with a warning, for an empty ratio
    display; else one per entry of [ratio_mapping], in that order, under
    its display name. *)
Lemma ranking_tables_spec dff rdf :
  ratios_df dff = Some rdf →
  (∀ c, c ∈ ratio_labels → Forall (table_row c) rdf) →
  ranking_tables dff
  = Some (match rdf with
          | [] => None
          | _ => Some ((λ m : string * string,
                          (m.2, default [] (df_table m.1 rdf))) <$> ratio_mapping)
          end).
Proof.
  intros Hrdf Htab. unfold ranking_tables. rewrite Hrdf. cbn [mbind option_bind].
  destruct rdf as [|q rdf']; [done |].
  rewrite filter_all.
  - rewrite (mapM_fmap_total _
               (λ m : string * string, (m.2, default [] (df_table m.1 (q :: rdf'))))).
    + reflexivity.
    + apply Forall_forall. intros m Hm%mapping_label.
      destruct (df_table_spec m.1 (q :: rdf') (Htab _ Hm)) as (sorted & _ & _ & _ & ->).
      reflexivity.
  - apply Forall_forall. intros m Hm%mapping_label.
    pose proof (Htab _ Hm) as [(_ & x & Hx) _]%Forall_cons.
    unfold columns. apply list_elem_of_fmap. exists (m.1, Flt (Fin x)).
    split; [done |]. by apply elem_of_map_to_list.
Qed.

End ranking_tables_facts.



Section zero_enrollment_facts.
Implicit Types (r q : gmap string cell) (df dff rdf : list (gmap string cell)) (c k : string).



End zero_enrollment_facts.



(** * Further properties: the cells of the cleaned frame, the filter, the
    charts and the tables *)

Import Charts Notions Cases.

(** ** More on text *)

Section more_text_facts.

Lemma to_lower_idemp (c : ascii) : to_lower (to_lower c) = to_lower c.
Proof. destruct c as [[] [] [] [] [] [] [] []]; by vm_compute. Qed.

Lemma to_lower_upper (c : ascii) : to_lower (to_upper c) = to_lower c.
Proof. destruct c as [[] [] [] [] [] [] [] []]; by vm_compute. Qed.

Lemma to_upper_lower (c : ascii) : to_upper (to_lower c) = to_upper c.
Proof. destruct c as [[] [] [] [] [] [] [] []]; by vm_compute. Qed.

Lemma is_space_to_lower (c : ascii) : is_space (to_lower c) = is_space c.
Proof. destruct c as [[] [] [] [] [] [] [] []]; by vm_compute. Qed.


Lemma smap_smap (f g h : ascii → ascii) (s : string) :
  (∀ c, f (g c) = h c) → smap f (smap g s) = smap h s.
Proof. intros H. induction s as [|c s IH]; simpl; [done | by rewrite H, IH]. Qed.

Lemma lower_idemp (s : string) : lower (lower s) = lower s.
Proof. apply smap_smap, to_lower_idemp. Qed.

Lemma lower_upper (s : string) : lower (upper s) = lower s.
Proof. apply smap_smap, to_lower_upper. Qed.

Lemma upper_lower (s : string) : upper (lower s) = upper s.
Proof. apply smap_smap, to_upper_lower. Qed.


Lemma lstrip_smap (f : ascii → ascii) (s : string) :
  (∀ c, is_space (f c) = is_space c) → lstrip (smap f s) = smap f (lstrip s).
Proof.
  intros H. induction s as [|c s IH]; simpl; [done |].
  rewrite H. by destruct (is_space c).
Qed.

Lemma rstrip_smap (f : ascii → ascii) (s : string) :
  (∀ c, is_space (f c) = is_space c) → rstrip (smap f s) = smap f (rstrip s).
Proof.
  intros H. induction s as [|c s IH]; [done |].
  cbn [smap rstrip]. rewrite IH.
  destruct (rstrip s); cbn [smap]; [| done].
  rewrite H. by destruct (is_space c).
Qed.

Lemma strip_lower (s : string) : strip (lower s) = lower (strip s).
Proof.
  unfold strip, lower.
  by rewrite (lstrip_smap _ _ is_space_to_lower), (rstrip_smap _ _ is_space_to_lower).
Qed.

Lemma lstrip_no_space (s : string) : no_space_at_start s → lstrip s = s.
Proof. destruct s as [|c s]; simpl; [done |]. by intros ->. Qed.

Lemma rstrip_idemp (s : string) : rstrip (rstrip s) = rstrip s.
Proof.
  induction s as [|c s IH]; [done |]. cbn [rstrip].
  destruct (rstrip s) as [|d r] eqn:Hr.
  - destruct (is_space c) eqn:Hc; [done |]. cbn [rstrip]. by rewrite Hc.
  - cbn [rstrip]. cbn [rstrip] in IH. by rewrite IH.
Qed.

Lemma strip_idemp (s : string) : strip (strip s) = strip s.
Proof.
  unfold strip.
  rewrite (lstrip_no_space (rstrip (lstrip s))).
  - apply rstrip_idemp.
  - apply rstrip_keeps_start. by destruct (lstrip_spec s) as (a & _ & _ & ?).
Qed.

(** A text that begins with no white space is not found in the white
    space [strip] removes. *)
Lemma startswith_space (p s : string) (c : ascii) :
  no_space_at_start p → p ≠ "" → is_space c = true →
  startswith p (String c s) = false.
Proof.
  destruct p as [|a p]; [done |]. cbn [no_space_at_start startswith].
  intros Ha _ Hc. destruct (Ascii.eqb_spec a c) as [-> | _]; [congruence | done].
Qed.

Lemma contains_lstrip (p s : string) :
  no_space_at_start p → p ≠ "" → contains p (lstrip s) = contains p s.
Proof.
  intros Hp Hne. induction s as [|c s IH]; [done |]. cbn [lstrip].
  destruct (is_space c) eqn:Hc; [| done].
  rewrite IH. cbn [contains]. by rewrite startswith_space.
Qed.

Lemma startswith_rstrip (p s : string) :
  all_chars (λ c, negb (is_space c)) p = true →
  startswith p (rstrip s) = startswith p s.
Proof.
  revert p. induction s as [|c s IH]; intros p Hp; [done |].
  destruct p as [|a p]; [done |].
  cbn [all_chars] in Hp. apply andb_true_iff in Hp as [Ha Hp].
  specialize (IH p Hp). cbn [rstrip].
  destruct (rstrip s) as [|d r] eqn:Hr.
  - destruct (is_space c) eqn:Hc.
    + cbn [startswith].
      destruct (Ascii.eqb_spec a c) as [-> | _]; [by rewrite Hc in Ha | done].
    + cbn [startswith]. by rewrite <- IH.
  - cbn [startswith]. by rewrite <- IH.
Qed.

Lemma contains_rstrip_step (p s : string) (c : ascii) :
  contains p (rstrip (String c s))
  = startswith p (rstrip (String c s)) || contains p (rstrip s).
Proof.
  cbn [rstrip]. destruct (rstrip s) as [|d r] eqn:Hr.
  - destruct (is_space c); cbn [contains]; by destruct (startswith p _).
  - reflexivity.
Qed.

Lemma contains_rstrip (p s : string) :
  all_chars (λ c, negb (is_space c)) p = true →
  contains p (rstrip s) = contains p s.
Proof.
  intros Hp. induction s as [|c s IH]; [done |].
  rewrite contains_rstrip_step, IH, (startswith_rstrip _ _ Hp). reflexivity.
Qed.

Lemma contains_strip (p s : string) :
  all_chars (λ c, negb (is_space c)) p = true → p ≠ "" →
  contains p (strip s) = contains p s.
Proof.
  intros Hp Hne. unfold strip. rewrite (contains_rstrip _ _ Hp).
  apply contains_lstrip; [| done].
  destruct p as [|a p]; [done |]. cbn [all_chars] in Hp.
  apply andb_true_iff in Hp as [Ha _]. cbn. by destruct (is_space a).
Qed.





End more_text_facts.

(** ** The cleaning policies, again *)

Section policy_facts.

Lemma lower_strip_lower (s : string) :
  lower (strip (lower s)) = strip (lower s).
Proof. by rewrite <- strip_lower, lower_idemp. Qed.

Lemma clean_yesno_of_cleaned (t : string) :
  lower t = t → strip t = t → clean_yesno t = yesno_lambda t.
Proof. intros Hl Hs. unfold clean_yesno. by rewrite Hl, Hs. Qed.

Lemma clean_yesno_idemp (s : string) :
  clean_yesno (clean_yesno s) = clean_yesno s.
Proof.
  unfold clean_yesno at 2 3. unfold yesno_lambda.
  destruct (contains "yes" (strip (lower s))) eqn:Hy; [by vm_compute |].
  destruct (contains "no" (strip (lower s))) eqn:Hn; [by vm_compute |].
  rewrite clean_yesno_of_cleaned.
  - unfold yesno_lambda. by rewrite Hy, Hn.
  - apply lower_strip_lower.
  - apply strip_idemp.
Qed.

Lemma clean_yesno_upper (s : string) : clean_yesno (upper s) = clean_yesno s.
Proof. unfold clean_yesno. by rewrite lower_upper. Qed.

Lemma clean_yesno_lower (s : string) : clean_yesno (lower s) = clean_yesno s.
Proof. unfold clean_yesno. by rewrite lower_idemp. Qed.

Lemma clean_yesno_strip (s : string) : clean_yesno (strip s) = clean_yesno s.
Proof. unfold clean_yesno. by rewrite <- strip_lower, strip_idemp. Qed.

(** The chart's test on a cleaned text is the test on the sheet's text. *)
Lemma contains_yes_cleaned (s : string) :
  contains "yes" (lower (clean_yesno s)) = contains "yes" (lower s).
Proof.
  assert (contains "yes" (strip (lower s)) = contains "yes" (lower s)) as Hstrip.
  { by apply contains_strip. }
  unfold clean_yesno, yesno_lambda.
  destruct (contains "yes" (strip (lower s))) eqn:Hy.
  - by rewrite <- Hstrip.
  - rewrite <- Hstrip.
    destruct (contains "no" (strip (lower s))); [by vm_compute |].
    by rewrite lower_strip_lower.
Qed.

(** A cleaned text says yes to the chart exactly when it is ["yes"]. *)
Lemma contains_yes_cleaned_eq (s : string) :
  contains "yes" (lower (clean_yesno s)) = String.eqb (clean_yesno s) "yes".
Proof.
  unfold clean_yesno, yesno_lambda.
  destruct (contains "yes" (strip (lower s))) eqn:Hy; [by vm_compute |].
  destruct (contains "no" (strip (lower s))) eqn:Hn; [by vm_compute |].
  rewrite lower_strip_lower, Hy. symmetry. apply String.eqb_neq.
  intros Heq. rewrite Heq in Hy. by vm_compute in Hy.
Qed.



End policy_facts.

(** ** Reading numerals *)

Section numeral_facts.

















End numeral_facts.

(** X1.  Cleaning a Yes/No text twice gives what cleaning it once gives,
    and the result does not depend on the letter case of the text or on
    white space around it. *)
Theorem clean_yesno_idempotent (s : string) :
  clean_yesno (clean_yesno s) = clean_yesno s
  ∧ clean_yesno (upper s) = clean_yesno s
  ∧ clean_yesno (lower s) = clean_yesno s
  ∧ clean_yesno (strip s) = clean_yesno s.
Proof.
  split_and!; [apply clean_yesno_idemp | apply clean_yesno_upper
              | apply clean_yesno_lower | apply clean_yesno_strip].
Qed.



(** ** Every cell of the cleaned frame *)

Section cell_facts.
Implicit Types (r : gmap string cell) (k c : string).

Lemma clean_row_lookup r r' k :
  clean_row r = Some r' → k ∉ derived_cols → r' !! k = cleaned_cell r k.
Proof.
  intros (r3 & name & e & a1 & a2 & a3 & a4 & a5 & a6 & E & _ & _ & _ & _ & _
          & _ & _ & _ & ->)%clean_row_spec Hk.
  rewrite with_metrics_lookup_other by exact Hk.
  apply (cleaning_row_lookup _ _ k E).
Qed.

Lemma clean_row_derived r r' :
  clean_row r = Some r' →
  ∃ (name : string) (e : Z),
    r' !! "school_name" = Some (Str name)
    ∧ r' !! "enrolled_students" = Some (Int e)
    ∧ r' !! "Department" = Some (Str (get_department name))
    ∧ r' !! "enrolled_students_safe" = Some (replace_zero_nan (Int e)).
Proof.
  intros (r3 & name & e & a1 & a2 & a3 & a4 & a5 & a6 & E & Hn & He & _ & _ & _
          & _ & _ & _ & ->)%clean_row_spec.
  exists name, e. split_and!.
  - rewrite with_metrics_lookup_other; [done | by_computation].
  - rewrite with_metrics_lookup_other; [done | by_computation].
  - unfold with_metrics. rewrite !lookup_insert_ne by done. apply lookup_insert_eq.
  - unfold with_metrics. rewrite !lookup_insert_ne by done. apply lookup_insert_eq.
Qed.

Lemma cleaned_cell_other r k :
  k ∉ cleaned_cols → cleaned_cell r k = r !! k.
Proof.
  unfold cleaned_cols. rewrite not_elem_of_cons, not_elem_of_app.
  intros (Hn & Hy & Hnum). unfold cleaned_cell.
  rewrite (decide_False (P := k = _)) by exact Hn.
  rewrite (decide_False (P := k ∈ yes_no_cols)) by exact Hy.
  by rewrite (decide_False (P := k ∈ numeric_cols)) by exact Hnum.
Qed.

Lemma cleaned_cell_school_name r :
  cleaned_cell r "school_name"
  = text_map (λ s, Str (strip s)) (r !! "school_name").
Proof.
  unfold cleaned_cell.
  rewrite (decide_True (P := _ = _)) by reflexivity.
  rewrite (decide_False (P := _ ∈ yes_no_cols)) by apply not_yes_no_school_name.
  by rewrite (decide_False (P := _ ∈ numeric_cols)) by apply not_numeric_school_name.
Qed.

Lemma cleaned_cell_numeric r c :
  c ∈ numeric_cols →
  cleaned_cell r c
  = text_map (λ s, Int (numeric_policy s))
      (if decide (c ∈ yes_no_cols)
       then text_map (λ s, Str (clean_yesno s)) (r !! c) else r !! c).
Proof.
  intros Hc. unfold cleaned_cell.
  rewrite (decide_False (P := c = _)).
  - by rewrite (decide_True (P := c ∈ numeric_cols)) by exact Hc.
  - intros ->. by apply not_numeric_school_name.
Qed.

Lemma text_only_fields :
  Forall (λ c, c ≠ "school_name" ∧ c ∈ yes_no_cols ∧ (c ∉ numeric_cols)
               ∧ (c ∉ derived_cols))
         ["drinking_water"; "ro_plant"; "internet_facility"].
Proof. by_computation. Qed.

Lemma cleaned_cell_text r c :
  c ∈ ["drinking_water"; "ro_plant"; "internet_facility"] →
  cleaned_cell r c = text_map (λ s, Str (clean_yesno s)) (r !! c).
Proof.
  intros Hc.
  destruct (proj1 (Forall_forall _ _) text_only_fields c Hc) as (Hn & Hy & Hnum & _).
  unfold cleaned_cell.
  rewrite (decide_False (P := c = _)) by exact Hn.
  rewrite (decide_True (P := c ∈ yes_no_cols)) by exact Hy.
  by rewrite (decide_False (P := c ∈ numeric_cols)) by exact Hnum.
Qed.

Lemma school_name_not_derived : "school_name" ∉ derived_cols.
Proof. by_computation. Qed.

Lemma load_length sheet df :
  load_and_clean_data sheet = Some df → length df = length sheet.
Proof.
  intros H%load_rows%Forall2_length. unfold rename_columns in H.
  by rewrite length_fmap in H.
Qed.

End cell_facts.

(** X3.  The cleaning keeps the records one to one, in order, and leaves
    every column alone that it neither cleans nor derives: the serial
    number, the remarks and any column the survey does not know hold in the
    cleaned frame what the sheet holds. *)
Theorem other_columns_unchanged (sheet df : frame) :
  load_and_clean_data sheet = Some df →
  length df = length sheet
  ∧ Forall2 (λ r0 r' : row,
               ∀ k : string, k ∉ cleaned_cols → k ∉ derived_cols →
                             r' !! k = r0 !! k)
            (rename_columns sheet) df
  ∧ Forall (λ k, (k ∉ cleaned_cols) ∧ (k ∉ derived_cols)) ["sl_no"; "remarks"].
Proof.
  intros Hload. split_and!.
  - by apply load_length.
  - eapply Forall2_impl; [exact (load_rows _ _ Hload) |].
    intros r0 r' Hclean k Hk Hd.
    by rewrite (clean_row_lookup _ _ k Hclean Hd), cleaned_cell_other.
  - by_computation.
Qed.

Lemma other_columns_unchanged_witness :
  length (cleaned three_schools) = length three_schools
  ∧ Forall2 (λ r0 r' : row,
               ∀ k : string, k ∉ cleaned_cols → k ∉ derived_cols →
                             r' !! k = r0 !! k)
            (rename_columns three_schools) (cleaned three_schools)
  ∧ Forall (λ k, (k ∉ cleaned_cols) ∧ (k ∉ derived_cols)) ["sl_no"; "remarks"].
Proof.
  apply (other_columns_unchanged three_schools (cleaned three_schools)).
  apply cleaned_some. vm_compute. reflexivity.
Defined.

Lemma cleaned_cols_survey :
  Forall (λ c, c ∈ cleaned_cols ↔ (c ≠ "sl_no" ∧ c ≠ "remarks"))
         (COLUMN_MAPPING.*2).
Proof. by_computation. Qed.

Lemma cleaned_cols_in_survey : Forall (λ c, c ∈ COLUMN_MAPPING.*2) cleaned_cols.
Proof. by_computation. Qed.

(** X4.  A sheet in which some record lacks one of the columns the
    cleaning reads cannot be loaded: the function stops with the lookup
    error.  The columns it reads are the survey's columns other than the
    serial number and the remarks. *)
Theorem missing_column_stops_the_load :
  (∀ (sheet : frame) (r : row) (c : string),
     r ∈ rename_columns sheet → c ∈ cleaned_cols → r !! c = None →
     load_and_clean_data sheet = None)
  ∧ (∀ c : string,
       c ∈ cleaned_cols
       ↔ (c ∈ COLUMN_MAPPING.*2 ∧ c ≠ "sl_no" ∧ c ≠ "remarks")).
Proof.
  split.
  - intros sheet r c Hr Hc Hnone.
    destruct (load_and_clean_data sheet) as [df|] eqn:Hload; [| done].
    exfalso.
    assert (readable sheet = true) as Hread by (apply load_readable; by eexists).
    unfold readable in Hread. rewrite forallb_forall in Hread.
    apply list_elem_of_In, Hread in Hr. unfold readable_row in Hr.
    rewrite forallb_forall in Hr. apply list_elem_of_In, Hr in Hc.
    by rewrite Hnone in Hc.
  - intros c. split.
    + intros Hc.
      pose proof (proj1 (Forall_forall _ _) cleaned_cols_in_survey c Hc) as Hs.
      split; [exact Hs |].
      by apply (proj1 (Forall_forall _ _) cleaned_cols_survey c Hs).
    + intros [Hs Hne].
      by apply (proj1 (Forall_forall _ _) cleaned_cols_survey c Hs).
Qed.

Lemma missing_column_stops_the_load_witness :
  load_and_clean_data no_vacancy_sheet = None.
Proof.
  apply (proj1 missing_column_stops_the_load no_vacancy_sheet
           (nth_row 0 (rename_columns no_vacancy_sheet)) "vacancy_count").
  - apply nth_row_elem. vm_compute. reflexivity.
  - apply (bool_decide_unpack _). vm_compute. reflexivity.
  - vm_compute. reflexivity.
Defined.

(** X5.  A blank cell (a missing value of the sheet) goes through the
    cleaning as the text ["nan"]: a record without a name is kept under the
    name ["nan"] in the department Other, a blank Yes/No answer becomes
    ["nan"], and a blank count becomes 0. *)
Theorem blank_cells_after_cleaning (sheet df : frame) :
  load_and_clean_data sheet = Some df →
  Forall2 (λ r0 r' : row,
             (r0 !! "school_name" = Some (Flt NaN) →
              r' !! "school_name" = Some (Str "nan")
              ∧ r' !! "Department" = Some (Str "Other"))
             ∧ (∀ c : string,
                  c ∈ ["drinking_water"; "ro_plant"; "internet_facility"] →
                  r0 !! c = Some (Flt NaN) → r' !! c = Some (Str "nan"))
             ∧ (∀ c : string,
                  c ∈ numeric_cols → r0 !! c = Some (Flt NaN) →
                  r' !! c = Some (Int 0)))
          (rename_columns sheet) df.
Proof.
  intros Hload. eapply Forall2_impl; [exact (load_rows _ _ Hload) |].
  intros r0 r' Hclean. split_and!.
  - intros Hblank.
    destruct (clean_row_derived _ _ Hclean) as (name & e & Hn & _ & Hd & _).
    rewrite (clean_row_lookup _ _ _ Hclean school_name_not_derived) in Hn.
    rewrite cleaned_cell_school_name, Hblank in Hn.
    injection Hn as <-.
    rewrite (clean_row_lookup _ _ _ Hclean school_name_not_derived).
    rewrite cleaned_cell_school_name, Hblank. split; [reflexivity | exact Hd].
  - intros c Hc Hblank.
    destruct (proj1 (Forall_forall _ _) text_only_fields c Hc) as (_ & _ & _ & Hd).
    rewrite (clean_row_lookup _ _ _ Hclean Hd), (cleaned_cell_text _ _ Hc), Hblank.
    reflexivity.
  - intros c Hc Hblank.
    rewrite (clean_row_lookup _ _ c Hclean)
      by (by eapply (proj1 (Forall_forall _ _) numeric_not_derived)).
    rewrite (cleaned_cell_numeric _ _ Hc), Hblank.
    destruct (decide (c ∈ yes_no_cols)); reflexivity.
Qed.

Lemma blank_cells_after_cleaning_witness :
  Forall2 (λ r0 r' : row,
             (r0 !! "school_name" = Some (Flt NaN) →
              r' !! "school_name" = Some (Str "nan")
              ∧ r' !! "Department" = Some (Str "Other"))
             ∧ (∀ c : string,
                  c ∈ ["drinking_water"; "ro_plant"; "internet_facility"] →
                  r0 !! c = Some (Flt NaN) → r' !! c = Some (Str "nan"))
             ∧ (∀ c : string,
                  c ∈ numeric_cols → r0 !! c = Some (Flt NaN) →
                  r' !! c = Some (Int 0)))
          (rename_columns three_schools) (cleaned three_schools).
Proof.
  apply (blank_cells_after_cleaning three_schools (cleaned three_schools)).
  apply cleaned_some. vm_compute. reflexivity.
Defined.



Section department_facts.

Lemma to_upper_idemp (c : ascii) : to_upper (to_upper c) = to_upper c.
Proof. destruct c as [[] [] [] [] [] [] [] []]; by vm_compute. Qed.

Lemma upper_idemp (s : string) : upper (upper s) = upper s.
Proof. apply smap_smap, to_upper_idemp. Qed.

Lemma get_department_upper (s : string) : get_department (upper s) = get_department s.
Proof. unfold get_department. by rewrite upper_idemp. Qed.

Lemma get_department_lower (s : string) : get_department (lower s) = get_department s.
Proof. unfold get_department. by rewrite upper_lower. Qed.

Lemma get_department_space (c : ascii) (s : string) :
  is_space c = true → get_department (String c s) = "Other".
Proof.
  destruct c as [[] [] [] [] [] [] [] []]; intros H; try discriminate H;
    reflexivity.
Qed.

End department_facts.

(** X7.  In the cleaned frame the name of a record is the sheet's text
    without the white space around it, and the department is computed from
    that trimmed name: blanks typed before a name in the sheet do not
    change the tag, although [get_department] itself answers Other for
    every name that begins with a blank.  The tag does not depend on the
    letter case of the name. *)
Theorem department_of_trimmed_name :
  (∀ sheet df : frame,
     load_and_clean_data sheet = Some df →
     Forall2 (λ r0 r' : row,
                ∃ s : string,
                  text_at "school_name" r0 = Some s
                  ∧ r' !! "school_name" = Some (Str (strip s))
                  ∧ r' !! "Department" = Some (Str (get_department (strip s))))
             (rename_columns sheet) df)
  ∧ (∀ (c : ascii) (s : string),
       is_space c = true → get_department (String c s) = "Other")
  ∧ (∀ s : string,
       get_department (upper s) = get_department s
       ∧ get_department (lower s) = get_department s).
Proof.
  split_and!.
  - intros sheet df Hload.
    eapply Forall2_impl; [exact (load_rows _ _ Hload) |].
    intros r0 r' Hclean.
    destruct (clean_row_derived _ _ Hclean) as (name & e & Hn & _ & Hd & _).
    pose proof Hn as Hn'.
    rewrite (clean_row_lookup _ _ _ Hclean school_name_not_derived) in Hn'.
    rewrite cleaned_cell_school_name in Hn'.
    unfold text_map in Hn'. unfold text_at.
    destruct (r0 !! "school_name") as [v|]; [| done].
    cbn [mbind option_bind] in *.
    destruct (astype_str v) as [s|]; [| done].
    cbn [mbind option_bind] in Hn'. injection Hn' as <-.
    by exists s.
  - apply get_department_space.
  - intros s. split; [apply get_department_upper | apply get_department_lower].
Qed.

Lemma department_of_trimmed_name_witness :
  Forall2 (λ r0 r' : row,
             ∃ s : string,
               text_at "school_name" r0 = Some s
               ∧ r' !! "school_name" = Some (Str (strip s))
               ∧ r' !! "Department" = Some (Str (get_department (strip s))))
          (rename_columns counted_sheet) (cleaned counted_sheet).
Proof.
  apply (proj1 department_of_trimmed_name counted_sheet (cleaned counted_sheet)).
  apply cleaned_some. vm_compute. reflexivity.
Defined.

Section derived_facts.



Lemma Qdiv_nonneg (a e : Z) :
  0 ≤ a → 0 < e → (0 <= inject_Z a / inject_Z e)%Q.
Proof.
  intros Ha He. apply Qle_shift_div_l.
  - change 0%Q with (inject_Z 0). by rewrite <- Zlt_Qlt.
  - rewrite Qmult_0_l. change 0%Q with (inject_Z 0). by rewrite <- Zle_Qle.
Qed.


End derived_facts.





(** ** The department filter and its options *)

Section filter_facts.
Implicit Types (r : gmap string cell) (df dff : list (gmap string cell)) (t sel : string).

Lemma select_all (p : gmap string cell → option bool) df :
  Forall (λ r, p r = Some true) df → select p df = Some df.
Proof.
  induction 1 as [|r df Hr _ IH]; [done |].
  cbn [select]. rewrite Hr, IH. reflexivity.
Qed.

Lemma select_none (p : gmap string cell → option bool) df :
  Forall (λ r, p r = Some false) df → select p df = Some [].
Proof.
  induction 1 as [|r df Hr _ IH]; [done |].
  cbn [select]. rewrite Hr, IH. reflexivity.
Qed.

Lemma select_missing (p : gmap string cell → option bool) df r :
  r ∈ df → p r = None → select p df = None.
Proof.
  intros Hr Hp. induction df as [|r' df IH]; [by apply elem_of_nil in Hr |].
  cbn [select]. apply elem_of_cons in Hr as [<- | Hr].
  - by rewrite Hp.
  - rewrite (IH Hr). by destruct (p r').
Qed.

Lemma cell_is_eq sel (v : cell) : cell_is sel v = true ↔ v = Str sel.
Proof.
  destruct v as [s | z | x]; cbn [cell_is]; [| done..].
  rewrite String.eqb_eq. split; [by intros -> | by intros [= ->]].
Qed.

Lemma in_department_eq sel r :
  in_department sel r = true ↔ r !! "Department" = Some (Str sel).
Proof.
  unfold in_department. destruct (r !! "Department") as [v|]; [| done].
  rewrite cell_is_eq. split; [by intros -> | by intros [= ->]].
Qed.

Lemma not_all sel : sel ≠ "All" → negb (String.eqb sel "All") = true.
Proof. intros H. by rewrite (proj2 (String.eqb_neq sel "All") H). Qed.

Lemma df_filtered_department sel df dff :
  sel ≠ "All" → df_filtered sel df = Some dff →
  dff = filter (λ r, in_department sel r = true) df.
Proof.
  intros Hsel. unfold df_filtered. rewrite (not_all _ Hsel).
  intros [-> _]%select_spec. apply filter_ext_Forall, Forall_forall.
  intros r _. unfold in_department.
  destruct (r !! "Department") as [v|]; cbn [mbind option_bind]; [| done].
  split; [by intros [= ->] | by intros ->].
Qed.

Lemma df_filtered_again sel df dff :
  sel ≠ "All" → df_filtered sel df = Some dff → df_filtered sel dff = Some dff.
Proof.
  intros Hsel Hf. rewrite (df_filtered_department _ _ _ Hsel Hf).
  unfold df_filtered. rewrite (not_all _ Hsel).
  apply select_all, Forall_forall.
  intros r [Hr%in_department_eq _]%list_elem_of_filter.
  rewrite Hr. cbn [mbind option_bind]. f_equal. by apply cell_is_eq.
Qed.

Lemma df_filtered_other sel other df dff :
  sel ≠ "All" → other ≠ "All" → other ≠ sel →
  df_filtered sel df = Some dff → df_filtered other dff = Some [].
Proof.
  intros Hsel Hother Hne Hf. rewrite (df_filtered_department _ _ _ Hsel Hf).
  unfold df_filtered. rewrite (not_all _ Hother).
  apply select_none, Forall_forall.
  intros r [Hr%in_department_eq _]%list_elem_of_filter.
  rewrite Hr. cbn [mbind option_bind cell_is]. f_equal.
  by apply String.eqb_neq.
Qed.

End filter_facts.

(** X10.  The department filter returns the whole frame for ["All"] and,
    for any other text, exactly the records whose department is that text,
    in their order.  Filtering the result once more by the same text
    changes nothing, and by another text leaves no record.  For a text
    other than ["All"] the filter stops with the lookup error when a record
    has no department; for ["All"] the column is not read. *)
Theorem department_filter :
  (∀ df : frame, df_filtered "All" df = Some df)
  ∧ (∀ (sel : string) (df dff : frame),
       sel ≠ "All" → df_filtered sel df = Some dff →
       dff = filter (λ r, in_department sel r = true) df
       ∧ df_filtered sel dff = Some dff
       ∧ (∀ other : string,
            other ≠ "All" → other ≠ sel → df_filtered other dff = Some []))
  ∧ (∀ (sel : string) (df : frame) (r : row),
       sel ≠ "All" → r ∈ df → r !! "Department" = None →
       df_filtered sel df = None).
Proof.
  split_and!.
  - done.
  - intros sel df dff Hsel Hf. split_and!.
    + by apply df_filtered_department.
    + by eapply df_filtered_again.
    + intros other Ho Hne. exact (df_filtered_other sel other df dff Hsel Ho Hne Hf).
  - intros sel df r Hsel Hr Hnone. unfold df_filtered. rewrite (not_all _ Hsel).
    apply (select_missing _ _ r Hr). by rewrite Hnone.
Qed.

Lemma department_filter_witness :
  tgms_schools
  = filter (λ r, in_department "TGMS (Co-ed)" r = true) (cleaned six_schools)
  ∧ df_filtered "TGMS (Co-ed)" tgms_schools = Some tgms_schools
  ∧ (∀ other : string,
       other ≠ "All" → other ≠ "TGMS (Co-ed)" →
       df_filtered other tgms_schools = Some []).
Proof.
  apply (proj1 (proj2 department_filter) "TGMS (Co-ed)" (cleaned six_schools)).
  - done.
  - apply some_default, (bool_decide_unpack _). vm_compute. reflexivity.
Defined.

Section order_facts.
Implicit Types (l : list string) (x y : string).

Lemma leb_trans (s1 s2 s3 : string) :
  String.leb s1 s2 = true → String.leb s2 s3 = true → String.leb s1 s3 = true.
Proof.
  unfold String.leb. revert s2 s3.
  induction s1 as [|c1 s1 IH]; intros [|c2 s2] [|c3 s3];
    cbn [String.compare]; try done.
  unfold Ascii.compare.
  destruct (N.compare_spec (N_of_ascii c1) (N_of_ascii c2));
    destruct (N.compare_spec (N_of_ascii c2) (N_of_ascii c3));
    destruct (N.compare_spec (N_of_ascii c1) (N_of_ascii c3));
    try done; try lia.
  apply IH.
Qed.

Lemma insert_sorted_perm x l : insert_sorted x l ≡ₚ x :: l.
Proof.
  induction l as [|y l IH]; [done |]. cbn [insert_sorted].
  destruct (String.leb x y); [done |]. rewrite IH. apply Permutation_swap.
Qed.

Lemma sorted_perm l : sorted l ≡ₚ l.
Proof.
  induction l as [|x l IH]; [done |].
  cbn [sorted foldr]. fold (sorted l). by rewrite insert_sorted_perm, IH.
Qed.

Lemma insert_sorted_sorted x l :
  StronglySorted (λ a b, String.leb a b = true) l →
  StronglySorted (λ a b, String.leb a b = true) (insert_sorted x l).
Proof.
  induction 1 as [|y l Hs IH Hy]; [by repeat constructor |].
  cbn [insert_sorted]. destruct (String.leb x y) eqn:Hxy.
  - constructor; [by constructor |]. constructor; [done |].
    eapply Forall_impl; [exact Hy |]. intros z Hz. by eapply leb_trans.
  - constructor; [done |]. rewrite insert_sorted_perm. constructor; [| done].
    destruct (String.leb_total x y) as [H | H]; [congruence | done].
Qed.

Lemma sorted_sorted l : StronglySorted (λ a b, String.leb a b = true) (sorted l).
Proof.
  induction l as [|x l IH]; [constructor |]. by apply insert_sorted_sorted.
Qed.

Lemma elem_of_unique x l : x ∈ unique l ↔ x ∈ l.
Proof.
  induction l as [|y l IH]; [done |]. cbn [unique].
  rewrite !elem_of_cons, list_elem_of_filter, IH.
  destruct (decide (x = y)) as [-> | Hne]; [by split; left |].
  split; [by intros [? | [_ ?]]; [left | right] |].
  intros [? | ?]; [done | by right].
Qed.

Lemma NoDup_unique l : NoDup (unique l).
Proof.
  induction l as [|y l IH]; [constructor |]. cbn [unique]. constructor.
  - rewrite list_elem_of_filter. by intros [? _].
  - by apply NoDup_filter.
Qed.

Lemma StronglySorted_filter {A} (R : A → A → Prop) (P : A → Prop)
    `{∀ a, Decision (P a)} (k : list A) :
  StronglySorted R k → StronglySorted R (filter P k).
Proof.
  induction 1 as [|a k Hs IH Ha]; [constructor |].
  rewrite filter_cons. destruct (decide (P a)); [| done].
  constructor; [done |]. apply Forall_forall.
  intros b [_ Hb]%list_elem_of_filter. by apply (proj1 (Forall_forall _ _) Ha).
Qed.

(** Two lists in ascending order, without repetition and with the same
    members, are the same list. *)
Lemma ascending_unique (l1 l2 : list string) :
  StronglySorted (λ a b, String.leb a b = true) l1 →
  StronglySorted (λ a b, String.leb a b = true) l2 →
  NoDup l1 → NoDup l2 → (∀ x, x ∈ l1 ↔ x ∈ l2) → l1 = l2.
Proof.
  intros H1. revert l2. induction H1 as [|x l1 Hs1 IH Hx]; intros l2 H2 N1 N2 Hiff.
  - destruct l2 as [|y l2]; [done |].
    exfalso. apply (not_elem_of_nil y), Hiff. by left.
  - destruct H2 as [|y l2 Hs2 Hy].
    { exfalso. apply (not_elem_of_nil x), Hiff. by left. }
    apply NoDup_cons in N1 as [Nx N1]. apply NoDup_cons in N2 as [Ny N2].
    assert (x = y) as <-.
    { assert (x ∈ y :: l2) as [-> | Hx2]%elem_of_cons by (apply Hiff; by left);
        [done |].
      assert (y ∈ x :: l1) as [-> | Hy1]%elem_of_cons by (apply Hiff; by left);
        [done |].
      apply String.leb_antisym.
      - exact (proj1 (Forall_forall _ _) Hx y Hy1).
      - exact (proj1 (Forall_forall _ _) Hy x Hx2). }
    f_equal. apply IH; [done.. |]. intros z. split.
    + intros Hz. assert (z ∈ x :: l2) as [-> | ?]%elem_of_cons
        by (apply Hiff; by right); done.
    + intros Hz. assert (z ∈ x :: l1) as [-> | ?]%elem_of_cons
        by (apply Hiff; by right); done.
Qed.

Lemma tags_in_order_sorted :
  StronglySorted (λ a b, String.leb a b = true) tags_in_order.
Proof. unfold tags_in_order. repeat (constructor; [| by repeat constructor]). constructor. Qed.

Lemma NoDup_tags_in_order : NoDup tags_in_order.
Proof. by_computation. Qed.

(** The options [sorted] and [unique] make of tags: the tags that occur,
    once each, in the order of the four. *)
Lemma sorted_unique_tags l :
  Forall (λ t, t ∈ tags_in_order) l →
  sorted (unique l) = filter (λ t, t ∈ l) tags_in_order.
Proof.
  intros Hl. apply ascending_unique.
  - apply sorted_sorted.
  - apply StronglySorted_filter, tags_in_order_sorted.
  - rewrite sorted_perm. apply NoDup_unique.
  - apply NoDup_filter, NoDup_tags_in_order.
  - intros x. rewrite sorted_perm, elem_of_unique, list_elem_of_filter.
    split; [| by intros [? _]]. intros Hx. split; [done |].
    by apply (proj1 (Forall_forall _ _) Hl).
Qed.

End order_facts.

Section department_options_facts.
Implicit Types (r : gmap string cell) (df : list (gmap string cell)) (t : string).

Lemma get_department_tag (s : string) : get_department s ∈ tags_in_order.
Proof.
  unfold get_department, tags_in_order.
  repeat match goal with |- context [startswith ?p ?x] => destruct (startswith p x) end;
    set_solver.
Qed.

Lemma elem_of_department_tags t df :
  t ∈ department_tags df ↔ ∃ r, r ∈ df ∧ r !! "Department" = Some (Str t).
Proof.
  unfold department_tags. rewrite list_elem_of_omap. split.
  - intros (r & Hr & Ht). exists r. split; [done |].
    destruct (r !! "Department") as [[s | z | x]|]; cbn in Ht; try done.
    by injection Ht as ->.
  - intros (r & Hr & Ht). exists r. split; [done |]. by rewrite Ht.
Qed.

Lemma department_column df :
  Forall (λ r, ∃ t, r !! "Department" = Some (Str t)) df →
  column "Department" df ≫= mapM text_cell = Some (department_tags df).
Proof.
  unfold column, department_tags. induction 1 as [|r df [t Ht] _ IH]; [done |].
  cbn [mapM omap list_omap]. rewrite Ht. cbn [mbind option_bind text_cell].
  destruct (mapM (λ r0 : gmap string cell, r0 !! "Department") df) as [col|];
    cbn [mbind option_bind mret option_ret] in *; [| done].
  cbn [mapM text_cell]. cbn [mbind option_bind].
  destruct (mapM text_cell col) as [tags|]; cbn [mbind option_bind] in *; [| done].
  by injection IH as ->.
Qed.

Lemma cleaned_departments sheet df :
  load_and_clean_data sheet = Some df →
  Forall (λ r, ∃ t, r !! "Department" = Some (Str t) ∧ t ∈ tags_in_order) df.
Proof.
  intros Hload. apply Forall_forall. intros r Hr.
  destruct (cleaned_department _ _ _ Hload Hr) as (name & _ & Hd).
  exists (get_department name). split; [done | apply get_department_tag].
Qed.

End department_options_facts.

(** X11.  On a cleaned frame the options of the department filter are
    ["All"] followed by the tags that at least one record carries, each
    once, in the order KGBV (Girls), Other, PMSHRI (Co-ed), TGMS (Co-ed). *)
Theorem department_options_of_cleaned_frame (sheet df : frame) :
  load_and_clean_data sheet = Some df →
  department_options df
  = Some ("All" :: filter (λ t, t ∈ department_tags df) tags_in_order)
  ∧ (∀ t : string,
       t ∈ department_tags df
       ↔ ∃ r : row, r ∈ df ∧ r !! "Department" = Some (Str t)).
Proof.
  intros Hload. pose proof (cleaned_departments _ _ Hload) as Hall.
  split; [| intros t; apply elem_of_department_tags].
  unfold department_options.
  assert (column "Department" df ≫= mapM text_cell = Some (department_tags df))
    as Hcol.
  { apply department_column. eapply Forall_impl; [exact Hall |].
    intros r (t & Ht & _). by exists t. }
  destruct (column "Department" df) as [col|]; cbn [mbind option_bind] in *;
    [| done].
  rewrite Hcol. cbn [mbind option_bind]. do 2 f_equal.
  apply sorted_unique_tags, Forall_forall.
  intros t (r & Hr & Ht)%elem_of_department_tags.
  destruct (proj1 (Forall_forall _ _) Hall r Hr) as (t' & Ht' & Hin).
  rewrite Ht in Ht'. by injection Ht' as <-.
Qed.

Lemma department_options_of_cleaned_frame_witness :
  department_options (cleaned six_schools)
  = Some ("All" :: filter (λ t, t ∈ department_tags (cleaned six_schools))
                          tags_in_order)
  ∧ (∀ t : string,
       t ∈ department_tags (cleaned six_schools)
       ↔ ∃ r : row, r ∈ cleaned six_schools
                    ∧ r !! "Department" = Some (Str t)).
Proof.
  apply (department_options_of_cleaned_frame six_schools (cleaned six_schools)).
  apply cleaned_some. vm_compute. reflexivity.
Defined.

Section partition_facts.
Implicit Types (r : gmap string cell) (df dff : list (gmap string cell)) (t c : string).









End partition_facts.



(** ** Yes/No charts *)

Section yes_no_chart_facts.
Implicit Types (r : gmap string cell) (df dff : list (gmap string cell)) (col : string).

Lemma sum_bool_bounds (l : list bool) : 0 ≤ sum_bool l ≤ Z.of_nat (length l).
Proof.
  unfold sum_bool. induction l as [|b l IH]; cbn [foldr length]; [lia |].
  destruct b; lia.
Qed.

(** The flags the chart sums, record by record. *)
Lemma yes_flags col df flags :
  mapM (λ r, v ← r !! col; s ← astype_str v; Some (contains "yes" (lower s))) df
  = Some flags →
  sum_bool flags = count (says_yes col) df ∧ length flags = length df.
Proof.
  revert flags. induction df as [|r df IH]; intros flags.
  - by intros [= <-].
  - cbn [mapM].
    intros (b & Hb & (rest & Hrest & [= <-])%bind_Some)%bind_Some.
    destruct (IH rest Hrest) as [Hsum Hlen]. split; [| cbn; by rewrite Hlen].
    unfold count. rewrite filter_cons.
    assert (says_yes col r = b) as Hsays.
    { unfold says_yes, text_at. destruct (r !! col) as [v|]; [| done].
      cbn [mbind option_bind] in *. destruct (astype_str v) as [s|]; [| done].
      cbn [mbind option_bind] in Hb. by injection Hb. }
    rewrite Hsays. unfold sum_bool in *. cbn [foldr]. rewrite Hsum. unfold count.
    destruct b.
    + rewrite decide_True by done. cbn [length]. lia.
    + rewrite decide_False by done. lia.
Qed.

Lemma Qdiv_unit (a b : Z) :
  0 ≤ a ≤ b → 0 < b →
  (0 <= inject_Z a / inject_Z b)%Q ∧ (inject_Z a / inject_Z b <= 1)%Q.
Proof.
  intros [Ha Hab] Hb. split; [by apply Qdiv_nonneg |].
  apply Qle_shift_div_r.
  - change 0%Q with (inject_Z 0). by rewrite <- Zlt_Qlt.
  - rewrite Qmult_1_l. by rewrite <- Zle_Qle.
Qed.

Lemma count_bounds (p : gmap string cell → bool) df :
  0 ≤ count p df ≤ Z.of_nat (length df).
Proof.
  unfold count. split; [lia |]. apply inj_le, length_filter.
Qed.

Lemma count_Forall2 (p q : gmap string cell → bool) df1 df2 :
  Forall2 (λ r1 r2, p r1 = q r2) df1 df2 → count p df1 = count q df2.
Proof.
  unfold count. induction 1 as [|r1 r2 df1 df2 Hr _ IH]; [done |].
  rewrite !filter_cons, Hr. destruct (q r2).
  - rewrite !decide_True by done. cbn [length]. lia.
  - by rewrite !decide_False by done.
Qed.

Lemma count_ext (p q : gmap string cell → bool) df :
  Forall (λ r, p r = q r) df → count p df = count q df.
Proof.
  unfold count. induction 1 as [|r df Hr _ IH]; [done |].
  rewrite !filter_cons, Hr. destruct (q r).
  - rewrite !decide_True by done. cbn [length]. lia.
  - by rewrite !decide_False by done.
Qed.

Lemma count_negb (p : gmap string cell → bool) df :
  count (λ r, negb (p r)) df = Z.of_nat (length df) - count p df.
Proof.
  unfold count. induction df as [|r df IH]; [done |].
  rewrite !filter_cons. destruct (p r); cbn [negb].
  - rewrite decide_False, decide_True by done. cbn [length]. lia.
  - rewrite decide_True, decide_False by done. cbn [length]. lia.
Qed.

Lemma create_yes_no_chart_some col df :
  Forall (λ r, is_Some (text_at col r)) df →
  ∃ ch, create_yes_no_chart df col = Some ch.
Proof.
  intros Hall. unfold create_yes_no_chart.
  destruct (mapM_is_Some_2
              (λ r : gmap string cell,
                 v ← r !! col; s ← astype_str v; Some (contains "yes" (lower s)))
              df) as [flags ->].
  - eapply Forall_impl; [exact Hall |]. intros r [s Hs]. unfold text_at in Hs.
    unfold compose. cbn beta.
    destruct (r !! col) as [v|]; [| done]. cbn [mbind option_bind] in *.
    rewrite Hs. by eexists.
  - by eexists.
Qed.

Lemma yes_no_chart_counts_core df col ch :
  create_yes_no_chart df col = Some ch →
  yes_count ch = count (says_yes col) df
  ∧ no_count ch = count (λ r, negb (says_yes col r)) df.
Proof.
  unfold create_yes_no_chart. intros (flags & Hflags & [= <-])%bind_Some.
  destruct (yes_flags _ _ _ Hflags) as [Hsum Hlen]. cbn [yes_count no_count].
  split; [done |]. by rewrite count_negb, Hsum.
Qed.

(** A Yes/No answer of the cleaned frame says yes to the chart exactly
    when it is ["yes"], and exactly when the sheet's text contains it. *)
Lemma clean_row_says_yes col r0 r' :
  clean_row r0 = Some r' →
  col ∈ ["drinking_water"; "ro_plant"; "internet_facility"] →
  is_Some (text_at col r')
  ∧ says_yes col r' = is_yes col r'
  ∧ says_yes col r' = says_yes col r0.
Proof.
  intros Hclean Hc.
  destruct (proj1 (Forall_forall _ _) text_only_fields col Hc) as (_ & _ & _ & Hd).
  pose proof (clean_row_lookup _ _ col Hclean Hd) as Hcell.
  rewrite (cleaned_cell_text _ _ Hc) in Hcell.
  assert (printable (r0 !! col) = true) as Hp.
  { pose proof (clean_row_readable _ _ Hclean) as Hr.
    unfold readable_row in Hr. rewrite forallb_forall in Hr. apply Hr.
    apply list_elem_of_In. unfold cleaned_cols. right. apply elem_of_app. left.
    by apply (proj1 (Forall_forall _ _) text_only_fields col Hc). }
  destruct (r0 !! col) as [v|] eqn:Hv; [| done].
  apply bool_decide_eq_true in Hp as [s Hs].
  unfold text_map in Hcell. cbn [mbind option_bind] in Hcell.
  rewrite Hs in Hcell. cbn [mbind option_bind] in Hcell.
  unfold says_yes, is_yes, text_at. rewrite Hcell, Hv.
  cbn [mbind option_bind astype_str cell_is]. rewrite Hs.
  split_and!; [done | apply contains_yes_cleaned_eq | apply contains_yes_cleaned].
Qed.

End yes_no_chart_facts.

(** X13.  Whenever the Yes/No chart can be computed, its total is the
    number of records, the Yes count is the number of records whose text
    contains ["yes"] in any letter case, and the No count is all the
    others: the two counts are not negative and add up to the total.  The
    Yes share is the Yes count over the total, between 0 and 1, and is 0
    for a frame without records: the division is guarded.  A record that
    lacks the column stops the chart with the lookup error. *)
Theorem yes_no_chart_counts :
  (∀ (df : frame) (col : string) (ch : yes_no),
     create_yes_no_chart df col = Some ch →
     total ch = Z.of_nat (length df)
     ∧ yes_count ch = count (says_yes col) df
     ∧ no_count ch = count (λ r, negb (says_yes col r)) df
     ∧ 0 ≤ yes_count ch ∧ 0 ≤ no_count ch
     ∧ yes_count ch + no_count ch = total ch
     ∧ pie_data ch = [("Yes", yes_count ch); ("No", no_count ch)]
     ∧ (df = [] → yes_percent ch = Fin 0)
     ∧ (df ≠ [] →
        yes_percent ch = Fin (inject_Z (yes_count ch) / inject_Z (total ch))
        ∧ within 0 1 (yes_percent ch)))
  ∧ (∀ (df : frame) (col : string) (r : row),
       r ∈ df → r !! col = None → create_yes_no_chart df col = None).
Proof.
  split.
  - intros df col ch. unfold create_yes_no_chart.
    intros (flags & Hflags & [= <-])%bind_Some.
    destruct (yes_flags _ _ _ Hflags) as [Hsum Hlen].
    cbn [total yes_count no_count pie_data yes_percent].
    pose proof (count_bounds (says_yes col) df) as Hb. rewrite <- Hsum in Hb.
    split_and!; [done | done | | lia | lia | lia | done | |].
    + rewrite count_negb, Hsum. reflexivity.
    + by intros ->.
    + intros Hne.
      assert (0 < Z.of_nat (length df)) as Hpos by (destruct df; [done | cbn; lia]).
      rewrite (proj2 (Z.ltb_lt _ _) Hpos), is_zero_of_int.
      rewrite (proj2 (Z.eqb_neq _ 0)) by lia.
      split; [done |]. cbn [within]. by apply Qdiv_unit.
  - intros df col r Hr Hnone. unfold create_yes_no_chart.
    destruct (mapM _ df) as [flags|] eqn:Hflags; [| done]. exfalso.
    apply mapM_Some in Hflags. apply list_elem_of_lookup in Hr as [i Hi].
    destruct (Forall2_lookup_l _ _ _ _ _ Hflags Hi) as (b & _ & Hb).
    by rewrite Hnone in Hb.
Qed.

Lemma yes_no_chart_counts_witness :
  ∃ ch : yes_no,
    create_yes_no_chart (cleaned solar_sheet) "drinking_water" = Some ch
    ∧ total ch = Z.of_nat (length (cleaned solar_sheet))
    ∧ yes_count ch = count (says_yes "drinking_water") (cleaned solar_sheet)
    ∧ no_count ch
      = count (λ r, negb (says_yes "drinking_water" r)) (cleaned solar_sheet)
    ∧ 0 ≤ yes_count ch ∧ 0 ≤ no_count ch
    ∧ yes_count ch + no_count ch = total ch
    ∧ pie_data ch = [("Yes", yes_count ch); ("No", no_count ch)]
    ∧ (cleaned solar_sheet = [] → yes_percent ch = Fin 0)
    ∧ (cleaned solar_sheet ≠ [] →
       yes_percent ch = Fin (inject_Z (yes_count ch) / inject_Z (total ch))
       ∧ within 0 1 (yes_percent ch)).
Proof.
  exists (default {| yes_count := 0; total := 0; no_count := 0;
                     yes_percent := NaN; pie_data := [] |}
            (create_yes_no_chart (cleaned solar_sheet) "drinking_water")).
  assert (create_yes_no_chart (cleaned solar_sheet) "drinking_water"
          = Some (default {| yes_count := 0; total := 0; no_count := 0;
                             yes_percent := NaN; pie_data := [] |}
                    (create_yes_no_chart (cleaned solar_sheet) "drinking_water")))
    as Hch.
  { apply some_default, (bool_decide_unpack _). vm_compute. reflexivity. }
  split; [exact Hch |].
  exact (proj1 yes_no_chart_counts _ _ _ Hch).
Defined.

(** X14.  On a cleaned frame, filtered by department or not, the charts of
    drinking water, RO plant and internet are always computed; their Yes
    count is the number of records whose cleaned answer is ["yes"], and
    every other answer, ["no"] or a text that was passed through, is
    counted as No.  Over the whole frame that Yes count is the number of
    records of the sheet whose answer contains ["yes"] in any letter
    case. *)
Theorem yes_no_chart_of_cleaned_frame (sheet df : frame) (col : string) :
  load_and_clean_data sheet = Some df →
  col ∈ ["drinking_water"; "ro_plant"; "internet_facility"] →
  (∀ (selected : string) (dff : frame),
     df_filtered selected df = Some dff →
     ∃ ch : yes_no,
       create_yes_no_chart dff col = Some ch
       ∧ yes_count ch = count (is_yes col) dff
       ∧ no_count ch = count (λ r, negb (is_yes col r)) dff)
  ∧ (∃ ch : yes_no,
       create_yes_no_chart df col = Some ch
       ∧ yes_count ch = count (says_yes col) (rename_columns sheet)).
Proof.
  intros Hload Hc.
  assert (Forall (λ r', is_Some (text_at col r')
                        ∧ says_yes col r' = is_yes col r') df) as Hall.
  { apply Forall_forall. intros r' Hr'.
    destruct (load_row _ _ _ Hload Hr') as (r0 & _ & Hclean).
    destruct (clean_row_says_yes col r0 r' Hclean Hc) as (? & ? & _). by split. }
  split.
  - intros selected dff Hf.
    assert (Forall (λ r', is_Some (text_at col r')
                          ∧ says_yes col r' = is_yes col r') dff) as Hdff.
    { apply Forall_forall. intros r' Hr'.
      apply (proj1 (Forall_forall _ _) Hall). by eapply df_filtered_sub. }
    destruct (create_yes_no_chart_some col dff) as [ch Hch].
    { eapply Forall_impl; [exact Hdff |]. by intros r' [? _]. }
    exists ch. split; [exact Hch |].
    destruct (yes_no_chart_counts_core dff col ch Hch) as (Hy & Hn).
    rewrite Hy, Hn. split.
    + apply count_ext. eapply Forall_impl; [exact Hdff |]. by intros r' [_ ?].
    + apply count_ext. eapply Forall_impl; [exact Hdff |].
      intros r' [_ Hr']. by rewrite Hr'.
  - destruct (create_yes_no_chart_some col df) as [ch Hch].
    { eapply Forall_impl; [exact Hall |]. by intros r' [? _]. }
    exists ch. split; [exact Hch |].
    destruct (yes_no_chart_counts_core df col ch Hch) as (Hy & _).
    rewrite Hy. symmetry. apply count_Forall2.
    eapply Forall2_impl; [exact (load_rows _ _ Hload) |].
    intros r0 r' Hclean.
    by destruct (clean_row_says_yes col r0 r' Hclean Hc) as (_ & _ & ->).
Qed.

Lemma yes_no_chart_of_cleaned_frame_witness :
  (∀ (selected : string) (dff : frame),
     df_filtered selected (cleaned solar_sheet) = Some dff →
     ∃ ch : yes_no,
       create_yes_no_chart dff "internet_facility" = Some ch
       ∧ yes_count ch = count (is_yes "internet_facility") dff
       ∧ no_count ch = count (λ r, negb (is_yes "internet_facility" r)) dff)
  ∧ (∃ ch : yes_no,
       create_yes_no_chart (cleaned solar_sheet) "internet_facility" = Some ch
       ∧ yes_count ch
         = count (says_yes "internet_facility") (rename_columns solar_sheet)).
Proof.
  apply (yes_no_chart_of_cleaned_frame solar_sheet (cleaned solar_sheet)).
  - apply cleaned_some. vm_compute. reflexivity.
  - apply (bool_decide_unpack _). vm_compute. reflexivity.
Defined.

(** ** Bounds of the rates *)

Section bound_facts.
Implicit Types (df dff : list (gmap string cell)).


End bound_facts.



(** ** The shape of the ranking tables *)

Section tables_shape_facts.
Implicit Types (r q : gmap string cell) (df dff rdf : list (gmap string cell)) (c : string).

Lemma count_has_students dff :
  count has_students dff
  = Z.of_nat (length (filter (λ r, has_students r = true) dff)).
Proof. reflexivity. Qed.

Lemma df_table_length c rdf :
  Forall (table_row c) rdf →
  ∃ t, df_table c rdf = Some t ∧ length t = Nat.min 5 (length rdf).
Proof.
  intros Htab.
  destruct (df_table_spec c rdf Htab) as (sorted & _ & Hperm & _ & Ht).
  eexists. split; [exact Ht |].
  by rewrite length_take, length_fmap, (Permutation_length Hperm).
Qed.

End tables_shape_facts.

(** X16.  On the records of a cleaned sheet that brings no ratio column of
    its own, filtered by department or not: when no school of the
    selection has students the second tab shows the warning and no table;
    otherwise it shows the six tables, in the order and under the display
    names of [ratio_mapping], each with as many lines as there are schools
    with students, but no more than 5. *)
Theorem ranking_tables_shape (sheet df dff : frame) (selected : string) :
  load_and_clean_data sheet = Some df → own_ratio_columns sheet = true →
  df_filtered selected df = Some dff →
  (count has_students dff = 0 → ranking_tables dff = Some None)
  ∧ (0 < count has_students dff →
     ∃ tables : list (string * list (cell * cell)),
       ranking_tables dff = Some (Some tables)
       ∧ tables.*1 = ratio_mapping.*2
       ∧ Forall (λ t : string * list (cell * cell),
                   length t.2
                   = Nat.min 5 (length (filter (λ r, has_students r = true) dff)))
                tables).
Proof.
  intros Hload Hown Hf.
  pose proof (filtered_ratio_records _ _ _ _ Hload Hown Hf) as Hall.
  destruct (ranking_core dff "ratio_classrooms" Hall classrooms_label)
    as (rdf & _ & Hrdf & HF2 & _).
  assert (∀ c, c ∈ ratio_labels → Forall (table_row c) rdf) as Htab.
  { intros c Hc.
    destruct (ranking_core dff c Hall Hc) as (rdf' & ? & Hrdf' & _ & Ht & _).
    rewrite Hrdf in Hrdf'. by injection Hrdf' as <-. }
  pose proof (ranking_tables_spec dff rdf Hrdf Htab) as Hspec.
  pose proof (Forall2_length _ _ _ HF2) as Hlen.
  rewrite count_has_students. split.
  - intros Hzero. rewrite Hspec. destruct rdf; [done |]. cbn [length] in Hlen. lia.
  - intros Hpos. rewrite Hspec.
    destruct rdf as [|q rdf'] eqn:Erdf; [cbn [length] in Hlen; lia |].
    rewrite <- Erdf in *. eexists. split; [reflexivity |]. split.
    + rewrite <- list_fmap_compose. reflexivity.
    + apply Forall_fmap, Forall_forall. intros m Hm%mapping_label.
      unfold compose. cbn [snd].
      destruct (df_table_length m.1 rdf (Htab _ Hm)) as (t & -> & Ht).
      change (default [] (Some t)) with t. by rewrite Ht, Hlen.
Qed.

Lemma ranking_tables_shape_witness :
  (count has_students (cleaned six_schools) = 0 →
   ranking_tables (cleaned six_schools) = Some None)
  ∧ (0 < count has_students (cleaned six_schools) →
     ∃ tables : list (string * list (cell * cell)),
       ranking_tables (cleaned six_schools) = Some (Some tables)
       ∧ tables.*1 = ratio_mapping.*2
       ∧ Forall (λ t : string * list (cell * cell),
                   length t.2
                   = Nat.min 5 (length (filter (λ r, has_students r = true)
                                               (cleaned six_schools))))
                tables).
Proof.
  apply (ranking_tables_shape six_schools (cleaned six_schools)
           (cleaned six_schools) "All").
  - apply cleaned_some. vm_compute. reflexivity.
  - vm_compute. reflexivity.
  - reflexivity.
Defined.

(** ** The rows of the ratio display, whatever the sheet brings *)

Section display_rows_facts.
Implicit Types (r q : gmap string cell) (df dff rdf sub : list (gmap string cell)) (c k : string).

Lemma cleaned_metric_record sheet df r :
  load_and_clean_data sheet = Some df → r ∈ df → metric_record r.
Proof.
  intros Hload Hr.
  destruct (load_row _ _ _ Hload Hr) as (r0 & Hr0 & Hclean). split.
  - destruct (cleaned_department _ _ _ Hload Hr) as (name & Hn & _). by exists name.
  - destruct (clean_row_ratios _ _ Hclean) as (e & He & Hratios).
    exists e. split; [exact He |]. intros c Hc.
    destruct (ratio_sources_labels c Hc) as (src & scaled & Hin).
    destruct (Hratios _ _ _ Hin) as (a & x & _ & Hx & H0 & Hne & _).
    exists x. split_and!; [done | done |]. intros He0. eexists. by apply Hne.
Qed.

Lemma students_of_notnull r c :
  metric_record r → c ∈ ratio_labels → notnull c r = true → has_students r = true.
Proof.
  intros (_ & e & He & Hlab) Hc. destruct (Hlab c Hc) as (x & Hx & H0 & _).
  unfold notnull, has_students. rewrite Hx, He.
  destruct (decide (e = 0)) as [-> | Hnz]; [by rewrite H0 | by destruct e].
Qed.

Lemma project_inv (l : list string) df sub :
  project l df = Some sub → Forall2 (restricted l) df sub.
Proof.
  unfold project. intros H%mapM_Some. eapply Forall2_impl; [exact H |].
  intros r q (kvs & Hk & [= <-])%bind_Some.
  destruct (project_row l r) as (kvs' & Hk' & Hres).
  - intros c Hc. apply mapM_Some in Hk.
    apply list_elem_of_lookup in Hc as [i Hi].
    destruct (Forall2_lookup_l _ _ _ _ _ Hk Hi) as (kv & _ & Hkv).
    destruct (r !! c); [done | discriminate].
  - rewrite Hk in Hk'. by injection Hk' as <-.
Qed.

Lemma dropna_true (l : list string) q :
  (vs ← mapM (λ c, q !! c) l; Some (forallb (λ v, negb (isna v)) vs)) = Some true →
  ∀ c, c ∈ l → notnull c q = true.
Proof.
  induction l as [|c l IH]; intros H c' Hc'; [by apply elem_of_nil in Hc' |].
  apply bind_Some in H as (vs & Hvs & [= Hall]). cbn [mapM] in Hvs.
  apply bind_Some in Hvs as (v & Hv & (vs' & Hvs' & [= <-])%bind_Some).
  cbn [forallb] in Hall. apply andb_true_iff in Hall as [Hc Hrest].
  apply elem_of_cons in Hc' as [-> | Hc'].
  - unfold notnull. by rewrite Hv.
  - apply IH; [| done]. by rewrite Hvs'; cbn [mbind option_bind]; rewrite Hrest.
Qed.

Lemma ratio_cols_has_labels r dff c :
  metric_record r → c ∈ ratio_labels → c ∈ ratio_cols (r :: dff).
Proof.
  intros (_ & e & _ & Hlab) Hc. unfold ratio_cols, columns.
  apply list_elem_of_filter.
  split; [by apply (proj1 (Forall_forall _ _) ratio_labels_prefixed) |].
  destruct (Hlab c Hc) as (x & Hx & _). apply list_elem_of_fmap.
  exists (c, Flt x). split; [done |]. by apply elem_of_map_to_list.
Qed.

(** Whatever [ratios_df] returns for records of a cleaned frame is made of
    records of schools with students, restricted to the displayed columns,
    and without a null in any ratio column. *)
Lemma ratios_df_inv dff rdf q :
  Forall metric_record dff → ratios_df dff = Some rdf → q ∈ rdf →
  (∃ r, r ∈ dff ∧ has_students r = true
        ∧ restricted (kept_cols (ratio_cols dff)) r q)
  ∧ (∀ k, k ∈ ratio_cols dff → notnull k q = true)
  ∧ (∀ c, c ∈ ratio_labels → c ∈ ratio_cols dff).
Proof.
  intros Hall. unfold ratios_df. fold (kept_cols (ratio_cols dff)).
  intros (sub & Hsub%project_inv & [-> _]%select_spec)%bind_Some.
  intros [Hdrop Hq]%list_elem_of_filter.
  apply list_elem_of_lookup in Hq as [i Hi].
  destruct (Forall2_lookup_r _ _ _ _ _ Hsub Hi) as (r & Hr & Hres).
  apply list_elem_of_lookup_2 in Hr as Hin.
  pose proof (proj1 (Forall_forall _ _) Hall r Hin) as Hrec.
  assert (∀ c, c ∈ ratio_labels → c ∈ ratio_cols dff) as Hlabels.
  { intros c Hc. destruct dff as [|r0 dff0]; [by apply elem_of_nil in Hin |].
    apply ratio_cols_has_labels; [| done]. by apply Forall_cons in Hall as [? _]. }
  assert (∀ k, k ∈ ratio_cols dff → notnull k q = true) as Hnn.
  { intros k Hk. apply (dropna_true _ _ Hdrop). by right. }
  split_and!; [| exact Hnn | exact Hlabels].
  exists r. split_and!; [done | | done].
  apply (students_of_notnull r "ratio_classrooms" Hrec classrooms_label).
  rewrite <- (restricted_notnull _ _ _ _ Hres).
  - apply Hnn, Hlabels, classrooms_label.
  - do 2 right. apply Hlabels, classrooms_label.
Qed.

End display_rows_facts.

(** X17.  Whatever columns the sheet brings, a row of the ratio display
    comes from a record of the selection whose school has students, and it
    has a value that is not null in every column whose label begins with
    ["ratio_"]: the six ratios, and any such column of the sheet itself.  A
    record with a blank in a column of that kind is left out of the display
    and of the rankings, like a school without students. *)
Theorem ratio_display_rows (sheet df dff rdf : frame) (selected : string)
    (q : row) :
  load_and_clean_data sheet = Some df → df_filtered selected df = Some dff →
  ratios_df dff = Some rdf → q ∈ rdf →
  (∃ r : row, r ∈ dff ∧ has_students r = true
              ∧ (∀ k : string, k ∈ ratio_cols dff → notnull k r = true)
              ∧ q !! "school_name" = r !! "school_name"
              ∧ q !! "enrolled_students" = r !! "enrolled_students")
  ∧ (∀ k : string, k ∈ ratio_cols dff → notnull k q = true)
  ∧ (∀ c : string, c ∈ ratio_labels → c ∈ ratio_cols dff).
Proof.
  intros Hload Hf Hrdf Hq.
  assert (Forall metric_record dff) as Hrec.
  { apply Forall_forall. intros r Hr.
    apply (cleaned_metric_record sheet df r Hload). by eapply df_filtered_sub. }
  destruct (ratios_df_inv dff rdf q Hrec Hrdf Hq)
    as ((r & Hr & Hs & Hres) & Hnn & Hlab).
  split_and!; [| exact Hnn | exact Hlab].
  exists r. split_and!; [done | done | | |].
  - intros k Hk. rewrite <- (restricted_notnull _ _ _ _ Hres); [by apply Hnn |].
    by do 2 right.
  - exact (restricted_lookup _ _ _ _ Hres (school_name_kept _)).
  - exact (restricted_lookup _ _ _ _ Hres (enrolled_kept _)).
Qed.

Lemma ratio_display_rows_witness :
  (∃ r : row, r ∈ cleaned stray_sheet ∧ has_students r = true
              ∧ (∀ k : string, k ∈ ratio_cols (cleaned stray_sheet) →
                               notnull k r = true)
              ∧ nth_row 0 (ratios_of stray_sheet) !! "school_name"
                = r !! "school_name"
              ∧ nth_row 0 (ratios_of stray_sheet) !! "enrolled_students"
                = r !! "enrolled_students")
  ∧ (∀ k : string, k ∈ ratio_cols (cleaned stray_sheet) →
                   notnull k (nth_row 0 (ratios_of stray_sheet)) = true)
  ∧ (∀ c : string, c ∈ ratio_labels → c ∈ ratio_cols (cleaned stray_sheet)).
Proof.
  apply (ratio_display_rows stray_sheet (cleaned stray_sheet)
           (cleaned stray_sheet) (ratios_of stray_sheet) "All").
  - apply cleaned_some. vm_compute. reflexivity.
  - reflexivity.
  - apply some_default, (bool_decide_unpack _). vm_compute. reflexivity.
  - apply nth_row_elem. vm_compute. reflexivity.
Defined.

(** ** Renaming columns *)

Section rename_facts.
Implicit Types (r q : gmap string cell) (k : string) (keys : list string).

Lemma inj_on_NoDup {A B} (f : A → B) (l : list A) (x y : A) :
  NoDup (f <$> l) → x ∈ l → y ∈ l → f x = f y → x = y.
Proof.
  induction l as [|a l IH]; [by intros _ ?%elem_of_nil |].
  rewrite fmap_cons, NoDup_cons.
  intros [Ha Hl] [-> | Hx]%elem_of_cons [-> | Hy]%elem_of_cons Hxy.
  - done.
  - exfalso. apply Ha. rewrite Hxy. by apply list_elem_of_fmap_2.
  - exfalso. apply Ha. rewrite <- Hxy. by apply list_elem_of_fmap_2.
  - by apply IH.
Qed.

(** A cell is found under its new label when the labels of the record stay
    distinct. *)
Lemma kmap_lookup_on (f : string → string) r keys k :
  (∀ k', is_Some (r !! k') → k' ∈ keys) → NoDup (f <$> keys) → k ∈ keys →
  (kmap f r : gmap string cell) !! f k = r !! k.
Proof.
  intros Hkeys Hnd Hk. unfold kmap.
  set (L := prod_map f id <$> map_to_list r).
  assert (∀ k' v, (k', v) ∈ map_to_list r → k' ∈ keys) as Hin.
  { intros k' v Hkv%elem_of_map_to_list. apply Hkeys. by exists v. }
  assert (NoDup L.*1) as HL.
  { unfold L. rewrite <- list_fmap_compose.
    assert ((fst ∘ prod_map f id <$> map_to_list r) = f <$> (map_to_list r).*1)
      as -> by (by rewrite <- list_fmap_compose).
    apply NoDup_fmap_2_strong; [| apply NoDup_fst_map_to_list].
    intros x y [[x' vx] [-> Hx]]%list_elem_of_fmap [[y' vy] [-> Hy]]%list_elem_of_fmap.
    apply (inj_on_NoDup f keys); [done | by eapply Hin | by eapply Hin]. }
  destruct (r !! k) as [v|] eqn:Hv.
  - apply elem_of_list_to_map_1; [exact HL |]. unfold L.
    apply list_elem_of_fmap. exists (k, v). split; [done |].
    by apply elem_of_map_to_list.
  - apply not_elem_of_list_to_map_1. unfold L. rewrite <- list_fmap_compose.
    intros [[k' v'] [Hfk Hkv]]%list_elem_of_fmap. cbn in Hfk.
    assert (k = k') as <-.
    { apply (inj_on_NoDup f keys); [done | done | by eapply Hin | done]. }
    apply elem_of_map_to_list in Hkv. congruence.
Qed.

Lemma kmap_lookup_is_Some (f : string → string) r k' :
  is_Some ((kmap f r : gmap string cell) !! k') →
  ∃ k, k' = f k ∧ is_Some (r !! k).
Proof.
  unfold kmap. intros [v Hv].
  apply elem_of_list_to_map_2 in Hv.
  apply list_elem_of_fmap in Hv as [[k v'] [[= -> ->] Hkv]].
  exists k. split; [done |]. apply elem_of_map_to_list in Hkv. by eexists.
Qed.

Lemma mapping_keys_distinct : NoDup (COLUMN_MAPPING.*1).
Proof. by_computation. Qed.

Lemma mapping_values_distinct : NoDup (COLUMN_MAPPING.*2).
Proof. by_computation. Qed.

Lemma rename_label_entry :
  Forall (λ kv : string * string, rename_label kv.1 = kv.2
                                  ∧ rename_label kv.2 = kv.2) COLUMN_MAPPING.
Proof. by_computation. Qed.

Lemma rename_label_other k : k ∉ COLUMN_MAPPING.*1 → rename_label k = k.
Proof.
  intros Hk. unfold rename_label.
  by rewrite (not_elem_of_list_to_map_1 _ _ Hk).
Qed.

Lemma rename_label_idemp k : rename_label (rename_label k) = rename_label k.
Proof.
  destruct (decide (k ∈ COLUMN_MAPPING.*1)) as [Hk | Hk].
  - apply list_elem_of_fmap in Hk as ([k' v] & -> & Hkv).
    destruct (proj1 (Forall_forall _ _) rename_label_entry _ Hkv) as [H1 H2].
    cbn [fst snd] in *. by rewrite H1, H2.
  - by rewrite !(rename_label_other k Hk).
Qed.

Lemma labels_within (sheet : list (gmap string cell)) keys :
  Forall (λ r, Forall (λ k, k ∈ keys) (map_to_list r).*1) sheet →
  Forall (λ r, ∀ k, is_Some (r !! k) → k ∈ keys) sheet.
Proof.
  intros H. eapply Forall_impl; [exact H |]. intros r Hr k [v Hv].
  apply (proj1 (Forall_forall _ _) Hr). apply list_elem_of_fmap.
  exists (k, v). split; [done |]. by apply elem_of_map_to_list.
Qed.

End rename_facts.

(** X18.  The table of survey headers has no header and no new label
    twice; a header of the table is renamed to its label, any other label
    is kept, and renaming twice is renaming once.  A record whose labels
    stay distinct keeps every cell, each under the new label of its
    column. *)
Theorem rename_keeps_the_cells :
  (∀ kv : string * string,
     kv ∈ COLUMN_MAPPING → rename_label kv.1 = kv.2)
  ∧ (∀ k : string, k ∉ COLUMN_MAPPING.*1 → rename_label k = k)
  ∧ (∀ k : string, rename_label (rename_label k) = rename_label k)
  ∧ NoDup (COLUMN_MAPPING.*1) ∧ NoDup (COLUMN_MAPPING.*2)
  ∧ (∀ (sheet : frame) (keys : list string),
       Forall (λ r : row, ∀ k, is_Some (r !! k) → k ∈ keys) sheet →
       NoDup (rename_label <$> keys) →
       length (rename_columns sheet) = length sheet
       ∧ Forall2 (λ r r' : row,
                    (∀ k : string, k ∈ keys → r' !! rename_label k = r !! k)
                    ∧ (∀ k' : string,
                         is_Some (r' !! k') →
                         ∃ k : string, k' = rename_label k ∧ is_Some (r !! k)))
                 sheet (rename_columns sheet)).
Proof.
  split_and!.
  - intros kv Hkv.
    by destruct (proj1 (Forall_forall _ _) rename_label_entry _ Hkv).
  - apply rename_label_other.
  - apply rename_label_idemp.
  - apply mapping_keys_distinct.
  - apply mapping_values_distinct.
  - intros sheet keys Hkeys Hnd. unfold rename_columns. split.
    + by rewrite length_fmap.
    + apply Forall2_fmap_r, Forall_Forall2_diag.
      eapply Forall_impl; [exact Hkeys |]. intros r Hr. split.
      * intros k Hk. by apply (kmap_lookup_on rename_label r keys).
      * apply kmap_lookup_is_Some.
Qed.

Lemma rename_keeps_the_cells_witness :
  length (rename_columns three_schools) = length three_schools
  ∧ Forall2 (λ r r' : row,
               (∀ k : string, k ∈ COLUMN_MAPPING.*1 →
                              r' !! rename_label k = r !! k)
               ∧ (∀ k' : string,
                    is_Some (r' !! k') →
                    ∃ k : string, k' = rename_label k ∧ is_Some (r !! k)))
            three_schools (rename_columns three_schools).
Proof.
  apply (proj2 (proj2 (proj2 (proj2 (proj2 rename_keeps_the_cells))))
           three_schools (COLUMN_MAPPING.*1)).
  - apply labels_within, (bool_decide_unpack _). vm_compute. reflexivity.
  - apply (bool_decide_unpack _). vm_compute. reflexivity.
Defined.

(** ** The detail table *)

Section detail_facts.
Implicit Types (r q d : gmap string cell) (df dff rdf : list (gmap string cell)) (c k : string).

Lemma shown_labels :
  label_in ratio_mapping <$> kept_cols ratio_labels = cols_to_show.
Proof. reflexivity. Qed.

Lemma shown_labels_distinct :
  NoDup (label_in ratio_mapping <$> kept_cols ratio_labels).
Proof. by_computation. Qed.

Lemma mapping_shown :
  Forall (λ m : string * string,
            m.1 ∈ kept_cols ratio_labels ∧ label_in ratio_mapping m.1 = m.2)
         ratio_mapping.
Proof. by_computation. Qed.

(** The labels of a row of the ratio display of a cleaned sheet that
    brings no ratio column of its own. *)
Lemma ratios_df_labels dff rdf q :
  Forall ratio_record dff → ratios_df dff = Some rdf → q ∈ rdf →
  ∀ k, is_Some (q !! k) ↔ k ∈ kept_cols ratio_labels.
Proof.
  intros Hall Hrdf Hq k.
  destruct (ratios_df_spec dff Hall) as (rdf' & Hrdf' & HF2).
  rewrite Hrdf in Hrdf'. injection Hrdf' as <-.
  apply list_elem_of_lookup in Hq as [i Hi].
  destruct (Forall2_lookup_r _ _ _ _ _ HF2 Hi) as (r & Hr & Hres).
  apply list_elem_of_lookup_2, list_elem_of_filter in Hr as [_ Hr].
  pose proof (proj1 (Forall_forall _ _) Hall r Hr) as Hrec.
  assert (∀ c, c ∈ ratio_cols dff ↔ c ∈ ratio_labels) as Hcols.
  { intros c. destruct dff as [|r0 dff0]; [by apply elem_of_nil in Hr |].
    apply ratio_cols_labels. by apply Forall_cons in Hall as [? _]. }
  assert (k ∈ kept_cols (ratio_cols dff) ↔ k ∈ kept_cols ratio_labels) as Hkept.
  { unfold kept_cols. rewrite !elem_of_app. by rewrite Hcols. }
  rewrite (Hres k). rewrite <- Hkept.
  destruct (decide (k ∈ kept_cols (ratio_cols dff))) as [Hk | Hk].
  - split; [done | intros _].
    destruct Hrec as ((name & Hn) & (e & He & Hlab) & _).
    apply Hkept in Hk. unfold kept_cols in Hk.
    apply elem_of_cons in Hk as [-> | [-> | Hk]%elem_of_cons];
      [by rewrite Hn | by rewrite He |].
    destruct (Hlab k Hk) as (x & -> & _). done.
  - split; [by intros [? ?] | done].
Qed.

End detail_facts.

(** X19.  On the ratio display of a cleaned sheet that brings no ratio
    column of its own, the detail table is always computed: it has one row
    for each row of the display, in the same order, with the name, the
    enrollment and each of the six ratios under its display name, and no
    other column. *)
Theorem detail_table (sheet df dff rdf : frame) (selected : string) :
  load_and_clean_data sheet = Some df → own_ratio_columns sheet = true →
  df_filtered selected df = Some dff → ratios_df dff = Some rdf →
  ∃ disp : frame,
    ratios_display rdf = Some disp
    ∧ Forall2 (λ q d : row,
                 d !! "school_name" = q !! "school_name"
                 ∧ d !! "enrolled_students" = q !! "enrolled_students"
                 ∧ (∀ m : string * string,
                      m ∈ ratio_mapping → d !! m.2 = q !! m.1)
                 ∧ (∀ k : string, is_Some (d !! k) ↔ k ∈ cols_to_show))
              rdf disp.
Proof.
  intros Hload Hown Hf Hrdf.
  pose proof (filtered_ratio_records _ _ _ _ Hload Hown Hf) as Hall.
  set (f := label_in ratio_mapping).
  assert (Forall (λ q : row,
                    (∀ k, k ∈ kept_cols ratio_labels →
                          (kmap f q : row) !! f k = q !! k)
                    ∧ (∀ k, k ∈ kept_cols ratio_labels → is_Some (q !! k)))
                 rdf) as Hrows.
  { apply Forall_forall. intros q Hq.
    pose proof (ratios_df_labels dff rdf q Hall Hrdf Hq) as Hlab. split.
    - intros k Hk. apply (kmap_lookup_on f q (kept_cols ratio_labels));
        [intros k'; apply Hlab | apply shown_labels_distinct | exact Hk].
    - intros k Hk. by apply Hlab. }
  destruct (project_spec cols_to_show (rename_with ratio_mapping rdf))
    as (disp & Hdisp & HF2).
  { unfold rename_with. apply Forall_fmap.
    eapply Forall_impl; [exact Hrows |]. intros q [Hlook Hsome] c Hc.
    rewrite <- shown_labels in Hc.
    apply list_elem_of_fmap in Hc as (k & -> & Hk). unfold compose.
    fold f. rewrite (Hlook k Hk). by apply Hsome. }
  exists disp. split; [exact Hdisp |].
  unfold rename_with in HF2. apply (proj1 (Forall2_fmap_l _ _ _ _)) in HF2.
  assert (Forall2 (λ q d : row,
                     (∀ k, k ∈ kept_cols ratio_labels → d !! f k = q !! k)
                     ∧ (∀ k', is_Some (d !! k') ↔ k' ∈ cols_to_show)) rdf disp)
    as Hcells.
  { eapply Forall2_impl; [exact (Forall2_with_left _ _ _ _ Hrows HF2) |].
    intros q d [[Hlook Hsome] Hres]. unfold compose in Hres. fold f in Hres.
    split.
    - intros k Hk. rewrite <- (Hlook k Hk).
      apply (restricted_lookup _ _ _ _ Hres).
      rewrite <- shown_labels. by apply list_elem_of_fmap_2.
    - intros k'. rewrite (Hres k').
      destruct (decide (k' ∈ cols_to_show)) as [Hk' | Hk'].
      + split; [done | intros _]. rewrite <- shown_labels in Hk'.
        apply list_elem_of_fmap in Hk' as (k & -> & Hk).
        fold f. rewrite (Hlook k Hk). by apply Hsome.
      + split; [by intros [? ?] | done]. }
  eapply Forall2_impl; [exact Hcells |]. intros q d [Hlook Hkeys].
  split_and!.
  - exact (Hlook "school_name" (school_name_kept _)).
  - exact (Hlook "enrolled_students" (enrolled_kept _)).
  - intros m Hm.
    destruct (proj1 (Forall_forall _ _) mapping_shown m Hm) as [Hk Hfm].
    fold f in Hfm. rewrite <- Hfm. by apply Hlook.
  - exact Hkeys.
Qed.

Lemma detail_table_witness :
  ∃ disp : frame,
    ratios_display (ratios_of six_schools) = Some disp
    ∧ Forall2 (λ q d : row,
                 d !! "school_name" = q !! "school_name"
                 ∧ d !! "enrolled_students" = q !! "enrolled_students"
                 ∧ (∀ m : string * string,
                      m ∈ ratio_mapping → d !! m.2 = q !! m.1)
                 ∧ (∀ k : string, is_Some (d !! k) ↔ k ∈ cols_to_show))
              (ratios_of six_schools) disp.
Proof.
  apply (detail_table six_schools (cleaned six_schools) (cleaned six_schools)
           (ratios_of six_schools) "All").
  - apply cleaned_some. vm_compute. reflexivity.
  - vm_compute. reflexivity.
  - reflexivity.
  - apply some_default, (bool_decide_unpack _). vm_compute. reflexivity.
Defined.

(** ** Decimal numerals *)

Section decimal_facts.









End decimal_facts.



(** ** Selections with and without schools *)

Section selection_facts.
Implicit Types (r : gmap string cell) (df dff : list (gmap string cell)) (t sel : string).

Lemma filter_nonempty {A} (P : A → Prop) `{∀ a, Decision (P a)} (l : list A) (a : A) :
  a ∈ l → P a → filter P l ≠ [].
Proof.
  intros Ha HP Hnil.
  assert (a ∈ filter P l) as Hin by (by apply list_elem_of_filter).
  rewrite Hnil in Hin. by apply elem_of_nil in Hin.
Qed.

Lemma filter_none {A} (P : A → Prop) `{∀ a, Decision (P a)} (l : list A) :
  Forall (λ a, ¬ P a) l → filter P l = [].
Proof.
  induction 1 as [|a l Ha _ IH]; [done |].
  by rewrite filter_cons, decide_False, IH by done.
Qed.

End selection_facts.

(** X21.  Each department the sidebar offers for a cleaned frame selects
    at least one school.  A text that is no department of the frame
    selects none, and every report is still defined for that empty
    selection: no school, totals 0, a fulfillment of 1 with an empty
    breakdown, a Yes share of 0 and, in the second tab, the warning. *)
Theorem selections_with_and_without_schools :
  (∀ (sheet df : frame) (sel : string),
     load_and_clean_data sheet = Some df → sel ≠ "All" →
     (sel ∈ department_tags df →
      ∃ dff : frame, df_filtered sel df = Some dff ∧ dff ≠ [])
     ∧ (sel ∉ department_tags df → df_filtered sel df = Some []))
  ∧ total_schools [] = 0%nat
  ∧ total_enrolled [] = Some 0
  ∧ total_vacant [] = Some 0
  ∧ (∀ a b : string,
       ∃ f : fulfillment,
         create_fulfillment_chart [] a b = Some f
         ∧ total_need f = 0 ∧ fulfillment_ratio f = Fin 1 ∧ data f = [])
  ∧ (∀ col : string,
       ∃ ch : yes_no,
         create_yes_no_chart [] col = Some ch
         ∧ yes_count ch = 0 ∧ no_count ch = 0 ∧ yes_percent ch = Fin 0)
  ∧ ranking_tables [] = Some None.
Proof.
  split_and!; [| done | done | done | | | done].
  - intros sheet df sel Hload Hsel.
    destruct (df_filtered_total sheet df sel Hload) as [dff Hf].
    pose proof (df_filtered_department _ _ _ Hsel Hf) as Hdff. split.
    + intros (r & Hr & Ht)%elem_of_department_tags. exists dff.
      split; [exact Hf |]. rewrite Hdff.
      apply (filter_nonempty _ _ r Hr). by apply in_department_eq.
    + intros Hnot. rewrite Hf, Hdff. f_equal. apply filter_none, Forall_forall.
      intros r Hr Ht%in_department_eq. apply Hnot.
      apply elem_of_department_tags. by exists r.
  - intros a b. by eexists.
  - intros col. by eexists.
Qed.

Lemma selections_with_and_without_schools_witness :
  ("TGMS (Co-ed)" ∈ department_tags (cleaned six_schools) →
   ∃ dff : frame,
     df_filtered "TGMS (Co-ed)" (cleaned six_schools) = Some dff ∧ dff ≠ [])
  ∧ ("TGMS (Co-ed)" ∉ department_tags (cleaned six_schools) →
     df_filtered "TGMS (Co-ed)" (cleaned six_schools) = Some []).
Proof.
  apply (proj1 selections_with_and_without_schools six_schools
           (cleaned six_schools) "TGMS (Co-ed)").
  - apply cleaned_some. vm_compute. reflexivity.
  - done.
Defined.
